(** * s3service: the semantic-action dispatch layer, embedded and verified

    The service turns Schema.org JSON-LD actions into calls against an
    S3-compatible store.  This development embeds

    - the Go standard-library path functions the handlers call
      ([filepath.Base], [filepath.Clean], [filepath.Join], Unix flavour),
    - the typed handlers with their [returnError] helper
      (module [Typed]: [executeUploadAction], [executeDownloadAction],
      [executeDeleteAction], [executeListAction], [handleSemanticAction]),
    - the [SemanticAction] handlers of [cmd/semantic_api.go]
      (module [Semantic]), whose helpers come from the external
      [eve.evalgo.org/semantic] library and are taken as an interface,
    - the REST adapter (module [Rest]),
    - the handlers registered with the library's action registry (module
      [Registry]: the [execute...ActionImpl] functions and their
      wrappers),
    - the configuration loader of the integration tests (module
      [TestEnv]: [loadTestEnv]).

    Every call that leaves the process (store, local file system, clock)
    is answered by an oracle of a [World] and recorded in a trace, so that
    statements such as "no store call is attempted" are statements about
    the trace.  A [World] answers a listing with entries whose fields are
    all set; module [Sdk] runs the typed handlers on a page as the SDK
    declares it, where a field may be nil and the listing may panic. *)

From Stdlib Require Import ZArith Ascii.
From stdpp Require Import base strings list gmap.

Open Scope string_scope.
Open Scope list_scope.

(** ** Go's [path/filepath], Unix flavour *)

Module filepath.

Definition Separator : ascii := "/"%char.

Definition IsPathSeparator (c : ascii) : bool := bool_decide (c = Separator).

(** [Base] works from the end of the path; both loops of the Go function
    walk the path backwards, so they are written on the reversed path. *)

(* for len(path) > 0 && os.IsPathSeparator(path[len(path)-1]) { path = path[0 : len(path)-1] } *)
Fixpoint stripTrailing (rpath : list ascii) : list ascii :=
  match rpath with
  | c :: rest => if IsPathSeparator c then stripTrailing rest else rpath
  | [] => []
  end.

(* i := len(path) - 1; for i >= 0 && !os.IsPathSeparator(path[i]) { i-- }; path = path[i+1:] *)
Fixpoint lastElement (rpath : list ascii) : list ascii :=
  match rpath with
  | c :: rest => if IsPathSeparator c then [] else c :: lastElement rest
  | [] => []
  end.

Definition Base (path : string) : string :=
  if decide (path = "") then "."
  else
    let stripped := stripTrailing (reverse (String.list_ascii_of_string path)) in
    let elem := lastElement stripped in
    (* If empty now, it had only slashes. *)
    if decide (elem = []) then "/"
    else String.string_of_list_ascii (reverse elem).

(** [Clean]: the output buffer is kept reversed (its head is the byte
    written last); [dotdot] is the index in the buffer below which [..]
    must not backtrack. *)

(* out.w--; for out.w > dotdot && !os.IsPathSeparator(out.index(out.w)) { out.w-- }
   with [k] = out.w - dotdot before the first decrement *)
Fixpoint backtrack (k : nat) (rout : list ascii) : list ascii :=
  match k, rout with
  | S k', c :: rout' =>
      if IsPathSeparator c then rout'
      else match k' with
           | O => rout'
           | S _ => backtrack k' rout'
           end
  | _, _ => rout
  end.

(* for ; r < n && !os.IsPathSeparator(path[r]); r++ { out.append(path[r]) } *)
Fixpoint copyElement (rest rout : list ascii) : list ascii * list ascii :=
  match rest with
  | c :: rest' =>
      if IsPathSeparator c then (rest, rout) else copyElement rest' (c :: rout)
  | [] => ([], rout)
  end.

Definition atElementEnd (rest : list ascii) : bool :=
  match rest with
  | [] => true
  | c :: _ => IsPathSeparator c
  end.

Definition dot : ascii := "."%char.

(** One iteration of [for r < n] consumes at least one byte, so the length
    of the path bounds the number of iterations. *)
Fixpoint cleanLoop (fuel : nat) (rooted : bool) (rest rout : list ascii)
    (dotdot : nat) : list ascii :=
  match fuel with
  | O => rout
  | S fuel' =>
      match rest with
      | [] => rout
      | c :: rest1 =>
          if IsPathSeparator c then
            (* empty path element *)
            cleanLoop fuel' rooted rest1 rout dotdot
          else if bool_decide (c = dot) && atElementEnd rest1 then
            (* . element *)
            cleanLoop fuel' rooted rest1 rout dotdot
          else if bool_decide (c = dot)
                  && match rest1 with
                     | c1 :: rest2 => bool_decide (c1 = dot) && atElementEnd rest2
                     | [] => false
                     end then
            (* .. element: remove to last separator *)
            let rest2 := tail rest1 in
            if Nat.ltb dotdot (length rout) then
              cleanLoop fuel' rooted rest2
                (backtrack (length rout - dotdot) rout) dotdot
            else if negb rooted then
              let rout1 := if Nat.ltb 0 (length rout) then Separator :: rout else rout in
              let rout2 := dot :: dot :: rout1 in
              cleanLoop fuel' rooted rest2 rout2 (length rout2)
            else cleanLoop fuel' rooted rest2 rout dotdot
          else
            (* real path element: add slash if needed, copy element *)
            let rout1 :=
              if (rooted && negb (Nat.eqb (length rout) 1))
                 || (negb rooted && negb (Nat.eqb (length rout) 0))
              then Separator :: rout else rout in
            let '(rest', rout2) := copyElement rest rout1 in
            cleanLoop fuel' rooted rest' rout2 dotdot
      end
  end.

Definition Clean (path : string) : string :=
  if decide (path = "") then "."
  else
    let p := String.list_ascii_of_string path in
    let rooted := match p with c :: _ => IsPathSeparator c | [] => false end in
    let out :=
      if rooted then cleanLoop (length p) rooted (tail p) [Separator] 1
      else cleanLoop (length p) rooted p [] 0 in
    (* Turn empty string into "." *)
    if decide (out = []) then "."
    else String.string_of_list_ascii (reverse out).

(* strings.Join(elem, "/") *)
Fixpoint joinWithSeparator (elem : list string) : string :=
  match elem with
  | [] => ""
  | [e] => e
  | e :: rest => e +:+ "/" +:+ joinWithSeparator rest
  end.

(* for i, e := range elem { if e != "" { return Clean(strings.Join(elem[i:], "/")) } }; return "" *)
Fixpoint Join (elem : list string) : string :=
  match elem with
  | [] => ""
  | e :: rest =>
      if decide (e = "") then Join rest else Clean (joinWithSeparator elem)
  end.

(** A run of bytes with no separator in it: a single path element. *)
Definition noSeparator (l : list ascii) : Prop :=
  Forall (fun c => IsPathSeparator c = false) l.

End filepath.

(** ** Values exchanged with the semantic library and the store

    The struct declarations live in [eve.evalgo.org/semantic] and in the
    AWS SDK; each record lists the fields the handlers read or write. *)

(** Go's [(value, error)] pair; an [error] is kept as its message. *)
Inductive result (A : Type) : Type :=
| Ok (a : A)
| Err (e : string).
Arguments Ok {A} a.
Arguments Err {A} e.

Module S3Object.
Record t := mk {
  Type_ : string;
  Identifier : string;
  Name : string;
  ContentUrl : string;
  ContentSize : Z;
  EncodingFormat : string;
  UploadDate : string }.
End S3Object.

Module PropertyValue.
Record t := mk {
  Type_ : string;
  Name : string;
  Value : string }.
End PropertyValue.

(** The bucket descriptor a request carries as its [target]. *)
Module S3Bucket.
Record t := mk {
  Identifier : string;  (* bucket name *)
  Url : string;         (* endpoint URL *)
  Region : string;
  AccessKey : string;
  SecretKey : string }.
End S3Bucket.

(** What [semantic.ExtractS3Credentials] returns on success. *)
Record Credentials := mkCredentials {
  cred_url : string;
  cred_region : string;
  cred_accessKey : string;
  cred_secretKey : string;
  cred_bucketName : string }.

(** [*s3.Client] built by [createS3Client]. *)
Record S3Client := mkS3Client {
  BaseEndpoint : string;
  client_region : string;
  client_accessKey : string;
  client_secretKey : string;
  UsePathStyle : bool }.

Module GetObjectInput.
Record t := mk { Bucket : string; Key : string }.
End GetObjectInput.

Module DeleteObjectInput.
Record t := mk { Bucket : string; Key : string }.
End DeleteObjectInput.

Module ListObjectsV2Input.
Record t := mk {
  Bucket : string;
  Prefix : option string;
  ContinuationToken : option string }.
End ListObjectsV2Input.

(** [types.Object], one entry of a listing page, with the three fields the
    handlers read set.  The SDK declares them as pointers; [Page.Entry]
    below is the entry with its pointers, and [Sdk] runs the typed listing
    on it. *)
Module Object.
Record t := mk { Key : string; Size : Z; LastModified : string }.
End Object.

Module ListObjectsV2Output.
Record t := mk {
  Contents : list Object.t;
  IsTruncated : bool;
  NextContinuationToken : option string }.
End ListObjectsV2Output.

(** ** The world outside the process *)

(** Every call that leaves the process, in the order it is made. *)
Inductive Event : Type :=
| EvHetznerUploadFile (url accessKey secretKey bucketName filePath s3Key : string)
| EvGetObject (client : S3Client) (input : GetObjectInput.t)
| EvDeleteObject (client : S3Client) (input : DeleteObjectInput.t)
| EvListObjectsV2 (client : S3Client) (input : ListObjectsV2Input.t)
| EvStat (path : string)
| EvCreate (path : string)
| EvCopy (path : string) (body : string).

(** The calls that reach the object store. *)
Definition is_store_call (e : Event) : bool :=
  match e with
  | EvHetznerUploadFile _ _ _ _ _ _ => true
  | EvGetObject _ _ => true
  | EvDeleteObject _ _ => true
  | EvListObjectsV2 _ _ => true
  | EvStat _ | EvCreate _ | EvCopy _ _ => false
  end.

Definition store_calls (tr : list Event) : list Event := filter is_store_call tr.

(** How the outside answers.  [time_Now n] is the [n]-th reading of the
    clock, already formatted as RFC 3339. *)
Record World := mkWorld {
  time_Now : nat -> string;
  storage_HetznerUploadFile :
    string -> string -> string -> string -> string -> string -> option string;
  os_Stat : string -> result Z;
  config_LoadDefaultConfig : string -> string -> string -> option string;
  s3_GetObject : S3Client -> GetObjectInput.t -> result string;
  os_Create : string -> option string;
  io_Copy : string -> string -> result Z;
  s3_DeleteObject : S3Client -> DeleteObjectInput.t -> option string;
  s3_ListObjectsV2 : S3Client -> ListObjectsV2Input.t -> result ListObjectsV2Output.t }.

Record State := mkState {
  trace : list Event;
  ticks : nat }.

(** A handler run: reads and extends the state. *)
Definition M (A : Type) : Type := State -> A * State.

#[global] Instance M_ret : MRet M := fun A a s => (a, s).
#[global] Instance M_bind : MBind M := fun A B f m s => let '(a, s') := m s in f a s'.

Definition emit (e : Event) : M unit :=
  fun s => (tt, mkState (trace s ++ [e]) (ticks s)).

Section Effects.
Variable w : World.

(* time.Now().Format(time.RFC3339) *)
Definition now : M string :=
  fun s => (time_Now w (ticks s), mkState (trace s) (S (ticks s))).

Definition HetznerUploadFile (url accessKey secretKey bucketName filePath s3Key : string)
    : M (option string) :=
  emit (EvHetznerUploadFile url accessKey secretKey bucketName filePath s3Key);;
  mret (storage_HetznerUploadFile w url accessKey secretKey bucketName filePath s3Key).

Definition Stat (path : string) : M (result Z) :=
  emit (EvStat path);; mret (os_Stat w path).

Definition GetObject (client : S3Client) (input : GetObjectInput.t) : M (result string) :=
  emit (EvGetObject client input);; mret (s3_GetObject w client input).

Definition Create (path : string) : M (option string) :=
  emit (EvCreate path);; mret (os_Create w path).

Definition Copy (path body : string) : M (result Z) :=
  emit (EvCopy path body);; mret (io_Copy w path body).

Definition DeleteObject (client : S3Client) (input : DeleteObjectInput.t) : M (option string) :=
  emit (EvDeleteObject client input);; mret (s3_DeleteObject w client input).

Definition ListObjectsV2 (client : S3Client) (input : ListObjectsV2Input.t)
    : M (result ListObjectsV2Output.t) :=
  emit (EvListObjectsV2 client input);; mret (s3_ListObjectsV2 w client input).

(** [createS3Client]: loads the SDK configuration (no request is sent) and
    points the client at the endpoint with path-style addressing. *)
Definition createS3Client (endpoint region accessKey secretKey : string) : result S3Client :=
  match config_LoadDefaultConfig w region accessKey secretKey with
  | Some err => Err ("failed to load AWS config: " +:+ err)
  | None => Ok (mkS3Client endpoint region accessKey secretKey true)
  end.

End Effects.

(** ** Two idioms of the handlers *)

(* if s == "" { s = fallback } *)
Definition orDefault (s fallback : string) : string :=
  if decide (s = "") then fallback else s.

(* if s != "" { field = aws.String(s) }: the field stays nil for an empty string *)
Definition nonEmpty (s : string) : option string :=
  if decide (s = "") then None else Some s.

(** ** HTTP responses *)

(** What a handler hands back to echo: [c.JSON(code, body)] with an action
    envelope, [c.JSON(code, map[string]string{"error": msg})], or an
    [echo.NewHTTPError(code, msg)]. *)
Inductive Response (A : Type) : Type :=
| JSON (code : Z) (body : A)
| JSONError (code : Z) (error : string)
| HTTPError (code : Z) (message : string).
Arguments JSON {A} code body.
Arguments JSONError {A} code error.
Arguments HTTPError {A} code message.

Definition http_status {A : Type} (r : Response A) : Z :=
  match r with
  | JSON code _ | JSONError code _ | HTTPError code _ => code
  end.

Definition StatusOK : Z := 200.
Definition StatusBadRequest : Z := 400.
Definition StatusInternalServerError : Z := 500.

(** ** The typed action structs *)

Module S3UploadAction.
Record t := mk {
  StartTime : string;
  EndTime : string;
  ActionStatus : string;
  Target : option S3Bucket.t;
  Object : option S3Object.t;
  TargetUrl : string;
  Result : option S3Object.t;
  Error : option PropertyValue.t }.
Definition set_StartTime (v : string) (a : t) : t :=
  mk v (EndTime a) (ActionStatus a) (Target a) (Object a) (TargetUrl a) (Result a) (Error a).
Definition set_EndTime (v : string) (a : t) : t :=
  mk (StartTime a) v (ActionStatus a) (Target a) (Object a) (TargetUrl a) (Result a) (Error a).
Definition set_ActionStatus (v : string) (a : t) : t :=
  mk (StartTime a) (EndTime a) v (Target a) (Object a) (TargetUrl a) (Result a) (Error a).
Definition set_Result (v : option S3Object.t) (a : t) : t :=
  mk (StartTime a) (EndTime a) (ActionStatus a) (Target a) (Object a) (TargetUrl a) v (Error a).
Definition set_Error (v : option PropertyValue.t) (a : t) : t :=
  mk (StartTime a) (EndTime a) (ActionStatus a) (Target a) (Object a) (TargetUrl a) (Result a) v.
End S3UploadAction.

Module S3DownloadAction.
Record t := mk {
  StartTime : string;
  EndTime : string;
  ActionStatus : string;
  Target : option S3Bucket.t;
  Object : option S3Object.t;
  Result : option S3Object.t;
  Error : option PropertyValue.t }.
Definition set_StartTime (v : string) (a : t) : t :=
  mk v (EndTime a) (ActionStatus a) (Target a) (Object a) (Result a) (Error a).
Definition set_EndTime (v : string) (a : t) : t :=
  mk (StartTime a) v (ActionStatus a) (Target a) (Object a) (Result a) (Error a).
Definition set_ActionStatus (v : string) (a : t) : t :=
  mk (StartTime a) (EndTime a) v (Target a) (Object a) (Result a) (Error a).
Definition set_Result (v : option S3Object.t) (a : t) : t :=
  mk (StartTime a) (EndTime a) (ActionStatus a) (Target a) (Object a) v (Error a).
Definition set_Error (v : option PropertyValue.t) (a : t) : t :=
  mk (StartTime a) (EndTime a) (ActionStatus a) (Target a) (Object a) (Result a) v.
End S3DownloadAction.

(** The delete handler writes no result: the struct is given the fields the
    handler and [returnError] touch. *)
Module S3DeleteAction.
Record t := mk {
  StartTime : string;
  EndTime : string;
  ActionStatus : string;
  Target : option S3Bucket.t;
  Object : option S3Object.t;
  Error : option PropertyValue.t }.
Definition set_StartTime (v : string) (a : t) : t :=
  mk v (EndTime a) (ActionStatus a) (Target a) (Object a) (Error a).
Definition set_EndTime (v : string) (a : t) : t :=
  mk (StartTime a) v (ActionStatus a) (Target a) (Object a) (Error a).
Definition set_ActionStatus (v : string) (a : t) : t :=
  mk (StartTime a) (EndTime a) v (Target a) (Object a) (Error a).
Definition set_Error (v : option PropertyValue.t) (a : t) : t :=
  mk (StartTime a) (EndTime a) (ActionStatus a) (Target a) (Object a) v.
End S3DeleteAction.

(** [Result] is a slice: [None] is Go's nil slice, [Some []] the empty
    slice [make] returns. *)
Module S3ListAction.
Record t := mk {
  StartTime : string;
  EndTime : string;
  ActionStatus : string;
  Target : option S3Bucket.t;
  Query : string;
  Result : option (list S3Object.t);
  Error : option PropertyValue.t }.
Definition set_StartTime (v : string) (a : t) : t :=
  mk v (EndTime a) (ActionStatus a) (Target a) (Query a) (Result a) (Error a).
Definition set_EndTime (v : string) (a : t) : t :=
  mk (StartTime a) v (ActionStatus a) (Target a) (Query a) (Result a) (Error a).
Definition set_ActionStatus (v : string) (a : t) : t :=
  mk (StartTime a) (EndTime a) v (Target a) (Query a) (Result a) (Error a).
Definition set_Result (v : option (list S3Object.t)) (a : t) : t :=
  mk (StartTime a) (EndTime a) (ActionStatus a) (Target a) (Query a) v (Error a).
Definition set_Error (v : option PropertyValue.t) (a : t) : t :=
  mk (StartTime a) (EndTime a) (ActionStatus a) (Target a) (Query a) (Result a) v.
End S3ListAction.

Definition CompletedActionStatus : string := "CompletedActionStatus".
Definition FailedActionStatus : string := "FailedActionStatus".

(** The [PropertyValue] [returnError] hangs on a failed action. *)
Definition errorProperty (message : string) : PropertyValue.t :=
  PropertyValue.mk "PropertyValue" "error" message.

(* fmt.Sprintf("s3://%s/%s", bucketName, key) *)
Definition s3Url (bucketName key : string) : string :=
  "s3://" +:+ bucketName +:+ "/" +:+ key.

(** ** The typed handlers *)

Module Typed.

(** The [interface{}] that [semantic.ParseS3Action] returns and the type
    switches inspect; [AOther] is a value of any other dynamic type, kept
    by the name [%T] prints. *)
Inductive AnyAction : Type :=
| AUpload (v : S3UploadAction.t)
| ADownload (v : S3DownloadAction.t)
| ADelete (v : S3DeleteAction.t)
| AList (v : S3ListAction.t)
| AOther (goType : string).

(** The two functions of [eve.evalgo.org/semantic] this variant calls. *)
Record Lib := mkLib {
  ExtractS3Credentials : option S3Bucket.t -> result Credentials;
  ParseS3Action : string -> result AnyAction }.

Section Handlers.
Variable lib : Lib.
Variable w : World.

(* returnError is a helper to return error responses with proper action status *)
Definition returnError (action : AnyAction) (message : string) : M (Response AnyAction) :=
  match action with
  | AUpload v =>
      let v := S3UploadAction.set_ActionStatus FailedActionStatus v in
      let v := S3UploadAction.set_Error (Some (errorProperty message)) v in
      endTime ← now w;
      let v := S3UploadAction.set_EndTime endTime v in
      mret (JSON StatusInternalServerError (AUpload v))
  | ADownload v =>
      let v := S3DownloadAction.set_ActionStatus FailedActionStatus v in
      let v := S3DownloadAction.set_Error (Some (errorProperty message)) v in
      endTime ← now w;
      let v := S3DownloadAction.set_EndTime endTime v in
      mret (JSON StatusInternalServerError (ADownload v))
  | ADelete v =>
      let v := S3DeleteAction.set_ActionStatus FailedActionStatus v in
      let v := S3DeleteAction.set_Error (Some (errorProperty message)) v in
      endTime ← now w;
      let v := S3DeleteAction.set_EndTime endTime v in
      mret (JSON StatusInternalServerError (ADelete v))
  | AList v =>
      let v := S3ListAction.set_ActionStatus FailedActionStatus v in
      let v := S3ListAction.set_Error (Some (errorProperty message)) v in
      endTime ← now w;
      let v := S3ListAction.set_EndTime endTime v in
      mret (JSON StatusInternalServerError (AList v))
  | AOther _ => mret (HTTPError StatusInternalServerError message)
  end.

(* executeUploadAction handles file upload to S3 operations *)
Definition executeUploadAction (action : S3UploadAction.t) : M (Response AnyAction) :=
  startTime ← now w;
  let action := S3UploadAction.set_StartTime startTime action in
  (* Extract S3 credentials *)
  match ExtractS3Credentials lib (S3UploadAction.Target action) with
  | Err err => returnError (AUpload action) ("Failed to extract S3 credentials: " +:+ err)
  | Ok cred =>
      (* Get file path from object *)
      match S3UploadAction.Object action with
      | None => returnError (AUpload action) "Object is required"
      | Some object =>
          let filePath := S3Object.ContentUrl object in
          if decide (filePath = "") then
            returnError (AUpload action) "Object contentUrl (file path) is required"
          else
            (* Determine S3 key *)
            let s3Key := S3UploadAction.TargetUrl action in
            let s3Key := orDefault s3Key (S3Object.Identifier object) in
            let s3Key := orDefault s3Key (filepath.Base filePath) in
            uploadErr ← HetznerUploadFile w (cred_url cred) (cred_accessKey cred)
                          (cred_secretKey cred) (cred_bucketName cred) filePath s3Key;
            match uploadErr with
            | Some err => returnError (AUpload action) ("Failed to upload file: " +:+ err)
            | None =>
                (* Get file info for result *)
                fileInfo ← Stat w filePath;
                action ← match fileInfo with
                         | Ok size =>
                             uploadDate ← now w;
                             mret (S3UploadAction.set_Result
                                     (Some (S3Object.mk "MediaObject" s3Key
                                              (filepath.Base filePath)
                                              (s3Url (cred_bucketName cred) s3Key)
                                              size (S3Object.EncodingFormat object)
                                              uploadDate))
                                     action)
                         | Err _ => mret action
                         end;
                let action := S3UploadAction.set_ActionStatus CompletedActionStatus action in
                endTime ← now w;
                let action := S3UploadAction.set_EndTime endTime action in
                mret (JSON StatusOK (AUpload action))
            end
      end
  end.

(* executeDownloadAction handles file download from S3 operations *)
Definition executeDownloadAction (action : S3DownloadAction.t) : M (Response AnyAction) :=
  startTime ← now w;
  let action := S3DownloadAction.set_StartTime startTime action in
  (* Extract S3 credentials *)
  match ExtractS3Credentials lib (S3DownloadAction.Target action) with
  | Err err => returnError (ADownload action) ("Failed to extract S3 credentials: " +:+ err)
  | Ok cred =>
      (* Get S3 key from object *)
      match S3DownloadAction.Object action with
      | None => returnError (ADownload action) "Object is required"
      | Some object =>
          let s3Key := S3Object.Identifier object in
          let s3Key := orDefault s3Key (S3Object.Name object) in
          if decide (s3Key = "") then
            returnError (ADownload action) "Object identifier (S3 key) is required"
          else
            (* Determine local download path *)
            let downloadPath := S3Object.ContentUrl object in
            let downloadPath :=
              orDefault downloadPath (filepath.Join ["/tmp"; filepath.Base s3Key]) in
            (* Create S3 client *)
            match createS3Client w (cred_url cred) (cred_region cred)
                    (cred_accessKey cred) (cred_secretKey cred) with
            | Err err => returnError (ADownload action) ("Failed to create S3 client: " +:+ err)
            | Ok client =>
                (* Download file *)
                got ← GetObject w client (GetObjectInput.mk (cred_bucketName cred) s3Key);
                match got with
                | Err err => returnError (ADownload action) ("Failed to download file: " +:+ err)
                | Ok body =>
                    (* Write to local file *)
                    createErr ← Create w downloadPath;
                    match createErr with
                    | Some err =>
                        returnError (ADownload action) ("Failed to create local file: " +:+ err)
                    | None =>
                        copied ← Copy w downloadPath body;
                        match copied with
                        | Err err =>
                            returnError (ADownload action) ("Failed to write file: " +:+ err)
                        | Ok size =>
                            (* Set result *)
                            let action :=
                              S3DownloadAction.set_Result
                                (Some (S3Object.mk "MediaObject" s3Key (filepath.Base s3Key)
                                         downloadPath size (S3Object.EncodingFormat object) ""))
                                action in
                            let action :=
                              S3DownloadAction.set_ActionStatus CompletedActionStatus action in
                            endTime ← now w;
                            let action := S3DownloadAction.set_EndTime endTime action in
                            mret (JSON StatusOK (ADownload action))
                        end
                    end
                end
            end
      end
  end.

(* executeDeleteAction handles file deletion from S3 operations *)
Definition executeDeleteAction (action : S3DeleteAction.t) : M (Response AnyAction) :=
  startTime ← now w;
  let action := S3DeleteAction.set_StartTime startTime action in
  (* Extract S3 credentials *)
  match ExtractS3Credentials lib (S3DeleteAction.Target action) with
  | Err err => returnError (ADelete action) ("Failed to extract S3 credentials: " +:+ err)
  | Ok cred =>
      (* Get S3 key from object *)
      match S3DeleteAction.Object action with
      | None => returnError (ADelete action) "Object is required"
      | Some object =>
          let s3Key := S3Object.Identifier object in
          let s3Key := orDefault s3Key (S3Object.Name object) in
          if decide (s3Key = "") then
            returnError (ADelete action) "Object identifier (S3 key) is required"
          else
            (* Create S3 client *)
            match createS3Client w (cred_url cred) (cred_region cred)
                    (cred_accessKey cred) (cred_secretKey cred) with
            | Err err => returnError (ADelete action) ("Failed to create S3 client: " +:+ err)
            | Ok client =>
                (* Delete object *)
                deleteErr ← DeleteObject w client
                              (DeleteObjectInput.mk (cred_bucketName cred) s3Key);
                match deleteErr with
                | Some err => returnError (ADelete action) ("Failed to delete file: " +:+ err)
                | None =>
                    let action :=
                      S3DeleteAction.set_ActionStatus CompletedActionStatus action in
                    endTime ← now w;
                    let action := S3DeleteAction.set_EndTime endTime action in
                    mret (JSON StatusOK (ADelete action))
                end
            end
      end
  end.

(** One entry of the result list, built from one [types.Object]. *)
Definition listedObject (bucketName : string) (obj : Object.t) : S3Object.t :=
  S3Object.mk "MediaObject" (Object.Key obj) (filepath.Base (Object.Key obj))
    (s3Url bucketName (Object.Key obj)) (Object.Size obj) "" (Object.LastModified obj).

(* executeListAction handles listing objects in S3 bucket *)
Definition executeListAction (action : S3ListAction.t) : M (Response AnyAction) :=
  startTime ← now w;
  let action := S3ListAction.set_StartTime startTime action in
  (* Extract S3 credentials *)
  match ExtractS3Credentials lib (S3ListAction.Target action) with
  | Err err => returnError (AList action) ("Failed to extract S3 credentials: " +:+ err)
  | Ok cred =>
      (* Create S3 client *)
      match createS3Client w (cred_url cred) (cred_region cred)
              (cred_accessKey cred) (cred_secretKey cred) with
      | Err err => returnError (AList action) ("Failed to create S3 client: " +:+ err)
      | Ok client =>
          (* List objects with optional prefix *)
          let input :=
            ListObjectsV2Input.mk (cred_bucketName cred)
              (nonEmpty (S3ListAction.Query action)) None in
          listed ← ListObjectsV2 w client input;
          match listed with
          | Err err => returnError (AList action) ("Failed to list objects: " +:+ err)
          | Ok page =>
              (* Build result list *)
              let objects :=
                map (listedObject (cred_bucketName cred)) (ListObjectsV2Output.Contents page) in
              let action := S3ListAction.set_Result (Some objects) action in
              let action := S3ListAction.set_ActionStatus CompletedActionStatus action in
              endTime ← now w;
              let action := S3ListAction.set_EndTime endTime action in
              mret (JSON StatusOK (AList action))
          end
      end
  end.

(* switch v := action.(type) { case *semantic.S3UploadAction: ... default: ... } *)
Definition dispatch (action : AnyAction) : M (Response AnyAction) :=
  match action with
  | AUpload v => executeUploadAction v
  | ADownload v => executeDownloadAction v
  | ADelete v => executeDeleteAction v
  | AList v => executeListAction v
  | AOther goType =>
      mret (HTTPError StatusBadRequest ("Unsupported action type: " +:+ goType))
  end.

(* handleSemanticAction handles Schema.org JSON-LD actions for S3 operations *)
Definition handleSemanticAction (body : result string) : M (Response AnyAction) :=
  match body with
  | Err err => mret (HTTPError StatusBadRequest ("Failed to read request body: " +:+ err))
  | Ok body =>
      (* Use EVE library's ParseS3Action for routing and parsing *)
      match ParseS3Action lib body with
      | Err err => mret (HTTPError StatusBadRequest ("Failed to parse action: " +:+ err))
      | Ok action =>
          (* Route to appropriate handler based on type *)
          dispatch action
      end
  end.

End Handlers.

End Typed.

(** ** The [SemanticAction] handlers of [cmd/semantic_api.go] *)

Module Semantic.

(** A value held in [Properties] ([map[string]interface{}]); [AOpaque] is a
    value of any other dynamic type. *)
Inductive Any : Type :=
| AString (s : string)
| AS3Object (o : S3Object.t)
| AS3Objects (l : list S3Object.t)
| AOpaque (goType : string).

Module SemanticAction.
Record t := mk {
  Type_ : string;
  ActionStatus : string;
  Properties : gmap string Any }.
Definition set_Property (key : string) (v : Any) (a : t) : t :=
  mk (Type_ a) (ActionStatus a) (<[key := v]> (Properties a)).
End SemanticAction.

(** The helpers of [eve.evalgo.org/semantic] the handlers call.  They work
    on the action alone; [ReturnActionError] yields the response it writes. *)
Record Lib := mkLib {
  ParseSemanticAction : string -> result SemanticAction.t;
  GetS3BucketFromAction : SemanticAction.t -> result S3Bucket.t;
  GetS3ObjectFromAction : SemanticAction.t -> result S3Object.t;
  ExtractS3Credentials : option S3Bucket.t -> result Credentials;
  GetS3TargetUrlFromAction : SemanticAction.t -> string;
  SetSuccessOnAction : SemanticAction.t -> SemanticAction.t;
  ReturnActionError :
    SemanticAction.t -> string -> option string -> Response SemanticAction.t }.

(** The four branches of the dispatch [switch]. *)
Inductive Handler : Type :=
| UploadHandler
| DownloadHandler
| DeleteHandler
| ListHandler.

(* switch action.Type { case "CreateAction": ... case "DownloadAction": ...
   case "DeleteAction": ... case "SearchAction": ... default: ... } *)
Definition route (actionType : string) : option Handler :=
  if decide (actionType = "CreateAction") then Some UploadHandler
  else if decide (actionType = "DownloadAction") then Some DownloadHandler
  else if decide (actionType = "DeleteAction") then Some DeleteHandler
  else if decide (actionType = "SearchAction") then Some ListHandler
  else None.

Section Handlers.
Variable lib : Lib.
Variable w : World.

(* executeUploadAction handles file upload to S3 operations *)
Definition executeUploadAction (action : SemanticAction.t) : M (Response SemanticAction.t) :=
  (* Extract S3 bucket and object using helpers *)
  match GetS3BucketFromAction lib action with
  | Err err => mret (ReturnActionError lib action "Failed to extract S3 bucket" (Some err))
  | Ok bucket =>
  match GetS3ObjectFromAction lib action with
  | Err err => mret (ReturnActionError lib action "Failed to extract S3 object" (Some err))
  | Ok object =>
  (* Extract S3 credentials *)
  match ExtractS3Credentials lib (Some bucket) with
  | Err err => mret (ReturnActionError lib action "Failed to extract S3 credentials" (Some err))
  | Ok cred =>
      (* Get file path from object *)
      let filePath := S3Object.ContentUrl object in
      if decide (filePath = "") then
        mret (ReturnActionError lib action "Object contentUrl (file path) is required" None)
      else
        (* Determine S3 key *)
        let s3Key := GetS3TargetUrlFromAction lib action in
        let s3Key := orDefault s3Key (S3Object.Identifier object) in
        let s3Key := orDefault s3Key (filepath.Base filePath) in
        uploadErr ← HetznerUploadFile w (cred_url cred) (cred_accessKey cred)
                      (cred_secretKey cred) (cred_bucketName cred) filePath s3Key;
        match uploadErr with
        | Some err => mret (ReturnActionError lib action "Failed to upload file" (Some err))
        | None =>
            (* Get file info for result *)
            fileInfo ← Stat w filePath;
            action ← match fileInfo with
                     | Ok size =>
                         uploadDate ← now w;
                         mret (SemanticAction.set_Property "result"
                                 (AS3Object
                                    (S3Object.mk "MediaObject" s3Key (filepath.Base filePath)
                                       (s3Url (cred_bucketName cred) s3Key) size
                                       (S3Object.EncodingFormat object) uploadDate))
                                 action)
                     | Err _ => mret action
                     end;
            mret (JSON StatusOK (SetSuccessOnAction lib action))
        end
  end end end.

(* executeDownloadAction handles file download from S3 operations *)
Definition executeDownloadAction (action : SemanticAction.t) : M (Response SemanticAction.t) :=
  match GetS3BucketFromAction lib action with
  | Err err => mret (ReturnActionError lib action "Failed to extract S3 bucket" (Some err))
  | Ok bucket =>
  match GetS3ObjectFromAction lib action with
  | Err err => mret (ReturnActionError lib action "Failed to extract S3 object" (Some err))
  | Ok object =>
  match ExtractS3Credentials lib (Some bucket) with
  | Err err => mret (ReturnActionError lib action "Failed to extract S3 credentials" (Some err))
  | Ok cred =>
      (* Get S3 key from object *)
      let s3Key := S3Object.Identifier object in
      let s3Key := orDefault s3Key (S3Object.Name object) in
      if decide (s3Key = "") then
        mret (ReturnActionError lib action "Object identifier (S3 key) is required" None)
      else
        (* Determine local download path *)
        let downloadPath := S3Object.ContentUrl object in
        let downloadPath :=
          orDefault downloadPath (filepath.Join ["/tmp"; filepath.Base s3Key]) in
        match createS3Client w (cred_url cred) (cred_region cred)
                (cred_accessKey cred) (cred_secretKey cred) with
        | Err err => mret (ReturnActionError lib action "Failed to create S3 client" (Some err))
        | Ok client =>
            got ← GetObject w client (GetObjectInput.mk (cred_bucketName cred) s3Key);
            match got with
            | Err err => mret (ReturnActionError lib action "Failed to download file" (Some err))
            | Ok body =>
                createErr ← Create w downloadPath;
                match createErr with
                | Some err =>
                    mret (ReturnActionError lib action "Failed to create local file" (Some err))
                | None =>
                    copied ← Copy w downloadPath body;
                    match copied with
                    | Err err =>
                        mret (ReturnActionError lib action "Failed to write file" (Some err))
                    | Ok size =>
                        let action :=
                          SemanticAction.set_Property "result"
                            (AS3Object
                               (S3Object.mk "MediaObject" s3Key (filepath.Base s3Key)
                                  downloadPath size (S3Object.EncodingFormat object) ""))
                            action in
                        mret (JSON StatusOK (SetSuccessOnAction lib action))
                    end
                end
            end
        end
  end end end.

(* executeDeleteAction handles file deletion from S3 operations *)
Definition executeDeleteAction (action : SemanticAction.t) : M (Response SemanticAction.t) :=
  match GetS3BucketFromAction lib action with
  | Err err => mret (ReturnActionError lib action "Failed to extract S3 bucket" (Some err))
  | Ok bucket =>
  match GetS3ObjectFromAction lib action with
  | Err err => mret (ReturnActionError lib action "Failed to extract S3 object" (Some err))
  | Ok object =>
  match ExtractS3Credentials lib (Some bucket) with
  | Err err => mret (ReturnActionError lib action "Failed to extract S3 credentials" (Some err))
  | Ok cred =>
      let s3Key := S3Object.Identifier object in
      let s3Key := orDefault s3Key (S3Object.Name object) in
      if decide (s3Key = "") then
        mret (ReturnActionError lib action "Object identifier (S3 key) is required" None)
      else
        match createS3Client w (cred_url cred) (cred_region cred)
                (cred_accessKey cred) (cred_secretKey cred) with
        | Err err => mret (ReturnActionError lib action "Failed to create S3 client" (Some err))
        | Ok client =>
            deleteErr ← DeleteObject w client
                          (DeleteObjectInput.mk (cred_bucketName cred) s3Key);
            match deleteErr with
            | Some err => mret (ReturnActionError lib action "Failed to delete file" (Some err))
            | None => mret (JSON StatusOK (SetSuccessOnAction lib action))
            end
        end
  end end end.

(* if query, ok := action.Properties["query"].(string); ok && query != "" *)
Definition queryPrefix (action : SemanticAction.t) : option string :=
  match SemanticAction.Properties action !! "query" with
  | Some (AString query) => nonEmpty query
  | _ => None
  end.

(* executeListAction handles listing objects in S3 bucket *)
Definition executeListAction (action : SemanticAction.t) : M (Response SemanticAction.t) :=
  match GetS3BucketFromAction lib action with
  | Err err => mret (ReturnActionError lib action "Failed to extract S3 bucket" (Some err))
  | Ok bucket =>
  match ExtractS3Credentials lib (Some bucket) with
  | Err err => mret (ReturnActionError lib action "Failed to extract S3 credentials" (Some err))
  | Ok cred =>
      match createS3Client w (cred_url cred) (cred_region cred)
              (cred_accessKey cred) (cred_secretKey cred) with
      | Err err => mret (ReturnActionError lib action "Failed to create S3 client" (Some err))
      | Ok client =>
          (* List objects with optional prefix from query *)
          let input :=
            ListObjectsV2Input.mk (cred_bucketName cred) (queryPrefix action) None in
          listed ← ListObjectsV2 w client input;
          match listed with
          | Err err => mret (ReturnActionError lib action "Failed to list objects" (Some err))
          | Ok page =>
              let objects :=
                map (Typed.listedObject (cred_bucketName cred))
                    (ListObjectsV2Output.Contents page) in
              let action := SemanticAction.set_Property "result" (AS3Objects objects) action in
              mret (JSON StatusOK (SetSuccessOnAction lib action))
          end
      end
  end end.

Definition runHandler (h : Handler) (action : SemanticAction.t)
    : M (Response SemanticAction.t) :=
  match h with
  | UploadHandler => executeUploadAction action
  | DownloadHandler => executeDownloadAction action
  | DeleteHandler => executeDeleteAction action
  | ListHandler => executeListAction action
  end.

(* handleSemanticAction handles Schema.org JSON-LD actions for S3 operations *)
Definition handleSemanticAction (body : result string) : M (Response SemanticAction.t) :=
  match body with
  | Err err => mret (HTTPError StatusBadRequest ("Failed to read request body: " +:+ err))
  | Ok body =>
      match ParseSemanticAction lib body with
      | Err err => mret (HTTPError StatusBadRequest ("Failed to parse action: " +:+ err))
      | Ok action =>
          match route (SemanticAction.Type_ action) with
          | Some h => runHandler h action
          | None =>
              mret (HTTPError StatusBadRequest
                      ("Unsupported action type: " +:+ SemanticAction.Type_ action))
          end
      end
  end.

End Handlers.

End Semantic.

(** ** The REST adapter *)

Module Rest.

(** The JSON-LD envelope the adapter builds ([map[string]interface{}] with
    string and nested-map values), keys in the order they are set. *)
#[warnings="-register-all"]
Inductive JSONValue : Type :=
| JString (s : string)
| JObject (fields : list (string * JSONValue)).

(* action[key] *)
Definition jsonField (key : string) (v : JSONValue) : option JSONValue :=
  match v with
  | JObject fields =>
      match list_find (fun kv => bool_decide (fst kv = key)) fields with
      | Some (_, (_, value)) => Some value
      | None => None
      end
  | JString _ => None
  end.

(* action[key] = value, on a map that does not hold [key] yet *)
Definition setField (key : string) (value : JSONValue) (v : JSONValue) : JSONValue :=
  match v with
  | JObject fields => JObject (fields ++ [(key, value)])
  | JString _ => v
  end.

Module UploadObjectRequest.
Record t := mk {
  Key : string;
  Content : string;  (* base64 encoded *)
  Bucket : string }.
End UploadObjectRequest.

Module CreateBucketRequest.
Record t := mk { Name : string }.
End CreateBucketRequest.

(** The adapter re-enters the semantic handler of the same package; it is
    stated over that handler [handleSemanticAction] and over
    [json.Marshal], so that "the dispatcher is not reached" reads: the
    outcome does not depend on the handler. *)
Section Adapter.
Context {A : Type}.
Variable json_Marshal : JSONValue -> result string.
Variable handleSemanticAction : result string -> M (Response A).

(* callSemanticHandler converts action to JSON and calls the semantic action handler *)
Definition callSemanticHandler (action : JSONValue) : M (Response A) :=
  match json_Marshal action with
  | Err err =>
      mret (JSONError StatusInternalServerError ("Failed to marshal action: " +:+ err))
  | Ok actionJSON => handleSemanticAction (Ok actionJSON)
  end.

(* if bucket != "" { action["instrument"] = {"@type": "PropertyValue", "name": "bucket", "value": bucket} } *)
Definition withBucket (bucket : string) (action : JSONValue) : JSONValue :=
  if decide (bucket = "") then action
  else setField "instrument"
         (JObject [("@type", JString "PropertyValue"); ("name", JString "bucket");
                   ("value", JString bucket)])
         action.

(** The envelope of [uploadObjectREST]. *)
Definition uploadObjectEnvelope (req : UploadObjectRequest.t) : JSONValue :=
  withBucket (UploadObjectRequest.Bucket req)
    (JObject [("@context", JString "https://schema.org");
              ("@type", JString "CreateAction");
              ("object", JObject [("@type", JString "DigitalDocument");
                                  ("identifier", JString (UploadObjectRequest.Key req));
                                  ("text", JString (UploadObjectRequest.Content req))])]).

(* uploadObjectREST handles REST POST /v1/api/objects; [bound] is c.Bind(&req) *)
Definition uploadObjectREST (bound : result UploadObjectRequest.t) : M (Response A) :=
  match bound with
  | Err err => mret (JSONError StatusBadRequest ("Invalid request: " +:+ err))
  | Ok req =>
      if decide (UploadObjectRequest.Key req = "") then
        mret (JSONError StatusBadRequest "key is required")
      else if decide (UploadObjectRequest.Content req = "") then
        mret (JSONError StatusBadRequest "content is required")
      else
        (* Convert to JSON-LD CreateAction *)
        callSemanticHandler (uploadObjectEnvelope req)
  end.

(** The envelope of [getObjectREST]. *)
Definition getObjectEnvelope (key bucket : string) : JSONValue :=
  withBucket bucket
    (JObject [("@context", JString "https://schema.org");
              ("@type", JString "SearchAction");
              ("object", JObject [("@type", JString "DigitalDocument");
                                  ("identifier", JString key)])]).

(* getObjectREST handles REST GET /v1/api/objects/:key *)
Definition getObjectREST (key bucket : string) : M (Response A) :=
  if decide (key = "") then mret (JSONError StatusBadRequest "key is required")
  else
    (* Convert to JSON-LD SearchAction *)
    callSemanticHandler (getObjectEnvelope key bucket).

(** The envelope of [deleteObjectREST]. *)
Definition deleteObjectEnvelope (key bucket : string) : JSONValue :=
  withBucket bucket
    (JObject [("@context", JString "https://schema.org");
              ("@type", JString "DeleteAction");
              ("object", JObject [("@type", JString "DigitalDocument");
                                  ("identifier", JString key)])]).

(* deleteObjectREST handles REST DELETE /v1/api/objects/:key *)
Definition deleteObjectREST (key bucket : string) : M (Response A) :=
  if decide (key = "") then mret (JSONError StatusBadRequest "key is required")
  else
    (* Convert to JSON-LD DeleteAction *)
    callSemanticHandler (deleteObjectEnvelope key bucket).

(* listBucketsREST handles REST GET /v1/api/buckets *)
Definition listBucketsREST : M (Response A) :=
  callSemanticHandler
    (JObject [("@context", JString "https://schema.org");
              ("@type", JString "SearchAction");
              ("query", JString "list-buckets")]).

(** The envelope of [createBucketREST]. *)
Definition createBucketEnvelope (req : CreateBucketRequest.t) : JSONValue :=
  JObject [("@context", JString "https://schema.org");
           ("@type", JString "CreateAction");
           ("object", JObject [("@type", JString "Thing");
                               ("name", JString (CreateBucketRequest.Name req));
                               ("identifier", JString "bucket")])].

(* createBucketREST handles REST POST /v1/api/buckets; [bound] is c.Bind(&req) *)
Definition createBucketREST (bound : result CreateBucketRequest.t) : M (Response A) :=
  match bound with
  | Err err => mret (JSONError StatusBadRequest ("Invalid request: " +:+ err))
  | Ok req =>
      if decide (CreateBucketRequest.Name req = "") then
        mret (JSONError StatusBadRequest "name is required")
      else
        (* Convert to JSON-LD CreateAction *)
        callSemanticHandler (createBucketEnvelope req)
  end.

(** The REST requests, by route. *)
Inductive Request : Type :=
| PostObjects (bound : result UploadObjectRequest.t)
| GetObjects (key bucket : string)
| DeleteObjects (key bucket : string)
| GetBuckets
| PostBuckets (bound : result CreateBucketRequest.t).

(* registerRESTEndpoints adds REST endpoints that convert to semantic actions *)
Definition serve (req : Request) : M (Response A) :=
  match req with
  | PostObjects bound => uploadObjectREST bound
  | GetObjects key bucket => getObjectREST key bucket
  | DeleteObjects key bucket => deleteObjectREST key bucket
  | GetBuckets => listBucketsREST
  | PostBuckets bound => createBucketREST bound
  end.

End Adapter.

End Rest.

(** ** Reading an envelope *)

Module Envelope.
Import Typed.

(** Whether the action is one of the four typed actions. *)
Definition typed (a : AnyAction) : bool :=
  match a with
  | AOther _ => false
  | _ => true
  end.

Definition status (a : AnyAction) : string :=
  match a with
  | AUpload v => S3UploadAction.ActionStatus v
  | ADownload v => S3DownloadAction.ActionStatus v
  | ADelete v => S3DeleteAction.ActionStatus v
  | AList v => S3ListAction.ActionStatus v
  | AOther _ => ""
  end.

Definition error (a : AnyAction) : option PropertyValue.t :=
  match a with
  | AUpload v => S3UploadAction.Error v
  | ADownload v => S3DownloadAction.Error v
  | ADelete v => S3DeleteAction.Error v
  | AList v => S3ListAction.Error v
  | AOther _ => None
  end.

(** Whether a result is populated; a delete action has no result to
    populate. *)
Definition hasResult (a : AnyAction) : bool :=
  match a with
  | AUpload v => bool_decide (is_Some (S3UploadAction.Result v))
  | ADownload v => bool_decide (is_Some (S3DownloadAction.Result v))
  | ADelete _ => false
  | AList v => bool_decide (is_Some (S3ListAction.Result v))
  | AOther _ => false
  end.

Definition hasError (a : AnyAction) : bool := bool_decide (is_Some (error a)).

Definition target (a : AnyAction) : option S3Bucket.t :=
  match a with
  | AUpload v => S3UploadAction.Target v
  | ADownload v => S3DownloadAction.Target v
  | ADelete v => S3DeleteAction.Target v
  | AList v => S3ListAction.Target v
  | AOther _ => None
  end.

(** A request as it arrives: no result and no error on it yet. *)
Definition fresh (a : AnyAction) : bool := negb (hasResult a) && negb (hasError a).

(** The envelope a response carries, if it carries one. *)
Definition ofResponse {A : Type} (r : Response A) : option A :=
  match r with
  | JSON _ body => Some body
  | _ => None
  end.

End Envelope.

(** The events a run appended to the trace. *)
Definition appended (s s' : State) : list Event := drop (length (trace s)) (trace s').

(** ** Reading a trace *)

(** The keys [HetznerUploadFile] was asked to store objects under. *)
Definition uploadedKeys (tr : list Event) : list string :=
  omap (fun e => match e with
                 | EvHetznerUploadFile _ _ _ _ _ s3Key => Some s3Key
                 | _ => None
                 end) tr.

(** The local paths [os.Create] was asked to open for writing. *)
Definition createdPaths (tr : list Event) : list string :=
  omap (fun e => match e with
                 | EvCreate path => Some path
                 | _ => None
                 end) tr.

(** The listing requests sent to the store. *)
Definition listingCalls (tr : list Event) : list ListObjectsV2Input.t :=
  omap (fun e => match e with
                 | EvListObjectsV2 _ input => Some input
                 | _ => None
                 end) tr.

(** The events of the download path: fetching an object and writing it to
    a local file. *)
Definition is_download_event (e : Event) : bool :=
  match e with
  | EvGetObject _ _ | EvCreate _ | EvCopy _ _ => true
  | _ => false
  end.

(** A store call, or a write to the local file, that the world answers
    with an error.  ([os.Stat] after an upload is not among them: the
    upload handler goes on without the file's size.) *)
Definition answeredWithError (w : World) (e : Event) : bool :=
  match e with
  | EvHetznerUploadFile url accessKey secretKey bucketName filePath s3Key =>
      bool_decide
        (is_Some (storage_HetznerUploadFile w url accessKey secretKey bucketName filePath s3Key))
  | EvGetObject client input =>
      match s3_GetObject w client input with Err _ => true | Ok _ => false end
  | EvDeleteObject client input => bool_decide (is_Some (s3_DeleteObject w client input))
  | EvListObjectsV2 client input =>
      match s3_ListObjectsV2 w client input with Err _ => true | Ok _ => false end
  | EvCreate path => bool_decide (is_Some (os_Create w path))
  | EvCopy path body => match io_Copy w path body with Err _ => true | Ok _ => false end
  | EvStat _ => false
  end.

(** ** The statements under test, in the specification's words *)

Module Spec.
Import Typed.

(** "Completed iff a result is populated and the error is absent; Failed
    iff an error is populated and the result is absent." *)
Definition resultXorError (a : AnyAction) : Prop :=
  (Envelope.status a = CompletedActionStatus
     <-> Envelope.hasResult a = true /\ Envelope.hasError a = false)
  /\ (Envelope.status a = FailedActionStatus
        <-> Envelope.hasError a = true /\ Envelope.hasResult a = false).

(** "the object identifier if non-empty, otherwise the request-supplied
    target key if non-empty, otherwise the base name of the local file
    path" *)
Definition identifierFirst (identifier targetUrl filePath : string) : string :=
  if decide (identifier = "") then
    if decide (targetUrl = "") then filepath.Base filePath else targetUrl
  else identifier.

(** The same three candidates with the target key ahead of the identifier. *)
Definition targetFirst (targetUrl identifier filePath : string) : string :=
  if decide (targetUrl = "") then
    if decide (identifier = "") then filepath.Base filePath else identifier
  else targetUrl.

(** "the object identifier if non-empty, otherwise the object name" *)
Definition objectKey (object : S3Object.t) : string :=
  if decide (S3Object.Identifier object = "") then S3Object.Name object
  else S3Object.Identifier object.

(** "the request-supplied content path if non-empty, otherwise a default
    path derived from the key": the base name of the key under /tmp. *)
Definition downloadPath (object : S3Object.t) : string :=
  if decide (S3Object.ContentUrl object = "")
  then filepath.Join ["/tmp"; filepath.Base (objectKey object)]
  else S3Object.ContentUrl object.

(** "the action's query field when that field is present and non-empty,
    and no prefix filter otherwise" *)
Definition prefixOf (query : string) : option string :=
  if decide (query = "") then None else Some query.

(** A target "missing a required credential field (endpoint URL, region,
    access key, secret key, or bucket name)"; a request with no target at
    all misses every one of them. *)
Definition missingCredentialField (target : option S3Bucket.t) : bool :=
  match target with
  | None => true
  | Some b =>
      bool_decide (S3Bucket.Url b = "") || bool_decide (S3Bucket.Region b = "")
      || bool_decide (S3Bucket.AccessKey b = "") || bool_decide (S3Bucket.SecretKey b = "")
      || bool_decide (S3Bucket.Identifier b = "")
  end.

(** The contract of the credential resolver: it fails on such a target. *)
Definition rejectsMissingCredentials
    (extract : option S3Bucket.t -> result Credentials) : Prop :=
  forall target, missingCredentialField target = true -> exists e, extract target = Err e.

(** Modelled from the spec: [semantic.ExtractS3Credentials] is a function of
    the external semantic library.  "Given a target/bucket descriptor,
    produce (endpointURL, region, accessKey, secretKey, bucketName) or fail
    with MissingCredentials if any required field is absent." *)
Definition ExtractS3Credentials (target : option S3Bucket.t) : result Credentials :=
  match target with
  | None => Err "MissingCredentials"
  | Some b =>
      if missingCredentialField target then Err "MissingCredentials"
      else Ok (mkCredentials (S3Bucket.Url b) (S3Bucket.Region b) (S3Bucket.AccessKey b)
                 (S3Bucket.SecretKey b) (S3Bucket.Identifier b))
  end.


(** What a download whose key resolves does once its client is built, in
    order: one [GetObject] for the key; if the store answers, the local
    file is created at the download path; if that succeeds, the body is
    copied into it. *)
Definition downloadEvents (w : World) (client : S3Client) (bucketName : string)
    (object : S3Object.t) : list Event :=
  let input := GetObjectInput.mk bucketName (objectKey object) in
  EvGetObject client input
  :: match s3_GetObject w client input with
     | Err _ => []
     | Ok body =>
         EvCreate (downloadPath object)
         :: match os_Create w (downloadPath object) with
            | Some _ => []
            | None => [EvCopy (downloadPath object) body]
            end
     end.

(** All the calls of a download of [object], given what the credential
    resolver answered: none unless the credentials resolve, the key is
    non-empty and the client is built. *)
Definition downloadCalls (w : World) (cred : result Credentials) (object : S3Object.t)
    : list Event :=
  match cred with
  | Err _ => []
  | Ok cred =>
      if decide (objectKey object = "") then []
      else
        match createS3Client w (cred_url cred) (cred_region cred) (cred_accessKey cred)
                (cred_secretKey cred) with
        | Err _ => []
        | Ok client => downloadEvents w client (cred_bucketName cred) object
        end
  end.

(** All the calls of a listing with the given query prefix: one
    [ListObjectsV2] for the bucket, with no continuation token, once the
    credentials resolve and the client is built; none before. *)
Definition listingTrace (w : World) (cred : result Credentials) (prefix : option string)
    : list Event :=
  match cred with
  | Err _ => []
  | Ok cred =>
      match createS3Client w (cred_url cred) (cred_region cred) (cred_accessKey cred)
              (cred_secretKey cred) with
      | Err _ => []
      | Ok client =>
          [EvListObjectsV2 client
             (ListObjectsV2Input.mk (cred_bucketName cred) prefix None)]
      end
  end.

(** "a missing key or missing content on object upload, a missing key on
    object download or delete, or a missing name on bucket creation", with
    the message of the check that fails. *)
Definition validationError (req : Rest.Request) : option string :=
  match req with
  | Rest.PostObjects (Ok r) =>
      if decide (Rest.UploadObjectRequest.Key r = "") then Some "key is required"
      else if decide (Rest.UploadObjectRequest.Content r = "") then Some "content is required"
      else None
  | Rest.GetObjects key _ | Rest.DeleteObjects key _ =>
      if decide (key = "") then Some "key is required" else None
  | Rest.PostBuckets (Ok r) =>
      if decide (Rest.CreateBucketRequest.Name r = "") then Some "name is required" else None
  | _ => None
  end.

(** The four discriminators the dispatcher recognises. *)
Definition recognized : list string :=
  ["CreateAction"; "DownloadAction"; "DeleteAction"; "SearchAction"].

End Spec.

(** ** Concrete requests and a concrete world

    Used to run the handlers: a store where every call succeeds, one where
    the store refuses, and the requests of the README. *)

Module Sample.
Import Typed.

Definition bucket : S3Bucket.t :=
  S3Bucket.mk "my-bucket" "https://fsn1.your-objectstorage.com" "fsn1" "access" "secret".

(** The same bucket with the access key left out. *)
Definition bucketNoKey : S3Bucket.t :=
  S3Bucket.mk "my-bucket" "https://fsn1.your-objectstorage.com" "fsn1" "" "secret".

Definition clock (n : nat) : string := "2025-11-08T12:00:00Z".

Definition page : ListObjectsV2Output.t :=
  ListObjectsV2Output.mk
    [Object.mk "data/a.json" 5 "2025-11-01T00:00:00Z";
     Object.mk "data/b.json" 7 "2025-11-02T00:00:00Z"]
    true (Some "next-page").

(** Every call succeeds; the listing answers one page and says there are
    more. *)
Definition world : World :=
  mkWorld clock
    (fun _ _ _ _ _ _ => None)
    (fun _ => Ok 42%Z)
    (fun _ _ _ => None)
    (fun _ _ => Ok "hello")
    (fun _ => None)
    (fun _ body => Ok (Z.of_nat (String.length body)))
    (fun _ _ => None)
    (fun _ _ => Ok page).

(** The store answers every call with an error. *)
Definition brokenStore : World :=
  mkWorld clock
    (fun _ _ _ _ _ _ => Some "connection refused")
    (fun _ => Ok 42%Z)
    (fun _ _ _ => None)
    (fun _ _ => Err "NoSuchKey")
    (fun _ => None)
    (fun _ body => Ok (Z.of_nat (String.length body)))
    (fun _ _ => Some "AccessDenied")
    (fun _ _ => Err "AccessDenied").

(** Every call succeeds, except that the uploaded file cannot be stat'ed. *)
Definition statFails : World :=
  mkWorld clock
    (fun _ _ _ _ _ _ => None)
    (fun _ => Err "no such file or directory")
    (fun _ _ _ => None)
    (fun _ _ => Ok "hello")
    (fun _ => None)
    (fun _ body => Ok (Z.of_nat (String.length body)))
    (fun _ _ => None)
    (fun _ _ => Ok page).

Definition start : State := mkState [] 0.

(** The typed variant's library: the resolver as the specification
    describes it, and a parser that is not exercised. *)
Definition lib : Lib := mkLib Spec.ExtractS3Credentials (fun body => Ok (AOther body)).

Definition object (identifier name contentUrl : string) : S3Object.t :=
  S3Object.mk "MediaObject" identifier name contentUrl 0 "application/json" "".

Definition upload (target : option S3Bucket.t) (identifier contentUrl targetUrl : string)
    : S3UploadAction.t :=
  S3UploadAction.mk "" "" "" target (Some (object identifier "" contentUrl)) targetUrl
    None None.

Definition download (target : option S3Bucket.t) (identifier name contentUrl : string)
    : S3DownloadAction.t :=
  S3DownloadAction.mk "" "" "" target (Some (object identifier name contentUrl)) None None.

Definition delete (target : option S3Bucket.t) (identifier : string) : S3DeleteAction.t :=
  S3DeleteAction.mk "" "" "" target (Some (object identifier "" "")) None.

Definition listing (target : option S3Bucket.t) (query : string) : S3ListAction.t :=
  S3ListAction.mk "" "" "" target query None None.

(** A stand-in for the semantic library of the [SemanticAction] variant:
    the action keeps its target, object and target key in [Properties],
    failures are written the way the typed variant's [returnError] writes
    them, and the wire format keeps the discriminator only. *)
Definition property (key : string) (a : Semantic.SemanticAction.t) : option Semantic.Any :=
  Semantic.SemanticAction.Properties a !! key.

Definition semanticLib (target : result S3Bucket.t) : Semantic.Lib :=
  Semantic.mkLib
    (fun body => Ok (Semantic.SemanticAction.mk body "" ∅))
    (fun _ => target)
    (fun a => match property "object" a with
              | Some (Semantic.AS3Object o) => Ok o
              | _ => Err "object is required"
              end)
    Spec.ExtractS3Credentials
    (fun a => match property "targetUrl" a with
              | Some (Semantic.AString s) => s
              | _ => ""
              end)
    (fun a => Semantic.SemanticAction.mk (Semantic.SemanticAction.Type_ a)
                CompletedActionStatus (Semantic.SemanticAction.Properties a))
    (fun a message err =>
       JSON StatusInternalServerError
         (Semantic.SemanticAction.mk (Semantic.SemanticAction.Type_ a) FailedActionStatus
            (<["error" := Semantic.AString message]> (Semantic.SemanticAction.Properties a)))).

Definition semanticAction (actionType : string) (props : list (string * Semantic.Any))
    : Semantic.SemanticAction.t :=
  Semantic.SemanticAction.mk actionType "" (list_to_map props).

(** [json.Marshal] of the stand-in wire format: the discriminator. *)
Definition marshal (v : Rest.JSONValue) : result string :=
  match Rest.jsonField "@type" v with
  | Some (Rest.JString t) => Ok t
  | _ => Err "unsupported value"
  end.

End Sample.

(** ** The handlers behind the action registry

    The variant of the handlers that is registered with the library's
    [ActionRegistry]: [handleSemanticAction] hands the parsed action to
    [semantic.Handle], the four [execute...Action] functions are wrappers
    with the registry's [ActionHandler] signature, and the work is done by
    the [execute...ActionImpl] functions, which record their result in the
    action's [Result] field as a [semantic.SemanticResult]. *)

Module Registry.

(** A value stored in a result map ([map[string]interface{}]): the
    handlers store strings and [int64] sizes. *)
Inductive Scalar : Type :=
| SString (s : string)
| SInt (n : Z).

(** [SemanticResult.Value] ([interface{}]): one map, or a slice of maps. *)
Inductive ResultValue : Type :=
| VMap (fields : gmap string Scalar)
| VList (items : list (gmap string Scalar)).

Module SemanticResult.
Record t := mk {
  Type_ : string;
  Format : string;
  Value : ResultValue }.
End SemanticResult.

Module SemanticAction.
Record t := mk {
  Type_ : string;
  ActionStatus : string;
  Properties : gmap string Semantic.Any;
  Result : option SemanticResult.t }.
Definition set_Result (v : option SemanticResult.t) (a : t) : t :=
  mk (Type_ a) (ActionStatus a) (Properties a) v.
End SemanticAction.

(** The [interface{}] the registry passes to an [ActionHandler]. *)
Inductive ActionInterface : Type :=
| ISemanticAction (action : SemanticAction.t)
| IOther (goType : string).

(** The helpers of [eve.evalgo.org/semantic] this variant calls. *)
Record Lib := mkLib {
  ParseSemanticAction : string -> result SemanticAction.t;
  Handle : SemanticAction.t -> M (Response SemanticAction.t);
  GetS3BucketFromAction : SemanticAction.t -> result S3Bucket.t;
  GetS3ObjectFromAction : SemanticAction.t -> result S3Object.t;
  ExtractS3Credentials : option S3Bucket.t -> result Credentials;
  GetS3TargetUrlFromAction : SemanticAction.t -> string;
  SetSuccessOnAction : SemanticAction.t -> SemanticAction.t;
  ReturnActionError :
    SemanticAction.t -> string -> option string -> Response SemanticAction.t }.

Section Handlers.
Variable lib : Lib.
Variable w : World.

(* handleSemanticAction handles Schema.org JSON-LD actions for S3 operations *)
Definition handleSemanticAction (body : result string) : M (Response SemanticAction.t) :=
  match body with
  | Err err => mret (HTTPError StatusBadRequest ("Failed to read request body: " +:+ err))
  | Ok body =>
      match ParseSemanticAction lib body with
      | Err err => mret (HTTPError StatusBadRequest ("Failed to parse action: " +:+ err))
      | Ok action =>
          (* Dispatch to registered handler using the ActionRegistry *)
          Handle lib action
      end
  end.

(* executeUploadAction handles file upload to S3 operations *)
Definition executeUploadActionImpl (action : SemanticAction.t)
    : M (Response SemanticAction.t) :=
  (* Extract S3 bucket and object using helpers *)
  match GetS3BucketFromAction lib action with
  | Err err => mret (ReturnActionError lib action "Failed to extract S3 bucket" (Some err))
  | Ok bucket =>
  match GetS3ObjectFromAction lib action with
  | Err err => mret (ReturnActionError lib action "Failed to extract S3 object" (Some err))
  | Ok object =>
  (* Extract S3 credentials *)
  match ExtractS3Credentials lib (Some bucket) with
  | Err err => mret (ReturnActionError lib action "Failed to extract S3 credentials" (Some err))
  | Ok cred =>
      (* Get file path from object *)
      let filePath := S3Object.ContentUrl object in
      if decide (filePath = "") then
        mret (ReturnActionError lib action "Object contentUrl (file path) is required" None)
      else
        (* Determine S3 key *)
        let s3Key := GetS3TargetUrlFromAction lib action in
        let s3Key := orDefault s3Key (S3Object.Identifier object) in
        let s3Key := orDefault s3Key (filepath.Base filePath) in
        uploadErr ← HetznerUploadFile w (cred_url cred) (cred_accessKey cred)
                      (cred_secretKey cred) (cred_bucketName cred) filePath s3Key;
        match uploadErr with
        | Some err => mret (ReturnActionError lib action "Failed to upload file" (Some err))
        | None =>
            (* Get file info for result *)
            fileInfo ← Stat w filePath;
            action ← match fileInfo with
                     | Ok size =>
                         uploadDate ← now w;
                         (* Use semantic Result structure *)
                         mret (SemanticAction.set_Result
                                 (Some (SemanticResult.mk "DigitalDocument"
                                          (S3Object.EncodingFormat object)
                                          (VMap (list_to_map
                                             [("contentUrl",
                                               SString (s3Url (cred_bucketName cred) s3Key));
                                              ("name", SString (filepath.Base filePath));
                                              ("contentSize", SInt size);
                                              ("encodingFormat",
                                               SString (S3Object.EncodingFormat object));
                                              ("uploadDate", SString uploadDate)]))))
                                 action)
                     | Err _ => mret action
                     end;
            mret (JSON StatusOK (SetSuccessOnAction lib action))
        end
  end end end.

(* executeDownloadAction handles file download from S3 operations *)
Definition executeDownloadActionImpl (action : SemanticAction.t)
    : M (Response SemanticAction.t) :=
  match GetS3BucketFromAction lib action with
  | Err err => mret (ReturnActionError lib action "Failed to extract S3 bucket" (Some err))
  | Ok bucket =>
  match GetS3ObjectFromAction lib action with
  | Err err => mret (ReturnActionError lib action "Failed to extract S3 object" (Some err))
  | Ok object =>
  match ExtractS3Credentials lib (Some bucket) with
  | Err err => mret (ReturnActionError lib action "Failed to extract S3 credentials" (Some err))
  | Ok cred =>
      (* Get S3 key from object *)
      let s3Key := S3Object.Identifier object in
      let s3Key := orDefault s3Key (S3Object.Name object) in
      if decide (s3Key = "") then
        mret (ReturnActionError lib action "Object identifier (S3 key) is required" None)
      else
        (* Determine local download path *)
        let downloadPath := S3Object.ContentUrl object in
        let downloadPath :=
          orDefault downloadPath (filepath.Join ["/tmp"; filepath.Base s3Key]) in
        match createS3Client w (cred_url cred) (cred_region cred)
                (cred_accessKey cred) (cred_secretKey cred) with
        | Err err => mret (ReturnActionError lib action "Failed to create S3 client" (Some err))
        | Ok client =>
            got ← GetObject w client (GetObjectInput.mk (cred_bucketName cred) s3Key);
            match got with
            | Err err => mret (ReturnActionError lib action "Failed to download file" (Some err))
            | Ok body =>
                createErr ← Create w downloadPath;
                match createErr with
                | Some err =>
                    mret (ReturnActionError lib action "Failed to create local file" (Some err))
                | None =>
                    copied ← Copy w downloadPath body;
                    match copied with
                    | Err err =>
                        mret (ReturnActionError lib action "Failed to write file" (Some err))
                    | Ok size =>
                        (* Use semantic Result structure *)
                        let action :=
                          SemanticAction.set_Result
                            (Some (SemanticResult.mk "DigitalDocument"
                                     (S3Object.EncodingFormat object)
                                     (VMap (list_to_map
                                        [("contentUrl", SString downloadPath);
                                         ("name", SString (filepath.Base s3Key));
                                         ("contentSize", SInt size);
                                         ("encodingFormat",
                                          SString (S3Object.EncodingFormat object))]))))
                            action in
                        mret (JSON StatusOK (SetSuccessOnAction lib action))
                    end
                end
            end
        end
  end end end.

(* executeDeleteAction handles file deletion from S3 operations *)
Definition executeDeleteActionImpl (action : SemanticAction.t)
    : M (Response SemanticAction.t) :=
  match GetS3BucketFromAction lib action with
  | Err err => mret (ReturnActionError lib action "Failed to extract S3 bucket" (Some err))
  | Ok bucket =>
  match GetS3ObjectFromAction lib action with
  | Err err => mret (ReturnActionError lib action "Failed to extract S3 object" (Some err))
  | Ok object =>
  match ExtractS3Credentials lib (Some bucket) with
  | Err err => mret (ReturnActionError lib action "Failed to extract S3 credentials" (Some err))
  | Ok cred =>
      let s3Key := S3Object.Identifier object in
      let s3Key := orDefault s3Key (S3Object.Name object) in
      if decide (s3Key = "") then
        mret (ReturnActionError lib action "Object identifier (S3 key) is required" None)
      else
        match createS3Client w (cred_url cred) (cred_region cred)
                (cred_accessKey cred) (cred_secretKey cred) with
        | Err err => mret (ReturnActionError lib action "Failed to create S3 client" (Some err))
        | Ok client =>
            deleteErr ← DeleteObject w client
                          (DeleteObjectInput.mk (cred_bucketName cred) s3Key);
            match deleteErr with
            | Some err => mret (ReturnActionError lib action "Failed to delete file" (Some err))
            | None => mret (JSON StatusOK (SetSuccessOnAction lib action))
            end
        end
  end end end.

(* if query, ok := action.Properties["query"].(string); ok && query != "" *)
Definition queryPrefix (action : SemanticAction.t) : option string :=
  match SemanticAction.Properties action !! "query" with
  | Some (Semantic.AString query) => nonEmpty query
  | _ => None
  end.

(** One entry of the result list, built from one [types.Object]. *)
Definition listedEntry (bucketName : string) (obj : Object.t) : gmap string Scalar :=
  list_to_map
    [("contentUrl", SString (s3Url bucketName (Object.Key obj)));
     ("name", SString (filepath.Base (Object.Key obj)));
     ("contentSize", SInt (Object.Size obj));
     ("encodingFormat", SString "application/octet-stream");
     ("uploadDate", SString (Object.LastModified obj))].

(* executeListAction handles listing objects in S3 bucket *)
Definition executeListActionImpl (action : SemanticAction.t)
    : M (Response SemanticAction.t) :=
  match GetS3BucketFromAction lib action with
  | Err err => mret (ReturnActionError lib action "Failed to extract S3 bucket" (Some err))
  | Ok bucket =>
  match ExtractS3Credentials lib (Some bucket) with
  | Err err => mret (ReturnActionError lib action "Failed to extract S3 credentials" (Some err))
  | Ok cred =>
      match createS3Client w (cred_url cred) (cred_region cred)
              (cred_accessKey cred) (cred_secretKey cred) with
      | Err err => mret (ReturnActionError lib action "Failed to create S3 client" (Some err))
      | Ok client =>
          (* List objects with optional prefix from query *)
          let input :=
            ListObjectsV2Input.mk (cred_bucketName cred) (queryPrefix action) None in
          listed ← ListObjectsV2 w client input;
          match listed with
          | Err err => mret (ReturnActionError lib action "Failed to list objects" (Some err))
          | Ok page =>
              (* Build result list *)
              let objects :=
                map (listedEntry (cred_bucketName cred))
                    (ListObjectsV2Output.Contents page) in
              (* Use semantic Result structure for list results *)
              let action :=
                SemanticAction.set_Result
                  (Some (SemanticResult.mk "Dataset" "application/json" (VList objects)))
                  action in
              mret (JSON StatusOK (SetSuccessOnAction lib action))
          end
      end
  end end.

(** The four implementations, by the handler they stand behind. *)
Definition runImpl (h : Semantic.Handler) (action : SemanticAction.t)
    : M (Response SemanticAction.t) :=
  match h with
  | Semantic.UploadHandler => executeUploadActionImpl action
  | Semantic.DownloadHandler => executeDownloadActionImpl action
  | Semantic.DeleteHandler => executeDeleteActionImpl action
  | Semantic.ListHandler => executeListActionImpl action
  end.

(* executeUploadAction wraps the implementation to match ActionHandler signature *)
Definition executeUploadAction (actionInterface : ActionInterface)
    : M (Response SemanticAction.t) :=
  match actionInterface with
  | ISemanticAction action => executeUploadActionImpl action
  | IOther _ => mret (HTTPError StatusBadRequest "Invalid action type")
  end.

(* executeDownloadAction wraps the implementation to match ActionHandler signature *)
Definition executeDownloadAction (actionInterface : ActionInterface)
    : M (Response SemanticAction.t) :=
  match actionInterface with
  | ISemanticAction action => executeDownloadActionImpl action
  | IOther _ => mret (HTTPError StatusBadRequest "Invalid action type")
  end.

(* executeDeleteAction wraps the implementation to match ActionHandler signature *)
Definition executeDeleteAction (actionInterface : ActionInterface)
    : M (Response SemanticAction.t) :=
  match actionInterface with
  | ISemanticAction action => executeDeleteActionImpl action
  | IOther _ => mret (HTTPError StatusBadRequest "Invalid action type")
  end.

(* executeListAction wraps the implementation to match ActionHandler signature *)
Definition executeListAction (actionInterface : ActionInterface)
    : M (Response SemanticAction.t) :=
  match actionInterface with
  | ISemanticAction action => executeListActionImpl action
  | IOther _ => mret (HTTPError StatusBadRequest "Invalid action type")
  end.

(** The four registered handlers, by name. *)
Definition runHandler (h : Semantic.Handler) (actionInterface : ActionInterface)
    : M (Response SemanticAction.t) :=
  match h with
  | Semantic.UploadHandler => executeUploadAction actionInterface
  | Semantic.DownloadHandler => executeDownloadAction actionInterface
  | Semantic.DeleteHandler => executeDeleteAction actionInterface
  | Semantic.ListHandler => executeListAction actionInterface
  end.

End Handlers.

End Registry.

(** ** Reading the fields of a typed action *)

Module Fields.
Import Typed.

Definition startTime (a : AnyAction) : string :=
  match a with
  | AUpload v => S3UploadAction.StartTime v
  | ADownload v => S3DownloadAction.StartTime v
  | ADelete v => S3DeleteAction.StartTime v
  | AList v => S3ListAction.StartTime v
  | AOther _ => ""
  end.

Definition endTime (a : AnyAction) : string :=
  match a with
  | AUpload v => S3UploadAction.EndTime v
  | ADownload v => S3DownloadAction.EndTime v
  | ADelete v => S3DeleteAction.EndTime v
  | AList v => S3ListAction.EndTime v
  | AOther _ => ""
  end.

Definition object (a : AnyAction) : option S3Object.t :=
  match a with
  | AUpload v => S3UploadAction.Object v
  | ADownload v => S3DownloadAction.Object v
  | ADelete v => S3DeleteAction.Object v
  | AList _ | AOther _ => None
  end.

(** The request's own parameter besides target and object: the target key
    of an upload, the query of a listing. *)
Definition parameter (a : AnyAction) : string :=
  match a with
  | AUpload v => S3UploadAction.TargetUrl v
  | AList v => S3ListAction.Query v
  | ADownload _ | ADelete _ | AOther _ => ""
  end.

(** The result an action carries: one object (upload, download) or a list
    of objects (listing). *)
Inductive Result : Type :=
| One (object : S3Object.t)
| Many (objects : list S3Object.t).

Definition result (a : AnyAction) : option Result :=
  match a with
  | AUpload v => One <$> S3UploadAction.Result v
  | ADownload v => One <$> S3DownloadAction.Result v
  | AList v => Many <$> S3ListAction.Result v
  | ADelete _ | AOther _ => None
  end.

End Fields.

(** ** What makes a typed request runnable *)

Module Request.
Import Typed.

(** The request carries what its handler asks for: an upload an object
    with a local content path, a download or a delete an object with an
    identifier or a name. *)
Definition wellFormed (a : AnyAction) : bool :=
  match a with
  | AUpload v =>
      match S3UploadAction.Object v with
      | Some object => bool_decide (S3Object.ContentUrl object <> "")
      | None => false
      end
  | ADownload v =>
      match S3DownloadAction.Object v with
      | Some object =>
          bool_decide (orDefault (S3Object.Identifier object) (S3Object.Name object) <> "")
      | None => false
      end
  | ADelete v =>
      match S3DeleteAction.Object v with
      | Some object =>
          bool_decide (orDefault (S3Object.Identifier object) (S3Object.Name object) <> "")
      | None => false
      end
  | AList _ => true
  | AOther _ => false
  end.

(** The handlers that build an S3 client; the upload goes through
    [storage.HetznerUploadFile] and builds none. *)
Definition needsClient (a : AnyAction) : bool :=
  match a with
  | ADownload _ | ADelete _ | AList _ => true
  | AUpload _ | AOther _ => false
  end.

End Request.

(** ** A listing page with its pointers

    The SDK declares the fields of [types.Object] as pointers ([Key
    *string], [Size *int64], [LastModified *time.Time]), and the listing
    handlers dereference all three without a check.  [Object.t] is an
    entry on which the three are set, and [World] answers a listing with
    such entries only.  Here the entry is as the SDK declares it, [None]
    being a nil pointer, and a run ends in a return or in a panic.  These
    are the only pointers of an answer the typed handlers dereference
    unchecked: the output of a call is read only when the call returned no
    error, and the body of a [GetObject] output is taken to be set then. *)

Module Page.

Record Entry := mkEntry {
  Key : option string;
  Size : option Z;
  LastModified : option string }.

Record t := mk {
  Contents : list Entry;
  IsTruncated : bool;
  NextContinuationToken : option string }.

(** Whether the three pointers of an entry are set. *)
Definition full (e : Entry) : bool :=
  bool_decide (is_Some (Key e)) && bool_decide (is_Some (Size e))
  && bool_decide (is_Some (LastModified e)).

(** The entry and the page that [Object.t] and [ListObjectsV2Output.t]
    stand for. *)
Definition entry (obj : Object.t) : Entry :=
  mkEntry (Some (Object.Key obj)) (Some (Object.Size obj)) (Some (Object.LastModified obj)).

Definition ofOutput (page : ListObjectsV2Output.t) : t :=
  mk (map entry (ListObjectsV2Output.Contents page))
    (ListObjectsV2Output.IsTruncated page)
    (ListObjectsV2Output.NextContinuationToken page).

End Page.

(** How a call of a Go function ends: it returns, or it panics. *)
Inductive Outcome (A : Type) : Type :=
| Returned (a : A)
| Panicked (message : string).
Arguments Returned {A} a.
Arguments Panicked {A} message.

(* the runtime error of dereferencing a nil pointer *)
Definition nilDereference : string :=
  "runtime error: invalid memory address or nil pointer dereference".

(** The world with a listing answered as the SDK declares it.  [others]
    answers every other call; its own listing oracle is not consulted. *)
Record SdkWorld := mkSdkWorld {
  others : World;
  sdk_ListObjectsV2 : S3Client -> ListObjectsV2Input.t -> result Page.t }.

(** ** The typed handlers on the SDK's page *)

Module Sdk.
Import Typed.

(** A [World] is a world whose store sets the three fields of every
    entry. *)
Definition lift (w : World) : SdkWorld :=
  mkSdkWorld w
    (fun client input =>
       match s3_ListObjectsV2 w client input with
       | Ok page => Ok (Page.ofOutput page)
       | Err err => Err err
       end).

(** A function that cannot panic, called from one that can. *)
Definition returned {A : Type} (m : M A) : M (Outcome A) :=
  a ← m; mret (Returned a).

Section Handlers.
Variable lib : Lib.
Variable w : SdkWorld.

Definition ListObjectsV2 (client : S3Client) (input : ListObjectsV2Input.t)
    : M (result Page.t) :=
  emit (EvListObjectsV2 client input);; mret (sdk_ListObjectsV2 w client input).

(* &semantic.S3Object{Type: "MediaObject", Identifier: *obj.Key, ...,
   ContentSize: *obj.Size, UploadDate: obj.LastModified.Format(time.RFC3339)}:
   [None] when one of the three pointers is nil, where the dereference panics *)
Definition listedObject (bucketName : string) (obj : Page.Entry) : option S3Object.t :=
  match Page.Key obj, Page.Size obj, Page.LastModified obj with
  | Some key, Some size, Some lastModified =>
      Some (S3Object.mk "MediaObject" key (filepath.Base key) (s3Url bucketName key)
              size "" lastModified)
  | _, _, _ => None
  end.

(* executeListAction handles listing objects in S3 bucket *)
Definition executeListAction (action : S3ListAction.t)
    : M (Outcome (Response AnyAction)) :=
  startTime ← now (others w);
  let action := S3ListAction.set_StartTime startTime action in
  (* Extract S3 credentials *)
  match ExtractS3Credentials lib (S3ListAction.Target action) with
  | Err err =>
      returned (returnError (others w) (AList action)
                  ("Failed to extract S3 credentials: " +:+ err))
  | Ok cred =>
      (* Create S3 client *)
      match createS3Client (others w) (cred_url cred) (cred_region cred)
              (cred_accessKey cred) (cred_secretKey cred) with
      | Err err =>
          returned (returnError (others w) (AList action)
                      ("Failed to create S3 client: " +:+ err))
      | Ok client =>
          (* List objects with optional prefix *)
          let input :=
            ListObjectsV2Input.mk (cred_bucketName cred)
              (nonEmpty (S3ListAction.Query action)) None in
          listed ← ListObjectsV2 client input;
          match listed with
          | Err err =>
              returned (returnError (others w) (AList action)
                          ("Failed to list objects: " +:+ err))
          | Ok page =>
              (* Build result list: the loop stops at the first entry it
                 cannot dereference *)
              match mapM (listedObject (cred_bucketName cred)) (Page.Contents page) with
              | None => mret (Panicked nilDereference)
              | Some objects =>
                  let action := S3ListAction.set_Result (Some objects) action in
                  let action := S3ListAction.set_ActionStatus CompletedActionStatus action in
                  endTime ← now (others w);
                  let action := S3ListAction.set_EndTime endTime action in
                  mret (Returned (JSON StatusOK (AList action)))
              end
          end
      end
  end.

(* switch v := action.(type) { case *semantic.S3UploadAction: ... default: ... } *)
Definition dispatch (action : AnyAction) : M (Outcome (Response AnyAction)) :=
  match action with
  | AUpload v => returned (executeUploadAction lib (others w) v)
  | ADownload v => returned (executeDownloadAction lib (others w) v)
  | ADelete v => returned (executeDeleteAction lib (others w) v)
  | AList v => executeListAction v
  | AOther goType =>
      mret (Returned (HTTPError StatusBadRequest ("Unsupported action type: " +:+ goType)))
  end.

(* handleSemanticAction handles Schema.org JSON-LD actions for S3 operations *)
Definition handleSemanticAction (body : result string)
    : M (Outcome (Response AnyAction)) :=
  match body with
  | Err err =>
      mret (Returned (HTTPError StatusBadRequest ("Failed to read request body: " +:+ err)))
  | Ok body =>
      match ParseS3Action lib body with
      | Err err =>
          mret (Returned (HTTPError StatusBadRequest ("Failed to parse action: " +:+ err)))
      | Ok action => dispatch action
      end
  end.

(** A call that is answered with an error, as [answeredWithError]. *)
Definition answeredWithError (e : Event) : bool :=
  match e with
  | EvListObjectsV2 client input =>
      match sdk_ListObjectsV2 w client input with Err _ => true | Ok _ => false end
  | _ => answeredWithError (others w) e
  end.

(** A listing that is answered with a page on which some entry lacks its
    key, its size or its modification time. *)
Definition answeredIncomplete (e : Event) : bool :=
  match e with
  | EvListObjectsV2 client input =>
      match sdk_ListObjectsV2 w client input with
      | Ok page => negb (forallb Page.full (Page.Contents page))
      | Err _ => false
      end
  | _ => false
  end.

End Handlers.

(** A store that leaves out the size of the second entry of its page. *)
Definition holed : SdkWorld :=
  mkSdkWorld Sample.world
    (fun _ _ =>
       Ok (Page.mk
             [Page.mkEntry (Some "data/a.json") (Some 5%Z) (Some "2025-11-01T00:00:00Z");
              Page.mkEntry (Some "data/b.json") None (Some "2025-11-02T00:00:00Z")]
             false None)).

End Sdk.

(** ** Reading a call *)

Module Call.

(** The object key a store call names. *)
Definition key (e : Event) : option string :=
  match e with
  | EvHetznerUploadFile _ _ _ _ _ s3Key => Some s3Key
  | EvGetObject _ input => Some (GetObjectInput.Key input)
  | EvDeleteObject _ input => Some (DeleteObjectInput.Key input)
  | EvListObjectsV2 _ _ | EvStat _ | EvCreate _ | EvCopy _ _ => None
  end.

(** Whether a client is the one [createS3Client] builds from the
    credentials: their endpoint, region and keys, path-style addressing. *)
Definition clientFor (cred : Credentials) (client : S3Client) : bool :=
  bool_decide (BaseEndpoint client = cred_url cred)
  && bool_decide (client_region client = cred_region cred)
  && bool_decide (client_accessKey client = cred_accessKey cred)
  && bool_decide (client_secretKey client = cred_secretKey cred)
  && UsePathStyle client.

(** Whether a call is made with the credentials, on their bucket; the
    local file-system calls carry none. *)
Definition uses (cred : Credentials) (e : Event) : bool :=
  match e with
  | EvHetznerUploadFile url accessKey secretKey bucketName _ _ =>
      bool_decide (url = cred_url cred)
      && bool_decide (accessKey = cred_accessKey cred)
      && bool_decide (secretKey = cred_secretKey cred)
      && bool_decide (bucketName = cred_bucketName cred)
  | EvGetObject client input =>
      clientFor cred client
      && bool_decide (GetObjectInput.Bucket input = cred_bucketName cred)
  | EvDeleteObject client input =>
      clientFor cred client
      && bool_decide (DeleteObjectInput.Bucket input = cred_bucketName cred)
  | EvListObjectsV2 client input =>
      clientFor cred client
      && bool_decide (ListObjectsV2Input.Bucket input = cred_bucketName cred)
  | EvStat _ | EvCreate _ | EvCopy _ _ => true
  end.

(** Whether a call is made with what the credential resolver answered;
    none is when the resolver failed. *)
Definition authorized (cred : result Credentials) (e : Event) : bool :=
  match cred with
  | Ok cred => uses cred e
  | Err _ => false
  end.

(** The credentials of a [SemanticAction] request: those of the bucket
    the library extracts from the action. *)
Definition resolve (bucket : result S3Bucket.t)
    (extract : option S3Bucket.t -> result Credentials) : result Credentials :=
  match bucket with
  | Ok bucket => extract (Some bucket)
  | Err e => Err e
  end.

(** Whether a call names what it asks for: a store call on an object a
    non-empty key, a listing a prefix that is absent or non-empty and no
    continuation token. *)
Definition named (e : Event) : bool :=
  match e with
  | EvListObjectsV2 _ input =>
      bool_decide (ListObjectsV2Input.Prefix input <> Some "")
      && bool_decide (ListObjectsV2Input.ContinuationToken input = None)
  | _ =>
      match key e with
      | Some s3Key => bool_decide (s3Key <> "")
      | None => true
      end
  end.

(** The calls each handler may make. *)
Definition allowed (h : Semantic.Handler) (e : Event) : bool :=
  match h, e with
  | Semantic.UploadHandler, (EvHetznerUploadFile _ _ _ _ _ _ | EvStat _) => true
  | Semantic.DownloadHandler, (EvGetObject _ _ | EvCreate _ | EvCopy _ _) => true
  | Semantic.DeleteHandler, EvDeleteObject _ _ => true
  | Semantic.ListHandler, EvListObjectsV2 _ _ => true
  | _, _ => false
  end.

(** The handler the type switch selects for a typed action. *)
Definition handler (a : Typed.AnyAction) : option Semantic.Handler :=
  match a with
  | Typed.AUpload _ => Some Semantic.UploadHandler
  | Typed.ADownload _ => Some Semantic.DownloadHandler
  | Typed.ADelete _ => Some Semantic.DeleteHandler
  | Typed.AList _ => Some Semantic.ListHandler
  | Typed.AOther _ => None
  end.

End Call.

(** ** Reading the envelope of a REST request *)

Module RestEnvelope.
Import Rest.

(* action[k1][k2]... *)
Fixpoint jsonPath (path : list string) (v : JSONValue) : option JSONValue :=
  match path with
  | [] => Some v
  | key :: rest =>
      match jsonField key v with
      | Some field => jsonPath rest field
      | None => None
      end
  end.

(** The string found at a path, if there is one. *)
Definition jsonString (path : list string) (v : JSONValue) : option string :=
  match jsonPath path v with
  | Some (JString s) => Some s
  | _ => None
  end.

(** The envelope of [listBucketsREST]. *)
Definition listBuckets : JSONValue :=
  JObject [("@context", JString "https://schema.org");
           ("@type", JString "SearchAction");
           ("query", JString "list-buckets")].

(** The envelope a REST request is converted to, once it has been bound
    and has passed its validation. *)
Definition ofRequest (req : Request) : option JSONValue :=
  match req with
  | PostObjects (Ok r) =>
      if decide (UploadObjectRequest.Key r = "") then None
      else if decide (UploadObjectRequest.Content r = "") then None
      else Some (uploadObjectEnvelope r)
  | GetObjects key bucket =>
      if decide (key = "") then None else Some (getObjectEnvelope key bucket)
  | DeleteObjects key bucket =>
      if decide (key = "") then None else Some (deleteObjectEnvelope key bucket)
  | GetBuckets => Some listBuckets
  | PostBuckets (Ok r) =>
      if decide (CreateBucketRequest.Name r = "") then None
      else Some (createBucketEnvelope r)
  | PostObjects (Err _) | PostBuckets (Err _) => None
  end.

(** The handler the dispatcher selects for the envelope of each route. *)
Definition handler (req : Request) : Semantic.Handler :=
  match req with
  | PostObjects _ | PostBuckets _ => Semantic.UploadHandler
  | DeleteObjects _ _ => Semantic.DeleteHandler
  | GetObjects _ _ | GetBuckets => Semantic.ListHandler
  end.

End RestEnvelope.

(** ** Concrete requests for the registered handlers *)

Module RegistrySample.

(** A stand-in for the semantic library, as [Sample.semanticLib]: the
    action keeps its object and target key in [Properties]; the registry
    itself is not exercised. *)
Definition property (key : string) (a : Registry.SemanticAction.t) : option Semantic.Any :=
  Registry.SemanticAction.Properties a !! key.

Definition lib (target : result S3Bucket.t) : Registry.Lib :=
  Registry.mkLib
    (fun body => Ok (Registry.SemanticAction.mk body "" ∅ None))
    (fun a => mret (HTTPError StatusInternalServerError "no handler registered"))
    (fun _ => target)
    (fun a => match property "object" a with
              | Some (Semantic.AS3Object o) => Ok o
              | _ => Err "object is required"
              end)
    Spec.ExtractS3Credentials
    (fun a => match property "targetUrl" a with
              | Some (Semantic.AString s) => s
              | _ => ""
              end)
    (fun a => Registry.SemanticAction.mk (Registry.SemanticAction.Type_ a)
                CompletedActionStatus (Registry.SemanticAction.Properties a)
                (Registry.SemanticAction.Result a))
    (fun a message err =>
       JSON StatusInternalServerError
         (Registry.SemanticAction.mk (Registry.SemanticAction.Type_ a) FailedActionStatus
            (<["error" := Semantic.AString message]> (Registry.SemanticAction.Properties a))
            (Registry.SemanticAction.Result a))).

Definition action (actionType : string) (props : list (string * Semantic.Any))
    : Registry.SemanticAction.t :=
  Registry.SemanticAction.mk actionType "" (list_to_map props) None.

End RegistrySample.

(** A request that arrives with an error already on it. *)
Module Stale.

Definition delete : S3DeleteAction.t :=
  S3DeleteAction.mk "" "" FailedActionStatus (Some Sample.bucket)
    (Some (Sample.object "temp/processing.tmp" "" ""))
    (Some (errorProperty "left over from an earlier attempt")).

End Stale.

(** ** Comparing the two [SemanticAction] variants *)

Module Agreement.

(** Two responses of the same outcome: the library's error response for
    the same message and cause, or a success. *)
Definition sameOutcome (libS : Semantic.Lib) (libR : Registry.Lib)
    (aS : Semantic.SemanticAction.t) (aR : Registry.SemanticAction.t)
    (rS : Response Semantic.SemanticAction.t) (rR : Response Registry.SemanticAction.t)
    : Prop :=
  (exists message err,
      rS = Semantic.ReturnActionError libS aS message err
      /\ rR = Registry.ReturnActionError libR aR message err)
  \/ (exists aS' aR',
        rS = JSON StatusOK (Semantic.SetSuccessOnAction libS aS')
        /\ rR = JSON StatusOK (Registry.SetSuccessOnAction libR aR')).

(** The two libraries read the same request off their actions. *)
Definition sameRequest (libS : Semantic.Lib) (libR : Registry.Lib)
    (aS : Semantic.SemanticAction.t) (aR : Registry.SemanticAction.t) : Prop :=
  Semantic.GetS3BucketFromAction libS aS = Registry.GetS3BucketFromAction libR aR
  /\ Semantic.GetS3ObjectFromAction libS aS = Registry.GetS3ObjectFromAction libR aR
  /\ (forall bucket,
        Semantic.ExtractS3Credentials libS bucket
        = Registry.ExtractS3Credentials libR bucket)
  /\ Semantic.GetS3TargetUrlFromAction libS aS = Registry.GetS3TargetUrlFromAction libR aR
  /\ Semantic.SemanticAction.Properties aS !! "query"
     = Registry.SemanticAction.Properties aR !! "query".

End Agreement.

(** ** Comparing the typed handlers with the [SemanticAction] handlers *)

Module TypedAgreement.

(** The semantic library reads off its action the request the typed action
    carries: its target, its object (a listing has none), its target key
    or query. *)
Definition sameRequest (libT : Typed.Lib) (libS : Semantic.Lib) (aT : Typed.AnyAction)
    (aS : Semantic.SemanticAction.t) : Prop :=
  exists bucket,
    Envelope.target aT = Some bucket
    /\ Semantic.GetS3BucketFromAction libS aS = Ok bucket
    /\ Typed.ExtractS3Credentials libT (Some bucket)
       = Semantic.ExtractS3Credentials libS (Some bucket)
    /\ match aT with
       | Typed.AUpload v =>
           (exists object,
               S3UploadAction.Object v = Some object
               /\ Semantic.GetS3ObjectFromAction libS aS = Ok object)
           /\ Semantic.GetS3TargetUrlFromAction libS aS = S3UploadAction.TargetUrl v
       | Typed.ADownload v =>
           exists object,
             S3DownloadAction.Object v = Some object
             /\ Semantic.GetS3ObjectFromAction libS aS = Ok object
       | Typed.ADelete v =>
           exists object,
             S3DeleteAction.Object v = Some object
             /\ Semantic.GetS3ObjectFromAction libS aS = Ok object
       | Typed.AList v => Semantic.queryPrefix aS = nonEmpty (S3ListAction.Query v)
       | Typed.AOther _ => False
       end.

End TypedAgreement.

(** ** The loader of the integration tests' configuration

    [loadTestEnv] of [cmd/integration_test.go] reads [../test.env] into
    four package-level variables and skips the test when the file cannot
    be read or a variable is left empty.  [bytes.Split] and
    [bytes.SplitN] are written out; [bytes.TrimSpace] is taken as given. *)

Module TestEnv.

(** The package-level variables [testURL], [testAccessKey],
    [testSecretKey] and [testBucket]. *)
Record Vars := mkVars {
  testURL : string;
  testAccessKey : string;
  testSecretKey : string;
  testBucket : string }.

(* bytes.Split(data, sep) for a one-byte separator: the pieces between the
   separators, one more than there are separators *)
Fixpoint split (sep : ascii) (data : list ascii) : list (list ascii) :=
  match data with
  | [] => [[]]
  | c :: rest =>
      if bool_decide (c = sep) then [] :: split sep rest
      else
        match split sep rest with
        | piece :: pieces => (c :: piece) :: pieces
        | [] => [[c]]
        end
  end.

(* bytes.SplitN(line, sep, 2) for a one-byte separator: the piece before
   the first separator and the rest, when there is a separator (the result
   has length 2); [None] when there is none (the result has length 1) *)
Fixpoint splitN2 (sep : ascii) (line : list ascii) : option (list ascii * list ascii) :=
  match line with
  | [] => None
  | c :: rest =>
      if bool_decide (c = sep) then Some ([], rest)
      else
        match splitN2 sep rest with
        | Some (before, after) => Some (c :: before, after)
        | None => None
        end
  end.

Definition newline : ascii := "010"%char.

(** What [t.Skip] and [t.Skipf] leave of the test, or nothing. *)
Inductive Outcome : Type :=
| Loaded
| Skipped (message : string).

Section Loader.
Variable bytes_TrimSpace : list ascii -> list ascii.

(* switch key { case "URL": testURL = value ... } *)
Definition assign (key value : string) (vars : Vars) : Vars :=
  if decide (key = "URL") then
    mkVars value (testAccessKey vars) (testSecretKey vars) (testBucket vars)
  else if decide (key = "ACCESS_KEY") then
    mkVars (testURL vars) value (testSecretKey vars) (testBucket vars)
  else if decide (key = "SECRET_KEY") then
    mkVars (testURL vars) (testAccessKey vars) value (testBucket vars)
  else if decide (key = "BUCKET") then
    mkVars (testURL vars) (testAccessKey vars) (testSecretKey vars) value
  else vars.

(** The body of the loop, for one line. *)
Definition loadLine (vars : Vars) (line : list ascii) : Vars :=
  match line with
  | [] => vars
  | c :: _ =>
      if bool_decide (c = "#"%char) then vars
      else
        match splitN2 "="%char line with
        | None => vars
        | Some (before, after) =>
            let key := String.string_of_list_ascii (bytes_TrimSpace before) in
            let value := String.string_of_list_ascii (bytes_TrimSpace after) in
            assign key value vars
        end
  end.

(* for _, line := range lines { ... } *)
Definition loadLines (lines : list (list ascii)) (vars : Vars) : Vars :=
  fold_left loadLine lines vars.

(* testURL == "" || testAccessKey == "" || testSecretKey == "" || testBucket == "" *)
Definition incomplete (vars : Vars) : bool :=
  bool_decide (testURL vars = "") || bool_decide (testAccessKey vars = "")
  || bool_decide (testSecretKey vars = "") || bool_decide (testBucket vars = "").

(* loadTestEnv loads test configuration from test.env file *)
Definition loadTestEnv (os_ReadFile : string -> result string) (vars : Vars)
    : Outcome * Vars :=
  let envFile := filepath.Join [".."; "test.env"] in
  match os_ReadFile envFile with
  | Err err =>
      (Skipped ("Skipping integration test: test.env not found: " +:+ err), vars)
  | Ok data =>
      let lines := split newline (String.list_ascii_of_string data) in
      let vars := loadLines lines vars in
      if incomplete vars then
        (Skipped "Skipping integration test: incomplete test.env configuration", vars)
      else (Loaded, vars)
  end.

(** The names the loader knows. *)
Definition fourNames : list string := ["URL"; "ACCESS_KEY"; "SECRET_KEY"; "BUCKET"].

(** What a line assigns: the variable's name in the file and the value,
    when the line is an assignment to one of the four variables. *)
Definition assignment (line : list ascii) : option (string * string) :=
  match line with
  | [] => None
  | c :: _ =>
      if bool_decide (c = "#"%char) then None
      else
        match splitN2 "="%char line with
        | None => None
        | Some (before, after) =>
            let key := String.string_of_list_ascii (bytes_TrimSpace before) in
            if bool_decide (key ∈ fourNames) then
              Some (key, String.string_of_list_ascii (bytes_TrimSpace after))
            else None
        end
  end.

(** The value the lines leave in a variable: that of the last line that
    assigns it, if there is one. *)
Definition lastAssigned (name : string) (lines : list (list ascii)) : option string :=
  last (omap (fun line =>
                match assignment line with
                | Some (key, value) => if decide (key = name) then Some value else None
                | None => None
                end) lines).

(** [line] assigns [value] to the variable called [name]: it does not
    start with [#], and it reads key=rest at its first [=], with [name] the
    trimmed key and [value] the trimmed rest. *)
Definition assigns (name value : string) (line : list ascii) : Prop :=
  head line <> Some "#"%char
  /\ exists key rest,
       line = key ++ "="%char :: rest
       /\ Forall (fun c => c <> "="%char) key
       /\ String.string_of_list_ascii (bytes_TrimSpace key) = name
       /\ String.string_of_list_ascii (bytes_TrimSpace rest) = value.

End Loader.

(** The content of the file whose lines are [lines]: a line feed between
    one line and the next. *)
Fixpoint joinLines (lines : list (list ascii)) : list ascii :=
  match lines with
  | [] => []
  | line :: rest =>
      match rest with
      | [] => line
      | _ :: _ => line ++ newline :: joinLines rest
      end
  end.

(** The variable a name of the file stands for. *)
Definition get (name : string) (vars : Vars) : string :=
  if decide (name = "URL") then testURL vars
  else if decide (name = "ACCESS_KEY") then testAccessKey vars
  else if decide (name = "SECRET_KEY") then testSecretKey vars
  else if decide (name = "BUCKET") then testBucket vars
  else "".

(** Spaces and tabs, carriage returns and line feeds trimmed at both ends:
    what [bytes.TrimSpace] does to the lines of an ASCII file. *)
Definition isSpace (c : ascii) : bool :=
  bool_decide (c = " "%char) || bool_decide (c = "009"%char)
  || bool_decide (c = "010"%char) || bool_decide (c = "011"%char)
  || bool_decide (c = "012"%char) || bool_decide (c = "013"%char).

Fixpoint trimLeft (l : list ascii) : list ascii :=
  match l with
  | c :: rest => if isSpace c then trimLeft rest else l
  | [] => []
  end.

Definition trimSpace (l : list ascii) : list ascii :=
  reverse (trimLeft (reverse (trimLeft l))).

(** A configuration file, its lines, and the file system that holds it. *)
Definition file : string :=
  String.string_of_list_ascii
    (String.list_ascii_of_string "# object store of the integration tests"
     ++ newline
        :: String.list_ascii_of_string "URL = https://fsn1.example.com/?a=b"
     ++ newline :: String.list_ascii_of_string "ACCESS_KEY=access"
     ++ newline :: newline :: String.list_ascii_of_string "SECRET_KEY=secret"
     ++ newline :: String.list_ascii_of_string "REGION=fsn1"
     ++ newline :: String.list_ascii_of_string "BUCKET=first"
     ++ newline :: String.list_ascii_of_string "BUCKET=second"
     ++ [newline]).

Definition lines : list (list ascii) :=
  map String.list_ascii_of_string
    ["# object store of the integration tests";
     "URL = https://fsn1.example.com/?a=b";
     "ACCESS_KEY=access";
     "";
     "SECRET_KEY=secret";
     "REGION=fsn1";
     "BUCKET=first";
     "BUCKET=second";
     ""].

Definition readFile (path : string) : result string :=
  if decide (path = "../test.env") then Ok file
  else Err "open: no such file or directory".

Definition unset : Vars := mkVars "" "" "" "".

End TestEnv.

(** * Verification *)

(** ** Proof tools *)

#[global] Arguments orDefault : simpl never.
#[global] Arguments nonEmpty : simpl never.
#[global] Arguments filepath.Base : simpl never.
#[global] Arguments filepath.Join : simpl never.
#[global] Arguments Semantic.queryPrefix : simpl never.
#[global] Arguments String.append : simpl never.
#[global] Arguments Typed.returnError : simpl never.

(** Unfold the monad and the effect wrappers of a run. *)
Ltac unfold_effects :=
  cbv [mbind mret M_bind M_ret emit now HetznerUploadFile Stat GetObject Create Copy
       DeleteObject ListObjectsV2].

(** Case analysis on the innermost scrutinee in evaluation position: an
    oracle's answer, a library call's result, or a guard of the handler. *)
Ltac branch :=
  match goal with
  | |- context [match ?x with _ => _ end] =>
      lazymatch x with
      | context [match _ with _ => _ end] => fail
      | _ => destruct x eqn:?
      end
  end.


Lemma status_distinct : CompletedActionStatus <> FailedActionStatus.
Proof. discriminate. Qed.

Lemma appended_same s n : appended s (mkState (trace s) n) = [].
Proof. unfold appended. cbn. apply drop_all. Qed.

Lemma appended_refl s : appended s s = [].
Proof. unfold appended. apply drop_all. Qed.

Lemma appended_snoc s evs n : appended s (mkState (trace s ++ evs) n) = evs.
Proof. unfold appended. cbn. apply drop_app_length. Qed.

Lemma appended_snoc2 s e1 evs n :
  appended s (mkState ((trace s ++ [e1]) ++ evs) n) = e1 :: evs.
Proof. rewrite <- app_assoc. apply appended_snoc. Qed.

Lemma appended_snoc3 s e1 e2 evs n :
  appended s (mkState (((trace s ++ [e1]) ++ [e2]) ++ evs) n) = e1 :: e2 :: evs.
Proof. rewrite <- !app_assoc. apply appended_snoc. Qed.

Ltac appended_simpl :=
  rewrite ?appended_snoc3, ?appended_snoc2, ?appended_snoc, ?appended_same, ?appended_refl.

(** *** [returnError] on a typed action *)

Lemma returnError_typed w a message s :
  Envelope.typed a = true ->
  exists a',
    Typed.returnError w a message s
      = (JSON StatusInternalServerError a', mkState (trace s) (S (ticks s)))
    /\ Envelope.status a' = FailedActionStatus
    /\ Envelope.error a' = Some (errorProperty message)
    /\ Envelope.hasResult a' = Envelope.hasResult a
    /\ Envelope.target a' = Envelope.target a.
Proof.
  intros Ha. destruct a as [v|v|v|v|ty]; try discriminate Ha;
    (eexists; split; [reflexivity | repeat split]).
Qed.

(** Replace a [returnError] in evaluation position by what it returns. *)
Ltac fail_leaf :=
  match goal with
  | |- context [Typed.returnError ?w ?a ?m ?s] =>
      let a' := fresh "a'" in
      let Hr := fresh "Hr" in
      let Hs := fresh "Hstatus" in
      let He := fresh "Herror" in
      let Hres := fresh "Hresult" in
      let Ht := fresh "Htarget" in
      destruct (returnError_typed w a m s eq_refl) as (a' & Hr & Hs & He & Hres & Ht);
      rewrite Hr; clear Hr
  end.

Ltac run_typed :=
  unfold Typed.dispatch, Typed.executeUploadAction, Typed.executeDownloadAction,
    Typed.executeDeleteAction, Typed.executeListAction;
  unfold_effects; cbn.

Ltac run_semantic :=
  unfold Semantic.runHandler, Semantic.executeUploadAction, Semantic.executeDownloadAction,
    Semantic.executeDeleteAction, Semantic.executeListAction;
  unfold_effects; cbn.

(** All the runs of a typed handler, one goal per path. *)
Ltac typed_paths := run_typed; repeat (first [fail_leaf | branch]; cbn).
Ltac semantic_paths := run_semantic; repeat (branch; cbn).

(** ** Facts about [filepath.Base] and [filepath.Join] *)

Section FilepathFacts.
Import filepath.

Lemma lastElement_noSeparator r : noSeparator (lastElement r).
Proof.
  induction r as [|c r IH]; cbn; [constructor|].
  destruct (IsPathSeparator c) eqn:Hc; [constructor|].
  constructor; assumption.
Qed.

Lemma noSeparator_reverse l : noSeparator l -> noSeparator (reverse l).
Proof. unfold noSeparator. intros H. by apply Forall_reverse. Qed.

(** The base name holds no separator, unless the path was made of
    separators only and the base name is the separator itself. *)
Lemma Base_noSeparator path :
  Base path = "/" \/ noSeparator (String.list_ascii_of_string (Base path)).
Proof.
  unfold Base. case_decide; [right; repeat constructor|].
  case_decide; [left; reflexivity|]. right.
  rewrite String.list_ascii_of_string_of_list_ascii.
  apply noSeparator_reverse, lastElement_noSeparator.
Qed.

Lemma Base_nonempty path : Base path <> "".
Proof.
  unfold Base. case_decide; [discriminate|]. case_decide; [discriminate|].
  intros Hempty.
  apply (f_equal String.list_ascii_of_string) in Hempty.
  rewrite String.list_ascii_of_string_of_list_ascii in Hempty. cbn in Hempty.
  apply (f_equal reverse) in Hempty. rewrite reverse_involutive in Hempty.
  contradiction.
Qed.

Lemma copyElement_app e rest rout :
  noSeparator e -> atElementEnd rest = true ->
  copyElement (e ++ rest) rout = (rest, reverse e ++ rout).
Proof.
  revert rout. induction e as [|c e IH]; intros rout He Hrest.
  - destruct rest as [|c rest]; [reflexivity|]. cbn in Hrest. cbn [app copyElement].
    rewrite Hrest. reflexivity.
  - inversion He as [|? ? Hc He']; subst. cbn [app copyElement]. rewrite Hc, (IH _ He' Hrest).
    rewrite reverse_cons, <- app_assoc. reflexivity.
Qed.

Lemma cleanLoop_step fuel rooted c rest1 rout dotdot :
  cleanLoop (S fuel) rooted (c :: rest1) rout dotdot
  = if IsPathSeparator c then cleanLoop fuel rooted rest1 rout dotdot
    else if bool_decide (c = dot) && atElementEnd rest1 then
      cleanLoop fuel rooted rest1 rout dotdot
    else if bool_decide (c = dot)
            && match rest1 with
               | c1 :: rest2 => bool_decide (c1 = dot) && atElementEnd rest2
               | [] => false
               end then
      if Nat.ltb dotdot (length rout) then
        cleanLoop fuel rooted (tail rest1) (backtrack (length rout - dotdot) rout) dotdot
      else if negb rooted then
        cleanLoop fuel rooted (tail rest1)
          (dot :: dot :: (if Nat.ltb 0 (length rout) then Separator :: rout else rout))
          (length (dot :: dot :: (if Nat.ltb 0 (length rout) then Separator :: rout else rout)))
      else cleanLoop fuel rooted (tail rest1) rout dotdot
    else
      let '(rest', rout2) :=
        copyElement (c :: rest1)
          (if (rooted && negb (Nat.eqb (length rout) 1))
              || (negb rooted && negb (Nat.eqb (length rout) 0))
           then Separator :: rout else rout) in
      cleanLoop fuel rooted rest' rout2 dotdot.
Proof. reflexivity. Qed.

(** One turn of the loop on a real path element: the element is copied
    behind a separator, if one is needed. *)
Lemma cleanLoop_element fuel rooted e rest rout dotdot :
  noSeparator e -> e <> [] -> e <> [dot] -> e <> [dot; dot] ->
  atElementEnd rest = true ->
  cleanLoop (S fuel) rooted (e ++ rest) rout dotdot
  = cleanLoop fuel rooted rest
      (reverse e
       ++ (if (rooted && negb (Nat.eqb (length rout) 1))
              || (negb rooted && negb (Nat.eqb (length rout) 0))
           then Separator :: rout else rout))
      dotdot.
Proof.
  intros He Hne Hdot Hdotdot Hrest.
  destruct e as [|c e]; [contradiction|].
  inversion He as [|? ? Hc He']; subst.
  change ((c :: e) ++ rest) with (c :: (e ++ rest)).
  rewrite cleanLoop_step, Hc.
  assert (Hcase1 : bool_decide (c = dot) && atElementEnd (e ++ rest) = false).
  { case_bool_decide as Hcd; [|reflexivity]. subst c.
    destruct e as [|c1 e]; [contradiction|].
    inversion He' as [|? ? Hc1 _]; subst. exact Hc1. }
  rewrite Hcase1.
  assert (Hcase2 : bool_decide (c = dot)
                   && match e ++ rest with
                      | c1 :: rest2 => bool_decide (c1 = dot) && atElementEnd rest2
                      | [] => false
                      end = false).
  { case_bool_decide as Hcd; [|reflexivity]. subst c.
    destruct e as [|c1 e]; [contradiction|].
    change ((c1 :: e) ++ rest) with (c1 :: (e ++ rest)). cbv iota beta.
    case_bool_decide as Hc1d; [|reflexivity]. subst c1.
    destruct e as [|c2 e]; [contradiction|].
    inversion He' as [|? ? _ He'']; subst. inversion He'' as [|? ? Hc2 _]; subst.
    exact Hc2. }
  rewrite Hcase2.
  change (c :: (e ++ rest)) with ((c :: e) ++ rest).
  rewrite (copyElement_app (c :: e) rest _ He Hrest). reflexivity.
Qed.

Lemma cleanLoop_last fuel rooted e rout dotdot :
  noSeparator e -> e <> [] -> e <> [dot] -> e <> [dot; dot] ->
  cleanLoop (S fuel) rooted e rout dotdot
  = reverse e
    ++ (if (rooted && negb (Nat.eqb (length rout) 1))
           || (negb rooted && negb (Nat.eqb (length rout) 0))
        then Separator :: rout else rout).
Proof.
  intros He Hne Hdot Hdotdot.
  pose proof (cleanLoop_element fuel rooted e [] rout dotdot He Hne Hdot Hdotdot eq_refl)
    as Hstep.
  rewrite app_nil_r in Hstep. rewrite Hstep. destruct fuel; reflexivity.
Qed.

Lemma cleanLoop_separator fuel rooted c rest rout dotdot :
  IsPathSeparator c = true ->
  cleanLoop (S fuel) rooted (c :: rest) rout dotdot = cleanLoop fuel rooted rest rout dotdot.
Proof. intros Hc. rewrite cleanLoop_step, Hc. reflexivity. Qed.

(** A single element that is neither [.] nor [..] is kept as it is under
    /tmp. *)
Lemma Join_tmp elem :
  elem <> "" -> elem <> "." -> elem <> ".." ->
  noSeparator (String.list_ascii_of_string elem) ->
  Join ["/tmp"; elem] = "/tmp/" +:+ elem.
Proof.
  intros Hne Hdot Hdotdot Hsep.
  rewrite <- (String.string_of_list_ascii_of_string elem) in Hne, Hdot, Hdotdot |- *.
  set (l := String.list_ascii_of_string elem) in *. clearbody l. clear elem.
  assert (Hl : l <> []) by (intros ->; contradiction).
  assert (Hl1 : l <> [dot]) by (intros ->; contradiction).
  assert (Hl2 : l <> [dot; dot]) by (intros ->; contradiction).
  change (Join ["/tmp"; String.string_of_list_ascii l])
    with (Clean (String.string_of_list_ascii
                   ("/" :: "t" :: "m" :: "p" :: "/" :: l)%char)).
  change ("/tmp/" +:+ String.string_of_list_ascii l)
    with (String.string_of_list_ascii ("/" :: "t" :: "m" :: "p" :: "/" :: l)%char).
  unfold Clean. case_decide as Hempty; [discriminate Hempty|]. clear Hempty.
  rewrite String.list_ascii_of_string_of_list_ascii.
  change (IsPathSeparator "/") with true. cbv iota.
  change (tail ("/" :: "t" :: "m" :: "p" :: "/" :: l)%char)
    with (["t"; "m"; "p"]%char ++ "/"%char :: l).
  change (length ("/" :: "t" :: "m" :: "p" :: "/" :: l)%char)
    with (S (S (S (S (S (length l)))))).
  rewrite cleanLoop_element;
    [| repeat constructor | discriminate | discriminate | discriminate | reflexivity].
  rewrite cleanLoop_separator by reflexivity.
  rewrite cleanLoop_last by assumption.
  match goal with
  | |- context [reverse l ++ ?t] => let t' := eval vm_compute in t in change t with t'
  end.
  case_decide as Hout; [destruct (reverse l); discriminate Hout|].
  rewrite reverse_app, reverse_involutive. reflexivity.
Qed.

(** The default download path of a key whose base name is an ordinary
    file name. *)
Lemma Join_tmp_Base key :
  Base key <> "/" -> Base key <> "." -> Base key <> ".." ->
  Join ["/tmp"; Base key] = "/tmp/" +:+ Base key.
Proof.
  intros Hroot Hdot Hdotdot.
  destruct (Base_noSeparator key) as [|Hsep]; [contradiction|].
  apply Join_tmp; auto using Base_nonempty.
Qed.

End FilepathFacts.

(** ** C1: status, result and error of a terminal action *)

Lemma fresh_inv a :
  Envelope.fresh a = true -> Envelope.hasResult a = false /\ Envelope.error a = None.
Proof.
  unfold Envelope.fresh, Envelope.hasError. intros Hf.
  apply andb_true_iff in Hf as [Hr He].
  apply negb_true_iff in Hr, He. split; [done|].
  destruct (Envelope.error a); [|done]. cbn in He. discriminate.
Qed.

(** C1, as amended.  A typed handler run on a request that carries neither
    result nor error answers with an envelope whose status is Completed or
    Failed; it is Failed exactly when an error is populated, and then no
    result is; a download or a listing has a result exactly when it is
    Completed, a delete never has one, and an upload has one exactly when
    it is Completed and [os.Stat] of the uploaded file succeeded. *)
Theorem terminal_status_tracks_error lib w a s :
  Envelope.typed a = true -> Envelope.fresh a = true ->
  exists code a', fst (Typed.dispatch lib w a s) = JSON code a'
   /\ (Envelope.status a' = CompletedActionStatus \/ Envelope.status a' = FailedActionStatus)
   /\ (Envelope.status a' = FailedActionStatus <-> Envelope.hasError a' = true)
   /\ (Envelope.status a' = CompletedActionStatus <-> Envelope.hasError a' = false)
   /\ (Envelope.hasError a' = true -> Envelope.hasResult a' = false)
   /\ match a with
      | Typed.AUpload v =>
          Envelope.hasResult a' = true
          <-> Envelope.status a' = CompletedActionStatus
              /\ exists object size,
                   S3UploadAction.Object v = Some object
                   /\ os_Stat w (S3Object.ContentUrl object) = Ok size
      | Typed.ADownload _ | Typed.AList _ =>
          Envelope.hasResult a' = true <-> Envelope.status a' = CompletedActionStatus
      | Typed.ADelete _ => Envelope.hasResult a' = false
      | Typed.AOther _ => True
      end.
Proof.
  intros Ht Hf. apply fresh_inv in Hf as [Hres Herr].
  pose proof status_distinct as Hne.
  destruct a as [v|v|v|v|?]; try discriminate; cbn in Herr, Hres.
  all: typed_paths.
  all: eexists _, _; (split; [reflexivity|]).
  all: unfold Envelope.hasError; cbn in *; rewrite ?Herror, ?Herr, ?Hstatus, ?Hresult, ?Hres; cbn.
  all: repeat split; try done; try (by left); try (by right); try (intros; congruence).
  all: try (intros [Hc _]; congruence).
  all: try (intros (_ & object & size & Ho & Hs); simplify_eq; congruence).
  all: eauto.
Qed.

(** C1, counterexample: a delete that succeeds ends Completed with neither
    a result nor an error populated, against "Completed iff a result is
    populated" and "no terminal action has ... neither"; so does an upload
    whose file cannot be stat'ed after it was stored.  The delete handler
    of [cmd/semantic_api.go] likewise hands the action to
    [SetSuccessOnAction] with no "result" property on it. *)
Lemma delete_completes_with_neither :
  (exists a',
      fst (Typed.dispatch Sample.lib Sample.world
             (Typed.ADelete (Sample.delete (Some Sample.bucket) "temp/processing.tmp"))
             Sample.start) = JSON StatusOK a'
      /\ Envelope.status a' = CompletedActionStatus
      /\ Envelope.hasResult a' = false
      /\ Envelope.hasError a' = false
      /\ ~ Spec.resultXorError a')
  /\ (exists a',
        fst (Typed.dispatch Sample.lib Sample.statFails
               (Typed.AUpload (Sample.upload (Some Sample.bucket) "obj-id" "/tmp/f.txt" ""))
               Sample.start) = JSON StatusOK a'
        /\ Envelope.status a' = CompletedActionStatus
        /\ Envelope.hasResult a' = false
        /\ Envelope.hasError a' = false
        /\ ~ Spec.resultXorError a')
  /\ (let action :=
        Sample.semanticAction "DeleteAction"
          [("object", Semantic.AS3Object (Sample.object "temp/processing.tmp" "" ""))] in
      let lib := Sample.semanticLib (Ok Sample.bucket) in
      fst (Semantic.executeDeleteAction lib Sample.world action Sample.start)
      = JSON StatusOK (Semantic.SetSuccessOnAction lib action)
      /\ Semantic.SemanticAction.Properties action !! "result" = None).
Proof.
  assert (Hneither : forall a',
             Envelope.status a' = CompletedActionStatus ->
             Envelope.hasResult a' = false -> ~ Spec.resultXorError a').
  { intros a' Hstatus Hres [[Hc _] _]. destruct (Hc Hstatus) as [Hres' _]. congruence. }
  split; [|split].
  - eexists. split; [vm_compute; reflexivity|].
    split; [reflexivity|]. split; [reflexivity|]. split; [reflexivity|].
    by apply Hneither.
  - eexists. split; [vm_compute; reflexivity|].
    split; [reflexivity|]. split; [reflexivity|]. split; [reflexivity|].
    by apply Hneither.
  - split; reflexivity.
Qed.

Lemma terminal_status_tracks_error_witness :
  let a := Typed.AUpload (Sample.upload (Some Sample.bucket) "obj-id" "/tmp/f.txt" "k") in
  (Envelope.typed a = true /\ Envelope.fresh a = true)
  /\ exists code a', fst (Typed.dispatch Sample.lib Sample.world a Sample.start) = JSON code a'
   /\ (Envelope.status a' = CompletedActionStatus \/ Envelope.status a' = FailedActionStatus)
   /\ (Envelope.status a' = FailedActionStatus <-> Envelope.hasError a' = true)
   /\ (Envelope.status a' = CompletedActionStatus <-> Envelope.hasError a' = false)
   /\ (Envelope.hasError a' = true -> Envelope.hasResult a' = false)
   /\ (Envelope.hasResult a' = true
       <-> Envelope.status a' = CompletedActionStatus
           /\ exists object size,
                Some (Sample.object "obj-id" "" "/tmp/f.txt") = Some object
                /\ os_Stat Sample.world (S3Object.ContentUrl object) = Ok size).
Proof.
  split; [split; reflexivity|].
  apply (terminal_status_tracks_error Sample.lib Sample.world
           (Typed.AUpload (Sample.upload (Some Sample.bucket) "obj-id" "/tmp/f.txt" "k"))
           Sample.start); reflexivity.
Defined.

(** ** C2: the key an upload is stored under *)

Lemma orDefault_targetFirst targetUrl identifier filePath :
  orDefault (orDefault targetUrl identifier) (filepath.Base filePath)
  = Spec.targetFirst targetUrl identifier filePath.
Proof.
  unfold orDefault, Spec.targetFirst.
  repeat case_decide; congruence.
Qed.

(** C2, as amended.  An upload of an object with a non-empty local content
    path stores it, once the credentials resolve, by one upload call under
    the request-supplied target key if non-empty, otherwise the object
    identifier if non-empty, otherwise the base name of the local path; it
    makes no upload call when the credentials do not resolve.  The typed
    handler and the [SemanticAction] handler agree. *)
Theorem upload_key_target_first :
  (forall lib w action s object,
      S3UploadAction.Object action = Some object ->
      S3Object.ContentUrl object <> "" ->
      uploadedKeys (appended s (snd (Typed.executeUploadAction lib w action s)))
      = match Typed.ExtractS3Credentials lib (S3UploadAction.Target action) with
        | Ok _ =>
            [Spec.targetFirst (S3UploadAction.TargetUrl action)
               (S3Object.Identifier object) (S3Object.ContentUrl object)]
        | Err _ => []
        end)
  /\ (forall lib w action s bucket object,
        Semantic.GetS3BucketFromAction lib action = Ok bucket ->
        Semantic.GetS3ObjectFromAction lib action = Ok object ->
        S3Object.ContentUrl object <> "" ->
        uploadedKeys (appended s (snd (Semantic.executeUploadAction lib w action s)))
        = match Semantic.ExtractS3Credentials lib (Some bucket) with
          | Ok _ =>
              [Spec.targetFirst (Semantic.GetS3TargetUrlFromAction lib action)
                 (S3Object.Identifier object) (S3Object.ContentUrl object)]
          | Err _ => []
          end).
Proof.
  split.
  - intros lib w action s object Hobj Hpath.
    run_typed. rewrite Hobj.
    destruct (Typed.ExtractS3Credentials lib _) as [cred|e]; cbn.
    + destruct (decide (S3Object.ContentUrl object = "")) as [|_]; [done|].
      rewrite orDefault_targetFirst.
      repeat (first [fail_leaf | branch]; cbn); appended_simpl; reflexivity.
    + fail_leaf. cbn. appended_simpl. reflexivity.
  - intros lib w action s bucket object Hbucket Hobj Hpath.
    run_semantic. rewrite Hbucket, Hobj.
    destruct (Semantic.ExtractS3Credentials lib _) as [cred|e]; cbn.
    + destruct (decide (S3Object.ContentUrl object = "")) as [|_]; [done|].
      rewrite orDefault_targetFirst.
      repeat (branch; cbn); appended_simpl; reflexivity.
    + appended_simpl. reflexivity.
Qed.

(** C2, counterexample: with identifier [obj-id] and target key
    [remote/key.txt] both given, the object is stored under the target
    key, where the claim's order gives the identifier. *)
Lemma upload_not_identifier_first :
  let action := Sample.upload (Some Sample.bucket) "obj-id" "/tmp/f.txt" "remote/key.txt" in
  uploadedKeys
    (trace (snd (Typed.executeUploadAction Sample.lib Sample.world action Sample.start)))
  = ["remote/key.txt"]
  /\ Spec.identifierFirst "obj-id" "remote/key.txt" "/tmp/f.txt" = "obj-id"
  /\ uploadedKeys
       (trace (snd (Typed.executeUploadAction Sample.lib Sample.world action Sample.start)))
     <> [Spec.identifierFirst "obj-id" "remote/key.txt" "/tmp/f.txt"].
Proof. repeat split; try reflexivity. vm_compute. discriminate. Qed.

Lemma upload_key_target_first_witness :
  let action := Sample.upload (Some Sample.bucket) "obj-id" "/tmp/f.txt" "remote/key.txt" in
  uploadedKeys
    (appended Sample.start
       (snd (Typed.executeUploadAction Sample.lib Sample.world action Sample.start)))
  = [Spec.targetFirst "remote/key.txt" "obj-id" "/tmp/f.txt"].
Proof.
  apply (proj1 upload_key_target_first Sample.lib Sample.world
           (Sample.upload (Some Sample.bucket) "obj-id" "/tmp/f.txt" "remote/key.txt")
           Sample.start (Sample.object "obj-id" "" "/tmp/f.txt"));
    [reflexivity | discriminate].
Defined.

(** ** C3: how a business-logic failure is answered *)




(** ** C4: an unrecognised discriminator *)

Lemma route_unrecognized actionType :
  actionType ∉ Spec.recognized -> Semantic.route actionType = None.
Proof.
  unfold Spec.recognized, Semantic.route. intros Hnot.
  repeat case_decide; try reflexivity; subst; exfalso; apply Hnot;
    repeat first [apply list_elem_of_here | apply list_elem_of_further].
Qed.

Lemma route_recognized actionType :
  actionType ∈ Spec.recognized -> is_Some (Semantic.route actionType).
Proof.
  unfold Spec.recognized, Semantic.route. intros Hin.
  repeat case_decide; try (eexists; reflexivity).
  exfalso. repeat (apply elem_of_cons in Hin as [Hin|Hin]; [contradiction|]).
  by apply elem_of_nil in Hin.
Qed.

(** C4.  An envelope that parses to an action whose discriminator is none
    of CreateAction, DownloadAction, DeleteAction, SearchAction selects no
    handler; the response is HTTP 400 with the message "Unsupported action
    type: ..." and the run leaves the state as it was: no call of any kind
    is made.  In the typed variant the same holds for a parsed value that
    is none of the four typed actions. *)
Theorem unsupported_action_is_400 :
  (forall lib w body action s,
      Semantic.ParseSemanticAction lib body = Ok action ->
      Semantic.SemanticAction.Type_ action ∉ Spec.recognized ->
      Semantic.route (Semantic.SemanticAction.Type_ action) = None
      /\ Semantic.handleSemanticAction lib w (Ok body) s
         = (HTTPError StatusBadRequest
              ("Unsupported action type: " +:+ Semantic.SemanticAction.Type_ action), s))
  /\ (forall lib w body goType s,
        Typed.ParseS3Action lib body = Ok (Typed.AOther goType) ->
        Typed.handleSemanticAction lib w (Ok body) s
        = (HTTPError StatusBadRequest ("Unsupported action type: " +:+ goType), s)).
Proof.
  split.
  - intros lib w body action s Hparse Hnot.
    pose proof (route_unrecognized _ Hnot) as Hroute. split; [exact Hroute|].
    unfold Semantic.handleSemanticAction. rewrite Hparse, Hroute. reflexivity.
  - intros lib w body goType s Hparse.
    unfold Typed.handleSemanticAction. rewrite Hparse. reflexivity.
Qed.

Lemma unsupported_action_is_400_witness :
  let lib := Sample.semanticLib (Ok Sample.bucket) in
  Semantic.route "UpdateAction" = None
  /\ Semantic.handleSemanticAction lib Sample.world (Ok "UpdateAction") Sample.start
     = (HTTPError StatusBadRequest ("Unsupported action type: " +:+ "UpdateAction"),
        Sample.start).
Proof.
  apply (proj1 unsupported_action_is_400 (Sample.semanticLib (Ok Sample.bucket)) Sample.world
           "UpdateAction" (Semantic.SemanticAction.mk "UpdateAction" "" ∅) Sample.start).
  - reflexivity.
  - apply (bool_decide_unpack _). vm_compute. exact I.
Defined.

(** ** C5: a target that misses a credential field *)

Lemma spec_extract_rejects : Spec.rejectsMissingCredentials Spec.ExtractS3Credentials.
Proof.
  intros [b|] Hmiss; cbn.
  - cbn in Hmiss. rewrite Hmiss. eauto.
  - eauto.
Qed.

(** C5, as amended.  With a credential resolver that rejects a target
    missing a required field, a run on such a target makes no call at all
    (the trace is unchanged, so no upload, get, delete or list reaches the
    store) and fails.  Every typed handler answers with a Failed envelope
    whose error message is "Failed to extract S3 credentials: ...".  A
    [SemanticAction] handler extracts the object before it looks at the
    credentials, except for a listing, which reads no object: when the
    object is extracted, or the handler is the listing one, the failure it
    hands to the library's [ReturnActionError] is "Failed to extract S3
    credentials" with the resolver's error; when the object cannot be
    extracted, it is "Failed to extract S3 object" with the error of that
    extraction, and the credentials are never looked at. *)
Theorem missing_credentials_fail_before_store :
  (forall lib w a s,
      Spec.rejectsMissingCredentials (Typed.ExtractS3Credentials lib) ->
      Envelope.typed a = true ->
      Spec.missingCredentialField (Envelope.target a) = true ->
      exists a' e,
        fst (Typed.dispatch lib w a s) = JSON StatusInternalServerError a'
        /\ Envelope.status a' = FailedActionStatus
        /\ Envelope.error a'
           = Some (errorProperty ("Failed to extract S3 credentials: " +:+ e))
        /\ trace (snd (Typed.dispatch lib w a s)) = trace s
        /\ store_calls (appended s (snd (Typed.dispatch lib w a s))) = [])
  /\ (forall lib w h action s bucket,
        Spec.rejectsMissingCredentials (Semantic.ExtractS3Credentials lib) ->
        Semantic.GetS3BucketFromAction lib action = Ok bucket ->
        Spec.missingCredentialField (Some bucket) = true ->
        exists e,
          Semantic.ExtractS3Credentials lib (Some bucket) = Err e
          /\ snd (Semantic.runHandler lib w h action s) = s
          /\ (h = Semantic.ListHandler
              \/ (exists object, Semantic.GetS3ObjectFromAction lib action = Ok object) ->
              fst (Semantic.runHandler lib w h action s)
              = Semantic.ReturnActionError lib action "Failed to extract S3 credentials"
                  (Some e))
          /\ (forall err,
                h <> Semantic.ListHandler ->
                Semantic.GetS3ObjectFromAction lib action = Err err ->
                fst (Semantic.runHandler lib w h action s)
                = Semantic.ReturnActionError lib action "Failed to extract S3 object"
                    (Some err))).
Proof.
  split.
  - intros lib w a s Hcontract Ht Hmiss.
    destruct (Hcontract _ Hmiss) as [e He].
    destruct a as [v|v|v|v|?]; try discriminate; cbn [Envelope.target] in He.
    all: run_typed; rewrite He; fail_leaf; cbn.
    all: exists a', e; appended_simpl; repeat split; assumption.
  - intros lib w h action s bucket Hcontract Hbucket Hmiss.
    destruct (Hcontract _ Hmiss) as [e He]. exists e. split; [exact He|].
    destruct (Semantic.GetS3ObjectFromAction lib action) as [object|eo] eqn:Hobj.
    + destruct h; run_semantic; rewrite Hbucket, ?Hobj; cbn; rewrite He; cbn.
      all: split; [reflexivity|]; split; [intros _; reflexivity | intros err' _ [=]].
    + destruct h; run_semantic; rewrite Hbucket, ?Hobj; cbn; rewrite ?He; cbn.
      1-3: split; [reflexivity|]; split;
        [intros [[=]|[object [=]]] | intros err' _ [= <-]; reflexivity].
      split; [reflexivity|]; split; [intros _; reflexivity | intros err' Hh; contradiction].
Qed.

(** C5, counterexample: an upload in the [SemanticAction] variant whose
    bucket has no access key and whose action carries no object.  The
    handler stops at the object: what it reports is "Failed to extract S3
    object", not a credential-extraction error. *)
Lemma missing_credentials_reported_as_missing_object :
  let lib := Sample.semanticLib (Ok Sample.bucketNoKey) in
  let action := Sample.semanticAction "CreateAction" [] in
  let run := Semantic.handleSemanticAction lib Sample.world (Ok "CreateAction") Sample.start in
  Semantic.GetS3BucketFromAction lib action = Ok Sample.bucketNoKey
  /\ Spec.missingCredentialField (Some Sample.bucketNoKey) = true
  /\ Semantic.ExtractS3Credentials lib (Some Sample.bucketNoKey) = Err "MissingCredentials"
  /\ run = (Semantic.ReturnActionError lib action "Failed to extract S3 object"
              (Some "object is required"), Sample.start)
  /\ fst run <> Semantic.ReturnActionError lib action "Failed to extract S3 credentials"
                  (Some "MissingCredentials").
Proof.
  repeat split; try reflexivity.
  intros Heq.
  apply (f_equal (fun r => match r with
                           | JSON _ a => Semantic.SemanticAction.Properties a !! "error"
                           | _ => None
                           end)) in Heq.
  vm_compute in Heq. discriminate Heq.
Qed.

Lemma missing_credentials_fail_before_store_witness :
  let a := Typed.ADownload (Sample.download (Some Sample.bucketNoKey) "results/output.xml" "" "") in
  exists a' e,
    fst (Typed.dispatch Sample.lib Sample.world a Sample.start)
    = JSON StatusInternalServerError a'
    /\ Envelope.status a' = FailedActionStatus
    /\ Envelope.error a'
       = Some (errorProperty ("Failed to extract S3 credentials: " +:+ e))
    /\ trace (snd (Typed.dispatch Sample.lib Sample.world a Sample.start))
       = trace Sample.start
    /\ store_calls
         (appended Sample.start (snd (Typed.dispatch Sample.lib Sample.world a Sample.start)))
       = [].
Proof.
  apply (proj1 missing_credentials_fail_before_store Sample.lib Sample.world
           (Typed.ADownload
              (Sample.download (Some Sample.bucketNoKey) "results/output.xml" "" ""))
           Sample.start).
  - exact spec_extract_rejects.
  - reflexivity.
  - reflexivity.
Defined.

(** ** C6: the key and the local path of a download *)

Lemma orDefault_objectKey object :
  orDefault (S3Object.Identifier object) (S3Object.Name object) = Spec.objectKey object.
Proof. reflexivity. Qed.

Lemma orDefault_downloadPath object :
  orDefault (S3Object.ContentUrl object)
    (filepath.Join ["/tmp"; filepath.Base (Spec.objectKey object)])
  = Spec.downloadPath object.
Proof. reflexivity. Qed.

Lemma objectKey_empty object :
  Spec.objectKey object = ""
  <-> S3Object.Identifier object = "" /\ S3Object.Name object = "".
Proof.
  unfold Spec.objectKey. case_decide as Hid; split.
  - intros Hname. by split.
  - intros [_ Hname]. exact Hname.
  - intros Hempty. contradiction.
  - intros [Hempty _]. contradiction.
Qed.

(** The calls of a typed download, whatever the world answers. *)
Lemma typed_download_calls lib w action s object :
  S3DownloadAction.Object action = Some object ->
  appended s (snd (Typed.executeDownloadAction lib w action s))
  = Spec.downloadCalls w (Typed.ExtractS3Credentials lib (S3DownloadAction.Target action))
      object.
Proof.
  intros Hobj. run_typed. rewrite Hobj. unfold Spec.downloadCalls, Spec.downloadEvents.
  rewrite !orDefault_objectKey, orDefault_downloadPath.
  repeat (first [fail_leaf | branch]; cbn); appended_simpl; reflexivity.
Qed.

Lemma semantic_download_calls lib w action s bucket object :
  Semantic.GetS3BucketFromAction lib action = Ok bucket ->
  Semantic.GetS3ObjectFromAction lib action = Ok object ->
  appended s (snd (Semantic.executeDownloadAction lib w action s))
  = Spec.downloadCalls w (Semantic.ExtractS3Credentials lib (Some bucket)) object.
Proof.
  intros Hbucket Hobj. run_semantic. rewrite Hbucket, Hobj.
  unfold Spec.downloadCalls, Spec.downloadEvents.
  rewrite !orDefault_objectKey, orDefault_downloadPath.
  repeat (branch; cbn); appended_simpl; reflexivity.
Qed.

(** C6, as amended.  In a download that carries an object, the remote key
    is the object identifier if non-empty, otherwise the object name.  If
    both are empty the handler fails and makes no call; the message is
    "Object identifier (S3 key) is required" once the credentials have
    resolved (a target whose credentials do not resolve fails first, with
    the credential message).  In every case the calls are those of
    [Spec.downloadCalls]: once the credentials resolve and the client is
    built, the one [GetObject] asks for the resolved key, and the local
    file is the request's content path if non-empty, otherwise
    [filepath.Join("/tmp", filepath.Base(key))].  The typed handler and the
    [SemanticAction] handler agree. *)
Theorem download_key_and_path :
  (forall lib w action s object,
      S3DownloadAction.Object action = Some object ->
      (S3Object.Identifier object = "" -> S3Object.Name object = "" ->
         exists a' message,
           fst (Typed.executeDownloadAction lib w action s)
           = JSON StatusInternalServerError a'
           /\ Envelope.status a' = FailedActionStatus
           /\ Envelope.error a' = Some (errorProperty message)
           /\ appended s (snd (Typed.executeDownloadAction lib w action s)) = []
           /\ (forall cred,
                 Typed.ExtractS3Credentials lib (S3DownloadAction.Target action) = Ok cred ->
                 message = "Object identifier (S3 key) is required")
           /\ (forall err,
                 Typed.ExtractS3Credentials lib (S3DownloadAction.Target action) = Err err ->
                 message = "Failed to extract S3 credentials: " +:+ err))
      /\ appended s (snd (Typed.executeDownloadAction lib w action s))
         = Spec.downloadCalls w
             (Typed.ExtractS3Credentials lib (S3DownloadAction.Target action)) object)
  /\ (forall lib w action s bucket object,
        Semantic.GetS3BucketFromAction lib action = Ok bucket ->
        Semantic.GetS3ObjectFromAction lib action = Ok object ->
        (S3Object.Identifier object = "" -> S3Object.Name object = "" ->
           forall cred,
             Semantic.ExtractS3Credentials lib (Some bucket) = Ok cred ->
             fst (Semantic.executeDownloadAction lib w action s)
             = Semantic.ReturnActionError lib action
                 "Object identifier (S3 key) is required" None)
        /\ appended s (snd (Semantic.executeDownloadAction lib w action s))
           = Spec.downloadCalls w (Semantic.ExtractS3Credentials lib (Some bucket)) object
        /\ (forall err,
              Semantic.ExtractS3Credentials lib (Some bucket) = Err err ->
              fst (Semantic.executeDownloadAction lib w action s)
              = Semantic.ReturnActionError lib action "Failed to extract S3 credentials"
                  (Some err))).
Proof.
  split.
  - intros lib w action s object Hobj. split; [|by apply typed_download_calls].
    intros Hid Hname.
    assert (Hkey : Spec.objectKey object = "") by (by apply objectKey_empty).
    rewrite (typed_download_calls _ _ _ _ _ Hobj).
    run_typed. rewrite Hobj, orDefault_objectKey. unfold Spec.downloadCalls.
    destruct (Typed.ExtractS3Credentials lib _) as [cred|e]; cbn.
    + destruct (decide (Spec.objectKey object = "")) as [_|]; [|done].
      fail_leaf. cbn. eexists _, _.
      split; [reflexivity|]. split; [assumption|]. split; [eassumption|].
      split; [reflexivity|]. split; [reflexivity | intros ? [=]].
    + fail_leaf. cbn. eexists _, _.
      split; [reflexivity|]. split; [assumption|]. split; [eassumption|].
      split; [reflexivity|]. split; [intros ? [=] | intros ? [= <-]; reflexivity].
  - intros lib w action s bucket object Hbucket Hobj.
    split; [|split; [by apply semantic_download_calls|]].
    + intros Hid Hname cred Hcred.
      assert (Hkey : Spec.objectKey object = "") by (by apply objectKey_empty).
      run_semantic.
      rewrite Hbucket, Hobj, Hcred, orDefault_objectKey. cbn.
      destruct (decide (Spec.objectKey object = "")) as [_|]; [|done]. reflexivity.
    + intros err Hcred. run_semantic. rewrite Hbucket, Hobj, Hcred. reflexivity.
Qed.

(** C6, counterexample: a download with neither identifier nor name whose
    target has no access key fails with the credential message, not with
    the missing-object-key message. *)
Lemma missing_key_reported_after_credentials :
  let action := Sample.download (Some Sample.bucketNoKey) "" "" "" in
  let response :=
    fst (Typed.executeDownloadAction Sample.lib Sample.world action Sample.start) in
  Spec.objectKey (Sample.object "" "" "") = ""
  /\ (Envelope.error <$> Envelope.ofResponse response)
     = Some (Some (errorProperty "Failed to extract S3 credentials: MissingCredentials"))
  /\ (Envelope.error <$> Envelope.ofResponse response)
     <> Some (Some (errorProperty "Object identifier (S3 key) is required")).
Proof. repeat split; try reflexivity. vm_compute. discriminate. Qed.

Lemma download_key_and_path_witness :
  let action := Sample.download (Some Sample.bucket) "" "results/output.xml" "" in
  let client :=
    mkS3Client "https://fsn1.your-objectstorage.com" "fsn1" "access" "secret" true in
  appended Sample.start
    (snd (Typed.executeDownloadAction Sample.lib Sample.world action Sample.start))
  = [EvGetObject client (GetObjectInput.mk "my-bucket" "results/output.xml");
     EvCreate "/tmp/output.xml"; EvCopy "/tmp/output.xml" "hello"].
Proof.
  apply (proj2 (proj1 download_key_and_path Sample.lib Sample.world
                  (Sample.download (Some Sample.bucket) "" "results/output.xml" "")
                  Sample.start (Sample.object "" "results/output.xml" "") eq_refl)).
Defined.

(** ** C7: the prefix and the single call of a listing *)

Lemma nonEmpty_prefixOf query : nonEmpty query = Spec.prefixOf query.
Proof. reflexivity. Qed.

(** The prefix the [SemanticAction] handler reads from [Properties]. *)
Lemma queryPrefix_string action query :
  Semantic.SemanticAction.Properties action !! "query" = Some (Semantic.AString query) ->
  Semantic.queryPrefix action = Spec.prefixOf query.
Proof. unfold Semantic.queryPrefix. intros ->. reflexivity. Qed.

Lemma queryPrefix_absent action :
  Semantic.SemanticAction.Properties action !! "query" = None ->
  Semantic.queryPrefix action = None.
Proof. unfold Semantic.queryPrefix. intros ->. reflexivity. Qed.

Lemma listingTrace_at_most_one w cred prefix :
  length (Spec.listingTrace w cred prefix) <= 1.
Proof.
  unfold Spec.listingTrace. destruct cred as [cred|]; [|cbn; lia].
  destruct (createS3Client _ _ _ _ _); cbn; lia.
Qed.

(** C7, as amended.  A listing makes at most one call: none when the
    credentials do not resolve or the client cannot be built, and otherwise
    exactly one [ListObjectsV2], for the bucket, with no continuation
    token, whose prefix is the query when non-empty and absent otherwise.
    When that call succeeds the result is that one page, also when the
    store says the listing is truncated.  The typed handler reads the query
    from the action's [Query] field, the [SemanticAction] handler from the
    string held under "query" in [Properties] (and makes no call either
    when the bucket cannot be extracted). *)
Theorem listing_is_single_call :
  (forall lib w action s,
      appended s (snd (Typed.executeListAction lib w action s))
      = Spec.listingTrace w (Typed.ExtractS3Credentials lib (S3ListAction.Target action))
          (Spec.prefixOf (S3ListAction.Query action))
      /\ length (appended s (snd (Typed.executeListAction lib w action s))) <= 1
      /\ forall cred client page,
           Typed.ExtractS3Credentials lib (S3ListAction.Target action) = Ok cred ->
           createS3Client w (cred_url cred) (cred_region cred) (cred_accessKey cred)
             (cred_secretKey cred) = Ok client ->
           s3_ListObjectsV2 w client
             (ListObjectsV2Input.mk (cred_bucketName cred)
                (Spec.prefixOf (S3ListAction.Query action)) None) = Ok page ->
           exists a',
             fst (Typed.executeListAction lib w action s) = JSON StatusOK (Typed.AList a')
             /\ S3ListAction.Result a'
                = Some (map (Typed.listedObject (cred_bucketName cred))
                          (ListObjectsV2Output.Contents page)))
  /\ (forall lib w action s,
        appended s (snd (Semantic.executeListAction lib w action s))
        = match Semantic.GetS3BucketFromAction lib action with
          | Err _ => []
          | Ok bucket =>
              Spec.listingTrace w (Semantic.ExtractS3Credentials lib (Some bucket))
                (match Semantic.SemanticAction.Properties action !! "query" with
                 | Some (Semantic.AString query) => Spec.prefixOf query
                 | _ => None
                 end)
          end).
Proof.
  split.
  - intros lib w action s.
    assert (Hcalls : appended s (snd (Typed.executeListAction lib w action s))
                     = Spec.listingTrace w
                         (Typed.ExtractS3Credentials lib (S3ListAction.Target action))
                         (Spec.prefixOf (S3ListAction.Query action))).
    { run_typed. unfold Spec.listingTrace. rewrite nonEmpty_prefixOf.
      repeat (first [fail_leaf | branch]; cbn); appended_simpl; reflexivity. }
    split; [exact Hcalls|]. split; [rewrite Hcalls; apply listingTrace_at_most_one|].
    intros cred client page Hcred Hclient Hpage.
    run_typed. rewrite Hcred, nonEmpty_prefixOf. cbn. rewrite Hclient. cbn.
    rewrite Hpage. cbn. eexists. split; reflexivity.
  - intros lib w action s.
    run_semantic. unfold Spec.listingTrace.
    change (match Semantic.SemanticAction.Properties action !! "query" with
            | Some (Semantic.AString query) => Spec.prefixOf query
            | _ => None
            end) with (Semantic.queryPrefix action).
    repeat (branch; cbn); appended_simpl; reflexivity.
Qed.

(** C7, counterexample: a listing whose target has no access key makes no
    listing call, where the claim has exactly one per request. *)
Lemma listing_without_credentials_makes_no_call :
  let action := Sample.listing (Some Sample.bucketNoKey) "data/" in
  listingCalls
    (trace (snd (Typed.executeListAction Sample.lib Sample.world action Sample.start)))
  = []
  /\ length
       (listingCalls
          (trace (snd (Typed.executeListAction Sample.lib Sample.world action Sample.start))))
     <> 1.
Proof. split; [reflexivity|]. vm_compute. discriminate. Qed.

Lemma listing_is_single_call_witness :
  let action := Sample.listing (Some Sample.bucket) "data/" in
  let client :=
    mkS3Client "https://fsn1.your-objectstorage.com" "fsn1" "access" "secret" true in
  appended Sample.start
    (snd (Typed.executeListAction Sample.lib Sample.world action Sample.start))
  = [EvListObjectsV2 client (ListObjectsV2Input.mk "my-bucket" (Some "data/") None)].
Proof.
  apply (proj1 (proj1 listing_is_single_call Sample.lib Sample.world
                  (Sample.listing (Some Sample.bucket) "data/") Sample.start)).
Defined.

(** ** C8: REST validation *)

(** C8.  A REST request that fails its validation (no key or no content on
    upload, no key on download or delete, no name on bucket creation) is
    answered with HTTP 400 and the message of the failed check, whatever
    [json.Marshal] and the semantic handler are, and the state is left as
    it was: the request is neither converted nor handed to the dispatcher.
    The adapter makes no call of its own: a REST request is either answered
    directly (400 or 500) with the state untouched, or is exactly one run
    of the semantic handler on the marshalled envelope. *)
Theorem rest_validation_is_direct_400 :
  (forall (A : Type) (json_Marshal : Rest.JSONValue -> result string)
          (handleSemanticAction : result string -> M (Response A)) req message s,
      Spec.validationError req = Some message ->
      Rest.serve json_Marshal handleSemanticAction req s
      = (JSONError StatusBadRequest message, s))
  /\ (forall (A : Type) (json_Marshal : Rest.JSONValue -> result string)
             (handleSemanticAction : result string -> M (Response A)) req s,
        (exists response,
            Rest.serve json_Marshal handleSemanticAction req s = (response, s)
            /\ (http_status response = StatusBadRequest
                \/ http_status response = StatusInternalServerError))
        \/ (exists body,
              Rest.serve json_Marshal handleSemanticAction req s
              = handleSemanticAction (Ok body) s)).
Proof.
  split.
  - intros A json_Marshal handle req message s Hinvalid.
    destruct req as [[r|e]|key bucket|key bucket| |[r|e]]; cbn in Hinvalid;
      try discriminate Hinvalid; cbn;
      unfold Rest.getObjectREST, Rest.deleteObjectREST;
      repeat case_decide; simplify_eq; reflexivity.
  - intros A json_Marshal handle req s.
    destruct req as [[r|e]|key bucket|key bucket| |[r|e]]; cbn;
      unfold Rest.getObjectREST, Rest.deleteObjectREST, Rest.listBucketsREST,
        Rest.callSemanticHandler;
      repeat case_decide;
      try (left; eexists; split; [reflexivity | left; reflexivity]).
    all: destruct (json_Marshal _) as [body|err].
    all: try (right; eexists; reflexivity).
    all: left; eexists; split; [reflexivity | right; reflexivity].
Qed.

Lemma rest_validation_is_direct_400_witness :
  Rest.serve Sample.marshal
    (Semantic.handleSemanticAction (Sample.semanticLib (Ok Sample.bucket)) Sample.world)
    (Rest.PostObjects (Ok (Rest.UploadObjectRequest.mk "data/input.json" "" "my-bucket")))
    Sample.start
  = (JSONError StatusBadRequest "content is required", Sample.start).
Proof.
  apply (proj1 rest_validation_is_direct_400 _ Sample.marshal
           (Semantic.handleSemanticAction (Sample.semanticLib (Ok Sample.bucket))
              Sample.world)
           (Rest.PostObjects
              (Ok (Rest.UploadObjectRequest.mk "data/input.json" "" "my-bucket")))
           "content is required" Sample.start).
  reflexivity.
Defined.

(** ** C9: REST GET of a single object *)

(** The list handler makes no call of the download path. *)
Lemma semantic_list_no_download lib w action s :
  Forall (fun e => is_download_event e = false)
    (appended s (snd (Semantic.executeListAction lib w action s))).
Proof.
  semantic_paths; appended_simpl; repeat constructor.
Qed.

Lemma getObjectEnvelope_type key bucket :
  Rest.jsonField "@type" (Rest.getObjectEnvelope key bucket)
  = Some (Rest.JString "SearchAction").
Proof.
  unfold Rest.getObjectEnvelope, Rest.withBucket. case_decide; reflexivity.
Qed.

(** C9.  A REST GET of an object with a non-empty key builds an envelope
    whose [@type] is SearchAction, and the dispatcher routes SearchAction
    to the list handler.  So, given that the envelope marshals and that the
    library's parser returns an action with the envelope's discriminator,
    the request is exactly a run of [executeListAction] on that action, and
    it makes no call of the download path (no [GetObject], no local file
    created or written). *)
Theorem rest_get_runs_list_handler lib w json_Marshal key bucket s body action :
  key <> "" ->
  json_Marshal (Rest.getObjectEnvelope key bucket) = Ok body ->
  Semantic.ParseSemanticAction lib body = Ok action ->
  Rest.jsonField "@type" (Rest.getObjectEnvelope key bucket)
  = Some (Rest.JString (Semantic.SemanticAction.Type_ action)) ->
  Semantic.SemanticAction.Type_ action = "SearchAction"
  /\ Semantic.route "SearchAction" = Some Semantic.ListHandler
  /\ Rest.getObjectREST json_Marshal (Semantic.handleSemanticAction lib w) key bucket s
     = Semantic.executeListAction lib w action s
  /\ Forall (fun e => is_download_event e = false)
       (appended s
          (snd (Rest.getObjectREST json_Marshal (Semantic.handleSemanticAction lib w)
                  key bucket s))).
Proof.
  intros Hkey Hmarshal Hparse Htype.
  rewrite getObjectEnvelope_type in Htype. injection Htype as Htype. symmetry in Htype.
  assert (Hrun : Rest.getObjectREST json_Marshal (Semantic.handleSemanticAction lib w)
                   key bucket s
                 = Semantic.executeListAction lib w action s).
  { unfold Rest.getObjectREST, Rest.callSemanticHandler.
    destruct (decide (key = "")) as [|_]; [done|].
    rewrite Hmarshal. unfold Semantic.handleSemanticAction.
    rewrite Hparse, Htype. reflexivity. }
  split; [exact Htype|]. split; [reflexivity|]. split; [exact Hrun|].
  rewrite Hrun. apply semantic_list_no_download.
Qed.

Lemma rest_get_runs_list_handler_witness :
  let lib := Sample.semanticLib (Ok Sample.bucket) in
  let action := Semantic.SemanticAction.mk "SearchAction" "" ∅ in
  Rest.getObjectREST Sample.marshal (Semantic.handleSemanticAction lib Sample.world)
    "results/output.xml" "" Sample.start
  = Semantic.executeListAction lib Sample.world action Sample.start.
Proof.
  apply (rest_get_runs_list_handler (Sample.semanticLib (Ok Sample.bucket)) Sample.world
           Sample.marshal "results/output.xml" "" Sample.start "SearchAction"
           (Semantic.SemanticAction.mk "SearchAction" "" ∅));
    (reflexivity || discriminate).
Defined.

(** ** C10: the default destination of a download *)

Lemma createdPaths_downloadCalls w cred object path :
  path ∈ createdPaths (Spec.downloadCalls w cred object) -> path = Spec.downloadPath object.
Proof.
  unfold Spec.downloadCalls, Spec.downloadEvents.
  destruct cred as [cred|]; [|by intros ?%elem_of_nil].
  case_decide; [by intros ?%elem_of_nil|].
  destruct (createS3Client _ _ _ _ _) as [client|]; [|by intros ?%elem_of_nil].
  destruct (s3_GetObject _ _ _); [|by intros ?%elem_of_nil].
  destruct (os_Create _ _); cbn; by intros ?%list_elem_of_singleton.
Qed.

Lemma downloadPath_default object :
  S3Object.ContentUrl object = "" ->
  Spec.downloadPath object
  = filepath.Join ["/tmp"; filepath.Base (Spec.objectKey object)].
Proof. unfold Spec.downloadPath. intros ->. reflexivity. Qed.



(** * Further properties of the handlers *)

(** ** [returnError], field by field *)

Lemma returnError_frame w a message s :
  Envelope.typed a = true ->
  exists a',
    Typed.returnError w a message s
      = (JSON StatusInternalServerError a', mkState (trace s) (S (ticks s)))
    /\ Envelope.typed a' = true
    /\ Envelope.status a' = FailedActionStatus
    /\ Envelope.error a' = Some (errorProperty message)
    /\ Fields.startTime a' = Fields.startTime a
    /\ Fields.endTime a' = time_Now w (ticks s)
    /\ Envelope.target a' = Envelope.target a
    /\ Fields.object a' = Fields.object a
    /\ Fields.parameter a' = Fields.parameter a
    /\ Fields.result a' = Fields.result a.
Proof.
  intros Ha. destruct a as [v|v|v|v|ty]; try discriminate Ha;
    (eexists; split; [reflexivity | repeat split]).
Qed.

(** Replace a [returnError] in evaluation position by what it returns,
    keeping what is known of every field. *)
Ltac fail_frame :=
  match goal with
  | |- context [Typed.returnError ?w ?a ?m ?s] =>
      let a' := fresh "a'" in
      let Hr := fresh "Hr" in
      let Hty := fresh "Htyped" in
      let Hs := fresh "Hstatus" in
      let He := fresh "Herror" in
      let Hst := fresh "Hstart" in
      let Hen := fresh "Hend" in
      let Ht := fresh "Htarget" in
      let Ho := fresh "Hobject" in
      let Hp := fresh "Hparameter" in
      let Hres := fresh "Hresult" in
      destruct (returnError_frame w a m s eq_refl)
        as (a' & Hr & Hty & Hs & He & Hst & Hen & Ht & Ho & Hp & Hres);
      rewrite Hr; clear Hr
  end.

Ltac framed_paths := run_typed; repeat (first [fail_frame | branch]; cbn).

(** ** The clock readings of a run *)



(** ** What a handler leaves as it found it *)


(** Rewrite the goal with the answers recorded along the path. *)
Ltac answers :=
  repeat match goal with
         | Heq : ?x = _ |- context [?x] => rewrite Heq
         end.

(** Split a [Forall] over an explicit list into its members. *)
Ltac forall_members H :=
  repeat match type of H with
         | Forall _ (_ :: _) =>
             let Hhd := fresh "Hhd" in
             apply Forall_cons in H as [Hhd H]
         end.

(** [createS3Client] builds the client exactly when the SDK configuration
    loads. *)
Lemma createS3Client_Ok w endpoint region accessKey secretKey client :
  createS3Client w endpoint region accessKey secretKey = Ok client ->
  config_LoadDefaultConfig w region accessKey secretKey = None
  /\ client = mkS3Client endpoint region accessKey secretKey true.
Proof.
  unfold createS3Client. destruct (config_LoadDefaultConfig _ _ _ _); [discriminate|].
  intros [= <-]. split; reflexivity.
Qed.

Lemma createS3Client_Err w endpoint region accessKey secretKey e :
  createS3Client w endpoint region accessKey secretKey = Err e ->
  exists err,
    config_LoadDefaultConfig w region accessKey secretKey = Some err
    /\ e = "failed to load AWS config: " +:+ err.
Proof.
  unfold createS3Client. destruct (config_LoadDefaultConfig _ _ _ _) as [err|]; [|discriminate].
  intros [= <-]. eauto.
Qed.

(** ** Entries of a page that cannot be read *)

#[global] Arguments Sdk.listedObject : simpl never.

Ltac run_sdk :=
  unfold Sdk.handleSemanticAction, Sdk.dispatch, Sdk.executeListAction, Sdk.returned,
    Sdk.ListObjectsV2;
  run_typed.

(** An entry can be listed exactly when its three pointers are set. *)
Lemma listedObject_full bucketName obj :
  is_Some (Sdk.listedObject bucketName obj) <-> Page.full obj = true.
Proof.
  unfold Sdk.listedObject, Page.full.
  destruct obj as [[key|] [size|] [lastModified|]]; cbn; split;
    first [ by eauto | by intros [? [=]] | discriminate ].
Qed.

Lemma listedObjects_Some bucketName contents objects :
  mapM (Sdk.listedObject bucketName) contents = Some objects ->
  forallb Page.full contents = true.
Proof.
  revert objects. induction contents as [|obj contents IH]; intros objects; [reflexivity|].
  cbn. destruct (Sdk.listedObject bucketName obj) as [o|] eqn:Hobj; [|discriminate].
  cbn. destruct (mapM _ contents) as [l|]; [|discriminate]. intros _.
  rewrite (IH l eq_refl), andb_true_r. apply (listedObject_full bucketName). by rewrite Hobj.
Qed.

Lemma listedObjects_None bucketName contents :
  mapM (Sdk.listedObject bucketName) contents = None ->
  forallb Page.full contents = false.
Proof.
  induction contents as [|obj contents IH]; [discriminate|].
  cbn. destruct (Sdk.listedObject bucketName obj) as [o|] eqn:Hobj; cbn.
  - destruct (mapM _ contents) as [l|]; [discriminate|]. intros _.
    rewrite IH by reflexivity. apply andb_false_r.
  - intros _. apply andb_false_iff. left. apply not_true_is_false.
    intros Hfull. apply (listedObject_full bucketName) in Hfull.
    rewrite Hobj in Hfull. by destruct Hfull.
Qed.

(** Rewrite the goal with what building the result list tells about the
    page. *)
Ltac page_checks :=
  repeat match goal with
         | H : mapM (Sdk.listedObject _) _ = Some _ |- _ =>
             rewrite (listedObjects_Some _ _ _ H); clear H
         | H : mapM (Sdk.listedObject _) _ = None |- _ =>
             rewrite (listedObjects_None _ _ H); clear H
         end.

(** On a store that sets the three fields of every entry, the run is the
    one of [Typed.dispatch]. *)
Lemma listedObjects_entries bucketName contents :
  mapM (Sdk.listedObject bucketName) (map Page.entry contents)
  = Some (map (Typed.listedObject bucketName) contents).
Proof.
  induction contents as [|obj contents IH]; [reflexivity|].
  cbn. rewrite IH. reflexivity.
Qed.

Lemma lift_dispatch lib w a s :
  Sdk.dispatch lib (Sdk.lift w) a s
  = (Returned (fst (Typed.dispatch lib w a s)), snd (Typed.dispatch lib w a s)).
Proof.
  destruct a as [v|v|v|v|ty]; try reflexivity.
  1-3: unfold Sdk.dispatch, Sdk.returned, Typed.dispatch; cbn [Sdk.lift others];
    unfold mbind, M_bind, mret, M_ret;
    first [ destruct (Typed.executeUploadAction lib w v s)
          | destruct (Typed.executeDownloadAction lib w v s)
          | destruct (Typed.executeDeleteAction lib w v s) ]; reflexivity.
  run_sdk. repeat (first [fail_frame | branch]; cbn); try reflexivity.
  all: rewrite listedObjects_entries in *; congruence.
Qed.

(** ** How the typed entry point ends *)

(** X3.  The typed entry point ends in one of four ways.  It answers 400,
    with the state untouched, exactly when the body cannot be read, cannot
    be parsed, or parses to none of the four typed actions.  Otherwise it
    answers 200 with a Completed envelope, or 500 with a Failed envelope
    that carries an error message, or it panics on a nil dereference and
    answers nothing.  It panics exactly when the one [ListObjectsV2] call
    of a listing was answered with a page on which some entry lacks its
    key, its size or its modification time; that call is then all the run
    has done. *)
Theorem http_status_tracks_envelope lib w body s :
  ((exists message,
       Sdk.handleSemanticAction lib w body s
       = (Returned (HTTPError StatusBadRequest message), s))
   /\ forall b a, body = Ok b -> Typed.ParseS3Action lib b = Ok a -> Envelope.typed a = false)
  \/ (exists b a,
        body = Ok b /\ Typed.ParseS3Action lib b = Ok a /\ Envelope.typed a = true
        /\ ((exists a',
                fst (Sdk.handleSemanticAction lib w body s) = Returned (JSON StatusOK a')
                /\ Envelope.status a' = CompletedActionStatus
                /\ existsb (Sdk.answeredIncomplete w)
                     (appended s (snd (Sdk.handleSemanticAction lib w body s))) = false)
            \/ (exists a' message,
                   fst (Sdk.handleSemanticAction lib w body s)
                   = Returned (JSON StatusInternalServerError a')
                   /\ Envelope.status a' = FailedActionStatus
                   /\ Envelope.error a' = Some (errorProperty message)
                   /\ existsb (Sdk.answeredIncomplete w)
                        (appended s (snd (Sdk.handleSemanticAction lib w body s))) = false)
            \/ (fst (Sdk.handleSemanticAction lib w body s) = Panicked nilDereference
                /\ (exists v, a = Typed.AList v)
                /\ exists client input,
                     appended s (snd (Sdk.handleSemanticAction lib w body s))
                     = [EvListObjectsV2 client input]
                     /\ Sdk.answeredIncomplete w (EvListObjectsV2 client input) = true))).
Proof.
  destruct body as [b|e]; cbn.
  2: { left. split; [eauto|]. intros ? ? [=]. }
  destruct (Typed.ParseS3Action lib b) as [a|e] eqn:Hparse; cbn.
  2: { left. split; [eauto|]. intros ? ? [= <-]. rewrite Hparse. intros [=]. }
  destruct a as [v|v|v|v|ty].
  5: { left. split; [eauto|]. intros ? ? [= <-]. rewrite Hparse. by intros [= <-]. }
  all: right; eexists b, _.
  all: split; [reflexivity|]; split; [exact Hparse|]; split; [reflexivity|].
  all: run_sdk; repeat (first [fail_frame | branch]; cbn); appended_simpl; cbn.
  all: first
         [ left; eexists; split; [reflexivity|]; split; [reflexivity|]
         | right; left; eexists _, _; split; [reflexivity|]; split; [assumption|];
           split; [eassumption|]
         | right; right; split; [reflexivity|]; split; [eauto|];
           eexists _, _; split; [reflexivity|] ].
  all: answers; page_checks; reflexivity.
Qed.

(** ** When a request succeeds *)

(** X4.  A typed handler answers 200 exactly when every step went through:
    the credentials resolve, the request carries what the handler asks for
    (an object with a local path for an upload, an object with an
    identifier or a name for a download or a delete), the SDK configuration
    loads where a client is built, none of the calls the run made was
    answered with an error, and the page a listing was answered with sets
    key, size and modification time on every entry.  A failing [os.Stat]
    after an upload does not count against it. *)
Theorem success_needs_every_step lib w a s :
  Envelope.typed a = true ->
  (exists a', fst (Sdk.dispatch lib w a s) = Returned (JSON StatusOK a'))
  <-> (exists cred,
         Typed.ExtractS3Credentials lib (Envelope.target a) = Ok cred
         /\ (Request.needsClient a = true ->
             config_LoadDefaultConfig (others w) (cred_region cred) (cred_accessKey cred)
               (cred_secretKey cred) = None))
      /\ Request.wellFormed a = true
      /\ Forall (fun e => Sdk.answeredWithError w e = false)
           (appended s (snd (Sdk.dispatch lib w a s)))
      /\ Forall (fun e => Sdk.answeredIncomplete w e = false)
           (appended s (snd (Sdk.dispatch lib w a s))).
Proof.
  intros Ht.
  destruct a as [v|v|v|v|?]; try discriminate.
  all: cbn [Envelope.target Request.wellFormed Request.needsClient].
  all: run_sdk; repeat (first [fail_frame | branch]; cbn); appended_simpl.
  all: split.
  all: try (intros [a'' Hrun]; discriminate Hrun).
  all: try (intros _; eexists; reflexivity).
  all: try (intros _;
            split; [eexists; split;
                      [reflexivity
                      | first [done | intros _; eapply createS3Client_Ok; eassumption]]|];
            split; [try reflexivity; apply bool_decide_eq_true_2; assumption|];
            split; repeat (apply Forall_cons; split); try apply Forall_nil;
            cbn; answers; page_checks; reflexivity).
  all: intros ((cred & Hcred & Hconfig) & Hwf & Hcalls & Hfull); exfalso.
  all: try discriminate Hcred.
  all: try discriminate Hwf.
  all: try (apply bool_decide_eq_true_1 in Hwf; contradiction).
  all: try (injection Hcred as <-; specialize (Hconfig eq_refl);
            match goal with
            | H : createS3Client _ _ _ _ _ = Err _ |- _ =>
                apply createS3Client_Err in H as (? & H & _); congruence
            end).
  all: forall_members Hcalls; forall_members Hfull; cbn in *.
  all: repeat match goal with
              | Heq : ?x = _, H : ?lhs = false |- _ =>
                  lazymatch lhs with context [x] => rewrite Heq in H end
              end.
  all: try discriminate.
  match goal with
  | H : mapM _ _ = None |- _ => rewrite (listedObjects_None _ _ H) in *
  end.
  discriminate.
Qed.

Lemma success_needs_every_step_witness :
  let a := Typed.AList (Sample.listing (Some Sample.bucket) "data/") in
  ((exists a', fst (Sdk.dispatch Sample.lib Sdk.holed a Sample.start)
               = Returned (JSON StatusOK a'))
   <-> (exists cred,
          Spec.ExtractS3Credentials (Some Sample.bucket) = Ok cred
          /\ (true = true ->
              config_LoadDefaultConfig Sample.world (cred_region cred)
                (cred_accessKey cred) (cred_secretKey cred) = None))
       /\ true = true
       /\ Forall (fun e => Sdk.answeredWithError Sdk.holed e = false)
            (appended Sample.start (snd (Sdk.dispatch Sample.lib Sdk.holed a Sample.start)))
       /\ Forall (fun e => Sdk.answeredIncomplete Sdk.holed e = false)
            (appended Sample.start (snd (Sdk.dispatch Sample.lib Sdk.holed a Sample.start))))
  /\ fst (Sdk.dispatch Sample.lib Sdk.holed a Sample.start) = Panicked nilDereference
  /\ (exists a', fst (Sdk.dispatch Sample.lib (Sdk.lift Sample.world) a Sample.start)
                 = Returned (JSON StatusOK a')).
Proof.
  split; [|split; [reflexivity | eexists; reflexivity]].
  apply (success_needs_every_step Sample.lib Sdk.holed
           (Typed.AList (Sample.listing (Some Sample.bucket) "data/")) Sample.start).
  reflexivity.
Defined.

Ltac run_registry :=
  unfold Registry.runHandler, Registry.executeUploadAction, Registry.executeDownloadAction,
    Registry.executeDeleteAction, Registry.executeListAction,
    Registry.runImpl, Registry.executeUploadActionImpl, Registry.executeDownloadActionImpl,
    Registry.executeDeleteActionImpl, Registry.executeListActionImpl;
  unfold_effects; cbn.

Ltac registry_paths := run_registry; repeat (branch; cbn).

(** ** The calls of a run *)

Lemma orDefault_Base_nonempty s path : orDefault s (filepath.Base path) <> "".
Proof.
  unfold orDefault. case_decide; [apply Base_nonempty | assumption].
Qed.

Lemma nonEmpty_not_empty query : nonEmpty query <> Some "".
Proof. unfold nonEmpty. case_decide; congruence. Qed.

Lemma queryPrefix_not_empty action : Semantic.queryPrefix action <> Some "".
Proof.
  unfold Semantic.queryPrefix.
  destruct (_ !! _) as [[]|]; try discriminate. apply nonEmpty_not_empty.
Qed.

Lemma registry_queryPrefix_not_empty action : Registry.queryPrefix action <> Some "".
Proof.
  unfold Registry.queryPrefix.
  destruct (_ !! _) as [[]|]; try discriminate. apply nonEmpty_not_empty.
Qed.

#[global] Arguments Registry.queryPrefix : simpl never.
#[global] Arguments appended : simpl never.

(** Close a goal [Call.named e = true] on an event of a path. *)
Ltac named_call :=
  cbn;
  first
    [ reflexivity
    | apply bool_decide_eq_true_2; first [assumption | apply orDefault_Base_nonempty]
    | apply andb_true_intro; split;
      [ apply bool_decide_eq_true_2;
        first [ apply nonEmpty_not_empty | apply queryPrefix_not_empty
              | apply registry_queryPrefix_not_empty ]
      | reflexivity ] ].

Ltac each_call tac :=
  repeat first [apply Forall_nil_2 | apply Forall_cons_2]; tac.

(** X5.  No handler of any variant ever asks the store for an object
    under an empty key: every upload, get and delete call carries a
    non-empty key (the last fallback of an upload, the base name of the
    local path, is never empty), and every listing carries either no prefix
    or a non-empty one, and no continuation token. *)
Theorem store_calls_name_what_they_ask_for :
  (forall lib w a s,
      Forall (fun e => Call.named e = true) (appended s (snd (Typed.dispatch lib w a s))))
  /\ (forall lib w h action s,
        Forall (fun e => Call.named e = true)
          (appended s (snd (Semantic.runHandler lib w h action s))))
  /\ (forall lib w h action s,
        Forall (fun e => Call.named e = true)
          (appended s (snd (Registry.runImpl lib w h action s)))).
Proof.
  split; [|split].
  - intros lib w a s. destruct a as [v|v|v|v|?].
    5: { cbn. appended_simpl. constructor. }
    all: framed_paths; appended_simpl; each_call named_call.
  - intros lib w h action s.
    destruct h; semantic_paths; appended_simpl; each_call named_call.
  - intros lib w h action s.
    destruct h; registry_paths; appended_simpl; each_call named_call.
Qed.

(** Close a goal [Call.uses cred e = true] on an event of a path. *)
Ltac uses_call :=
  cbn; unfold Call.clientFor;
  repeat match goal with
         | H : createS3Client _ _ _ _ _ = Ok _ |- _ =>
             apply createS3Client_Ok in H as [_ ->]
         end;
  cbn; rewrite ?bool_decide_eq_true_2 by reflexivity; reflexivity.

(** X6.  Every call a handler makes is made with what the credential
    resolver answered for the request's own target: the upload call gets
    its endpoint, access key, secret key and bucket name, and every client
    call goes through a path-style client on its endpoint, region and keys,
    on its bucket.  A run whose credentials do not resolve makes no call. *)
Theorem calls_use_the_resolved_credentials :
  (forall lib w a s,
      Forall (fun e =>
                Call.authorized (Typed.ExtractS3Credentials lib (Envelope.target a)) e = true)
        (appended s (snd (Typed.dispatch lib w a s))))
  /\ (forall lib w h action s,
        Forall (fun e =>
                  Call.authorized
                    (Call.resolve (Semantic.GetS3BucketFromAction lib action)
                       (Semantic.ExtractS3Credentials lib)) e = true)
          (appended s (snd (Semantic.runHandler lib w h action s))))
  /\ (forall lib w h action s,
        Forall (fun e =>
                  Call.authorized
                    (Call.resolve (Registry.GetS3BucketFromAction lib action)
                       (Registry.ExtractS3Credentials lib)) e = true)
          (appended s (snd (Registry.runImpl lib w h action s)))).
Proof.
  split; [|split].
  - intros lib w a s. destruct a as [v|v|v|v|?].
    5: { cbn. appended_simpl. constructor. }
    all: cbn [Envelope.target].
    all: framed_paths; appended_simpl; each_call uses_call.
  - intros lib w h action s. unfold Call.resolve.
    destruct h; semantic_paths; appended_simpl; each_call uses_call.
  - intros lib w h action s. unfold Call.resolve.
    destruct h; registry_paths; appended_simpl; each_call uses_call.
Qed.

Lemma store_calls_cons e l :
  store_calls (e :: l) = if is_store_call e then e :: store_calls l else store_calls l.
Proof.
  unfold store_calls. rewrite filter_cons. destruct (is_store_call e); reflexivity.
Qed.

Lemma store_calls_nil : store_calls [] = [].
Proof. reflexivity. Qed.

(** Compute the store calls of an explicit list of events. *)
Ltac store_calls_simpl :=
  rewrite ?store_calls_cons, ?store_calls_nil; cbn [is_store_call length take].

(** X7.  A run makes at most one call to the store, and it is its first
    call; whatever follows is local ([os.Stat] after an upload, creating
    and writing the file after a download).  Each handler makes calls of
    its own kind only: a delete or a listing never touches the local file
    system, an upload never creates a file, and a value the type switch
    does not know makes no call at all. *)
Theorem one_store_call_of_the_handlers_own :
  (forall lib w a s,
      let calls := appended s (snd (Typed.dispatch lib w a s)) in
      match Call.handler a with
      | Some h =>
          length (store_calls calls) <= 1
          /\ Forall (fun e => Call.allowed h e = true) calls
          /\ store_calls calls = take 1 calls
      | None => calls = []
      end)
  /\ (forall lib w h action s,
        let calls := appended s (snd (Semantic.runHandler lib w h action s)) in
        length (store_calls calls) <= 1
        /\ Forall (fun e => Call.allowed h e = true) calls
        /\ store_calls calls = take 1 calls)
  /\ (forall lib w h action s,
        let calls := appended s (snd (Registry.runImpl lib w h action s)) in
        length (store_calls calls) <= 1
        /\ Forall (fun e => Call.allowed h e = true) calls
        /\ store_calls calls = take 1 calls).
Proof.
  split; [|split].
  - intros lib w a s. destruct a as [v|v|v|v|?].
    5: { cbn. appended_simpl. reflexivity. }
    all: cbn [Call.handler]; cbv zeta.
    all: framed_paths; appended_simpl; store_calls_simpl.
    all: split; [lia|]; split; [each_call ltac:(reflexivity) | reflexivity].
  - intros lib w h action s. cbv zeta.
    destruct h; semantic_paths; appended_simpl; store_calls_simpl.
    all: split; [lia|]; split; [each_call ltac:(reflexivity) | reflexivity].
  - intros lib w h action s. cbv zeta.
    destruct h; registry_paths; appended_simpl; store_calls_simpl.
    all: split; [lia|]; split; [each_call ltac:(reflexivity) | reflexivity].
Qed.

(** ** An upload without an object or without a local path *)

(** X8.  An upload that carries no object, or an object without a local
    content path, fails without making any call.  The typed handler
    reports the credential failure first if there is one, then "Object is
    required", then "Object contentUrl (file path) is required"; the
    [SemanticAction] handlers report the missing path through the
    library's [ReturnActionError] and leave the state as it was. *)
Theorem upload_needs_object_and_path :
  (forall lib w action s,
      match S3UploadAction.Object action with
      | Some object => S3Object.ContentUrl object = ""
      | None => True
      end ->
      exists a',
        fst (Typed.executeUploadAction lib w action s) = JSON StatusInternalServerError a'
        /\ Envelope.status a' = FailedActionStatus
        /\ Envelope.error a'
           = Some (errorProperty
                     match Typed.ExtractS3Credentials lib (S3UploadAction.Target action) with
                     | Err e => "Failed to extract S3 credentials: " +:+ e
                     | Ok _ =>
                         match S3UploadAction.Object action with
                         | None => "Object is required"
                         | Some _ => "Object contentUrl (file path) is required"
                         end
                     end)
        /\ appended s (snd (Typed.executeUploadAction lib w action s)) = [])
  /\ (forall lib w action s bucket object cred,
        Semantic.GetS3BucketFromAction lib action = Ok bucket ->
        Semantic.GetS3ObjectFromAction lib action = Ok object ->
        Semantic.ExtractS3Credentials lib (Some bucket) = Ok cred ->
        S3Object.ContentUrl object = "" ->
        Semantic.executeUploadAction lib w action s
        = (Semantic.ReturnActionError lib action
             "Object contentUrl (file path) is required" None, s))
  /\ (forall lib w action s bucket object cred,
        Registry.GetS3BucketFromAction lib action = Ok bucket ->
        Registry.GetS3ObjectFromAction lib action = Ok object ->
        Registry.ExtractS3Credentials lib (Some bucket) = Ok cred ->
        S3Object.ContentUrl object = "" ->
        Registry.executeUploadActionImpl lib w action s
        = (Registry.ReturnActionError lib action
             "Object contentUrl (file path) is required" None, s)).
Proof.
  split; [|split].
  - intros lib w action s Hobj.
    run_typed.
    destruct (Typed.ExtractS3Credentials lib _) as [cred|e]; cbn.
    + destruct (S3UploadAction.Object action) as [object|]; cbn.
      * destruct (decide (S3Object.ContentUrl object = "")) as [_|]; [|done].
        fail_frame. cbn. appended_simpl. eauto.
      * fail_frame. cbn. appended_simpl. eauto.
    + fail_frame. cbn. appended_simpl. eauto.
  - intros lib w action s bucket object cred Hbucket Hobj Hcred Hpath.
    run_semantic. rewrite Hbucket, Hobj, Hcred. cbn.
    destruct (decide (S3Object.ContentUrl object = "")) as [_|]; [reflexivity|done].
  - intros lib w action s bucket object cred Hbucket Hobj Hcred Hpath.
    run_registry. rewrite Hbucket, Hobj, Hcred. cbn.
    destruct (decide (S3Object.ContentUrl object = "")) as [_|]; [reflexivity|done].
Qed.

Lemma upload_needs_object_and_path_witness :
  let action := Sample.upload (Some Sample.bucket) "data/input.json" "" "" in
  exists a',
    fst (Typed.executeUploadAction Sample.lib Sample.world action Sample.start)
    = JSON StatusInternalServerError a'
    /\ Envelope.status a' = FailedActionStatus
    /\ Envelope.error a'
       = Some (errorProperty "Object contentUrl (file path) is required")
    /\ appended Sample.start
         (snd (Typed.executeUploadAction Sample.lib Sample.world action Sample.start)) = [].
Proof.
  apply (proj1 upload_needs_object_and_path Sample.lib Sample.world
           (Sample.upload (Some Sample.bucket) "data/input.json" "" "") Sample.start).
  reflexivity.
Defined.

(** ** The calls of an upload *)

(** What an upload of [object] does once the credentials have resolved:
    one [HetznerUploadFile] of the local file under the resolved key, and
    [os.Stat] on that file if the store accepted it. *)
Lemma upload_calls_typed lib w action s object :
  S3UploadAction.Object action = Some object ->
  S3Object.ContentUrl object <> "" ->
  appended s (snd (Typed.executeUploadAction lib w action s))
  = match Typed.ExtractS3Credentials lib (S3UploadAction.Target action) with
    | Err _ => []
    | Ok cred =>
        let filePath := S3Object.ContentUrl object in
        let s3Key :=
          Spec.targetFirst (S3UploadAction.TargetUrl action) (S3Object.Identifier object)
            filePath in
        EvHetznerUploadFile (cred_url cred) (cred_accessKey cred) (cred_secretKey cred)
          (cred_bucketName cred) filePath s3Key
        :: match storage_HetznerUploadFile w (cred_url cred) (cred_accessKey cred)
                   (cred_secretKey cred) (cred_bucketName cred) filePath s3Key with
           | Some _ => []
           | None => [EvStat filePath]
           end
    end.
Proof.
  intros Hobj Hpath. run_typed. rewrite Hobj.
  destruct (Typed.ExtractS3Credentials lib _) as [cred|e]; cbn.
  - destruct (decide (S3Object.ContentUrl object = "")) as [|_]; [done|].
    rewrite orDefault_targetFirst.
    repeat (first [fail_frame | branch]; cbn); appended_simpl; reflexivity.
  - fail_frame. cbn. appended_simpl. reflexivity.
Qed.

(** X9.  An upload with a local content path makes no call when the
    credentials do not resolve; otherwise it makes one [HetznerUploadFile]
    call, of that path under the resolved key with the resolved endpoint,
    keys and bucket, and calls [os.Stat] on the same path afterwards only
    if the store accepted the upload. *)
Theorem upload_stats_after_store_accepts :
  (forall lib w action s object,
      S3UploadAction.Object action = Some object ->
      S3Object.ContentUrl object <> "" ->
      appended s (snd (Typed.executeUploadAction lib w action s))
      = match Typed.ExtractS3Credentials lib (S3UploadAction.Target action) with
        | Err _ => []
        | Ok cred =>
            let filePath := S3Object.ContentUrl object in
            let s3Key :=
              Spec.targetFirst (S3UploadAction.TargetUrl action)
                (S3Object.Identifier object) filePath in
            EvHetznerUploadFile (cred_url cred) (cred_accessKey cred) (cred_secretKey cred)
              (cred_bucketName cred) filePath s3Key
            :: match storage_HetznerUploadFile w (cred_url cred) (cred_accessKey cred)
                       (cred_secretKey cred) (cred_bucketName cred) filePath s3Key with
               | Some _ => []
               | None => [EvStat filePath]
               end
        end)
  /\ (forall lib w action s bucket object,
        Semantic.GetS3BucketFromAction lib action = Ok bucket ->
        Semantic.GetS3ObjectFromAction lib action = Ok object ->
        S3Object.ContentUrl object <> "" ->
        appended s (snd (Semantic.executeUploadAction lib w action s))
        = match Semantic.ExtractS3Credentials lib (Some bucket) with
          | Err _ => []
          | Ok cred =>
              let filePath := S3Object.ContentUrl object in
              let s3Key :=
                Spec.targetFirst (Semantic.GetS3TargetUrlFromAction lib action)
                  (S3Object.Identifier object) filePath in
              EvHetznerUploadFile (cred_url cred) (cred_accessKey cred)
                (cred_secretKey cred) (cred_bucketName cred) filePath s3Key
              :: match storage_HetznerUploadFile w (cred_url cred) (cred_accessKey cred)
                         (cred_secretKey cred) (cred_bucketName cred) filePath s3Key with
                 | Some _ => []
                 | None => [EvStat filePath]
                 end
          end).
Proof.
  split.
  - exact upload_calls_typed.
  - intros lib w action s bucket object Hbucket Hobj Hpath.
    run_semantic. rewrite Hbucket, Hobj.
    destruct (Semantic.ExtractS3Credentials lib _) as [cred|e]; cbn.
    + destruct (decide (S3Object.ContentUrl object = "")) as [|_]; [done|].
      rewrite orDefault_targetFirst.
      repeat (branch; cbn); appended_simpl; reflexivity.
    + appended_simpl. reflexivity.
Qed.

Lemma upload_stats_after_store_accepts_witness :
  let action := Sample.upload (Some Sample.bucket) "" "/tmp/input.json" "" in
  appended Sample.start
    (snd (Typed.executeUploadAction Sample.lib Sample.world action Sample.start))
  = [EvHetznerUploadFile "https://fsn1.your-objectstorage.com" "access" "secret"
       "my-bucket" "/tmp/input.json" "input.json";
     EvStat "/tmp/input.json"]
  /\ appended Sample.start
       (snd (Typed.executeUploadAction Sample.lib Sample.brokenStore action Sample.start))
     = [EvHetznerUploadFile "https://fsn1.your-objectstorage.com" "access" "secret"
          "my-bucket" "/tmp/input.json" "input.json"].
Proof.
  split.
  - apply (proj1 upload_stats_after_store_accepts Sample.lib Sample.world
             (Sample.upload (Some Sample.bucket) "" "/tmp/input.json" "") Sample.start
             (Sample.object "" "" "/tmp/input.json")); [reflexivity | discriminate].
  - apply (proj1 upload_stats_after_store_accepts Sample.lib Sample.brokenStore
             (Sample.upload (Some Sample.bucket) "" "/tmp/input.json" "") Sample.start
             (Sample.object "" "" "/tmp/input.json")); [reflexivity | discriminate].
Defined.

(** ** What a completed upload reports *)

(** X10.  When an upload is answered with 200, the request carried an
    object and its credentials resolved, exactly one upload call was made,
    and the result describes that call: its identifier is the key the file
    was stored under, its content URL is s3://bucket/key, its name the base
    name of the local path, its size what [os.Stat] reported and its
    upload date the clock reading taken then.  When [os.Stat] fails the
    result is left as the request carried it. *)
Theorem upload_result_describes_stored_object lib w action s a' :
  fst (Typed.executeUploadAction lib w action s) = JSON StatusOK a' ->
  exists object cred v,
    a' = Typed.AUpload v
    /\ S3UploadAction.Object action = Some object
    /\ Typed.ExtractS3Credentials lib (S3UploadAction.Target action) = Ok cred
    /\ let filePath := S3Object.ContentUrl object in
       let s3Key :=
         Spec.targetFirst (S3UploadAction.TargetUrl action) (S3Object.Identifier object)
           filePath in
       uploadedKeys (appended s (snd (Typed.executeUploadAction lib w action s))) = [s3Key]
       /\ S3UploadAction.Result v
          = match os_Stat w filePath with
            | Ok size =>
                Some (S3Object.mk "MediaObject" s3Key (filepath.Base filePath)
                        (s3Url (cred_bucketName cred) s3Key) size
                        (S3Object.EncodingFormat object) (time_Now w (S (ticks s))))
            | Err _ => S3UploadAction.Result action
            end.
Proof.
  run_typed.
  destruct (Typed.ExtractS3Credentials lib _) as [cred|e] eqn:Hcred; cbn.
  2: { fail_frame. cbn. intros [=]. }
  destruct (S3UploadAction.Object action) as [object|] eqn:Hobj; cbn.
  2: { fail_frame. cbn. intros [=]. }
  destruct (decide (S3Object.ContentUrl object = "")) as [|Hpath]; cbn.
  1: { fail_frame. cbn. intros [=]. }
  rewrite orDefault_targetFirst.
  destruct (storage_HetznerUploadFile _ _ _ _ _ _ _) as [err|] eqn:Hup; cbn.
  1: { fail_frame. cbn. intros [=]. }
  destruct (os_Stat w _) as [size|err] eqn:Hstat; cbn.
  all: intros [= <-]; eexists object, cred, _.
  all: split; [reflexivity|]; split; [reflexivity|]; split; [reflexivity|].
  all: cbv zeta; appended_simpl; rewrite Hstat; split; reflexivity.
Qed.

Lemma upload_result_describes_stored_object_witness :
  let action := Sample.upload (Some Sample.bucket) "data/input.json" "/tmp/input.json" "" in
  exists v,
    fst (Typed.executeUploadAction Sample.lib Sample.world action Sample.start)
    = JSON StatusOK (Typed.AUpload v)
    /\ S3UploadAction.Result v
       = Some (S3Object.mk "MediaObject" "data/input.json" "input.json"
                 "s3://my-bucket/data/input.json" 42 "application/json"
                 "2025-11-08T12:00:00Z").
Proof.
  cbv zeta.
  destruct (upload_result_describes_stored_object Sample.lib Sample.world
              (Sample.upload (Some Sample.bucket) "data/input.json" "/tmp/input.json" "")
              Sample.start _ eq_refl)
    as (object & cred & v & Ha' & Hobj & Hcred & Hkeys & Hresult).
  injection Ha' as <-. injection Hobj as <-. injection Hcred as <-.
  eexists. split; [reflexivity|]. exact Hresult.
Defined.

(** ** The call of a delete *)

(** X11.  A delete resolves its key like a download (identifier, else
    name).  It makes no call unless the credentials resolve, the key is
    non-empty and the client is built, and then makes exactly one
    [DeleteObject] call, for that key in the resolved bucket; with neither
    identifier nor name it fails, once the credentials have resolved, with
    "Object identifier (S3 key) is required".  The typed handler and the
    [SemanticAction] handler make the same call. *)
Theorem delete_is_one_call_for_the_resolved_key :
  (forall lib w action s object,
      S3DeleteAction.Object action = Some object ->
      appended s (snd (Typed.executeDeleteAction lib w action s))
      = match Typed.ExtractS3Credentials lib (S3DeleteAction.Target action) with
        | Err _ => []
        | Ok cred =>
            if decide (Spec.objectKey object = "") then []
            else
              match createS3Client w (cred_url cred) (cred_region cred)
                      (cred_accessKey cred) (cred_secretKey cred) with
              | Err _ => []
              | Ok client =>
                  [EvDeleteObject client
                     (DeleteObjectInput.mk (cred_bucketName cred) (Spec.objectKey object))]
              end
        end)
  /\ (forall lib w action s object cred,
        S3DeleteAction.Object action = Some object ->
        Typed.ExtractS3Credentials lib (S3DeleteAction.Target action) = Ok cred ->
        S3Object.Identifier object = "" -> S3Object.Name object = "" ->
        exists a',
          fst (Typed.executeDeleteAction lib w action s) = JSON StatusInternalServerError a'
          /\ Envelope.status a' = FailedActionStatus
          /\ Envelope.error a'
             = Some (errorProperty "Object identifier (S3 key) is required"))
  /\ (forall lib w action s bucket object,
        Semantic.GetS3BucketFromAction lib action = Ok bucket ->
        Semantic.GetS3ObjectFromAction lib action = Ok object ->
        appended s (snd (Semantic.executeDeleteAction lib w action s))
        = match Semantic.ExtractS3Credentials lib (Some bucket) with
          | Err _ => []
          | Ok cred =>
              if decide (Spec.objectKey object = "") then []
              else
                match createS3Client w (cred_url cred) (cred_region cred)
                        (cred_accessKey cred) (cred_secretKey cred) with
                | Err _ => []
                | Ok client =>
                    [EvDeleteObject client
                       (DeleteObjectInput.mk (cred_bucketName cred) (Spec.objectKey object))]
                end
          end).
Proof.
  split; [|split].
  - intros lib w action s object Hobj. run_typed. rewrite Hobj, !orDefault_objectKey.
    repeat (first [fail_frame | branch]; cbn); appended_simpl; reflexivity.
  - intros lib w action s object cred Hobj Hcred Hid Hname.
    assert (Hkey : Spec.objectKey object = "") by (by apply objectKey_empty).
    run_typed. rewrite Hobj, Hcred, orDefault_objectKey. cbn.
    destruct (decide (Spec.objectKey object = "")) as [_|]; [|done].
    fail_frame. cbn. eauto.
  - intros lib w action s bucket object Hbucket Hobj.
    run_semantic. rewrite Hbucket, Hobj, !orDefault_objectKey.
    repeat (branch; cbn); appended_simpl; reflexivity.
Qed.

Lemma delete_is_one_call_for_the_resolved_key_witness :
  let action := Sample.delete (Some Sample.bucket) "temp/processing.tmp" in
  let client :=
    mkS3Client "https://fsn1.your-objectstorage.com" "fsn1" "access" "secret" true in
  appended Sample.start
    (snd (Typed.executeDeleteAction Sample.lib Sample.world action Sample.start))
  = [EvDeleteObject client (DeleteObjectInput.mk "my-bucket" "temp/processing.tmp")].
Proof.
  apply (proj1 delete_is_one_call_for_the_resolved_key Sample.lib Sample.world
           (Sample.delete (Some Sample.bucket) "temp/processing.tmp") Sample.start
           (Sample.object "temp/processing.tmp" "" "") eq_refl).
Defined.

(** ** What a completed download reports *)

(** X12.  When a download is answered with 200, the run was: one
    [GetObject] for the resolved key, which the store answered; the local
    file created at the download path; the body copied into it.  The
    result reports exactly that: its content URL is the path that was
    created and written, its size the number of bytes [io.Copy] reported,
    its identifier the key and its name the key's base name. *)
Theorem download_result_matches_file lib w action s a' :
  fst (Typed.executeDownloadAction lib w action s) = JSON StatusOK a' ->
  exists object cred client body size,
    S3DownloadAction.Object action = Some object
    /\ Typed.ExtractS3Credentials lib (S3DownloadAction.Target action) = Ok cred
    /\ createS3Client w (cred_url cred) (cred_region cred) (cred_accessKey cred)
         (cred_secretKey cred) = Ok client
    /\ let s3Key := Spec.objectKey object in
       let downloadPath := Spec.downloadPath object in
       s3Key <> ""
       /\ s3_GetObject w client (GetObjectInput.mk (cred_bucketName cred) s3Key) = Ok body
       /\ os_Create w downloadPath = None
       /\ io_Copy w downloadPath body = Ok size
       /\ appended s (snd (Typed.executeDownloadAction lib w action s))
          = [EvGetObject client (GetObjectInput.mk (cred_bucketName cred) s3Key);
             EvCreate downloadPath; EvCopy downloadPath body]
       /\ Fields.result a'
          = Some (Fields.One
                    (S3Object.mk "MediaObject" s3Key (filepath.Base s3Key) downloadPath size
                       (S3Object.EncodingFormat object) "")).
Proof.
  run_typed. rewrite ?orDefault_objectKey.
  destruct (Typed.ExtractS3Credentials lib _) as [cred|e] eqn:Hcred; cbn.
  2: { fail_frame. cbn. intros [=]. }
  destruct (S3DownloadAction.Object action) as [object|] eqn:Hobj; cbn.
  2: { fail_frame. cbn. intros [=]. }
  rewrite !orDefault_objectKey, orDefault_downloadPath.
  destruct (decide (Spec.objectKey object = "")) as [|Hkey]; cbn.
  1: { fail_frame. cbn. intros [=]. }
  destruct (createS3Client _ _ _ _ _) as [client|e] eqn:Hclient; cbn.
  2: { fail_frame. cbn. intros [=]. }
  destruct (s3_GetObject _ _ _) as [body|e] eqn:Hget; cbn.
  2: { fail_frame. cbn. intros [=]. }
  destruct (os_Create _ _) as [e|] eqn:Hcreate; cbn.
  1: { fail_frame. cbn. intros [=]. }
  destruct (io_Copy _ _ _) as [size|e] eqn:Hcopy; cbn.
  2: { fail_frame. cbn. intros [=]. }
  intros [= <-]. exists object, cred, client, body, size.
  cbv zeta. appended_simpl. repeat split; try assumption; reflexivity.
Qed.

Lemma download_result_matches_file_witness :
  let action := Sample.download (Some Sample.bucket) "results/output.xml" "" "" in
  exists a',
    fst (Typed.executeDownloadAction Sample.lib Sample.world action Sample.start)
    = JSON StatusOK a'
    /\ Fields.result a'
       = Some (Fields.One
                 (S3Object.mk "MediaObject" "results/output.xml" "output.xml"
                    "/tmp/output.xml" 5 "application/json" "")).
Proof.
  cbv zeta.
  destruct (download_result_matches_file Sample.lib Sample.world
              (Sample.download (Some Sample.bucket) "results/output.xml" "" "")
              Sample.start _ eq_refl)
    as (object & cred & client & body & size & Hobj & Hcred & Hclient & _ & Hget & _ & Hcopy
        & _ & Hresult).
  injection Hobj as <-. injection Hcred as <-. injection Hclient as <-.
  injection Hget as <-. injection Hcopy as <-.
  eexists. split; [reflexivity|]. exact Hresult.
Defined.

(** ** A client that cannot be built *)

(** X13.  When the SDK configuration does not load, a download, delete or
    listing whose credentials resolved and whose request is well formed
    fails with "Failed to create S3 client: failed to load AWS config:
    ..." and makes no call. *)
Theorem unbuilt_client_fails_before_any_call lib w a s cred err :
  Request.needsClient a = true ->
  Request.wellFormed a = true ->
  Typed.ExtractS3Credentials lib (Envelope.target a) = Ok cred ->
  config_LoadDefaultConfig w (cred_region cred) (cred_accessKey cred) (cred_secretKey cred)
  = Some err ->
  exists a',
    fst (Typed.dispatch lib w a s) = JSON StatusInternalServerError a'
    /\ Envelope.status a' = FailedActionStatus
    /\ Envelope.error a'
       = Some (errorProperty
                 ("Failed to create S3 client: failed to load AWS config: " +:+ err))
    /\ appended s (snd (Typed.dispatch lib w a s)) = [].
Proof.
  intros Hneeds Hwf Hcred Hconfig.
  destruct a as [v|v|v|v|?]; try discriminate Hneeds.
  all: cbn [Envelope.target Request.wellFormed] in Hcred, Hwf.
  all: run_typed; unfold createS3Client; rewrite Hcred; cbn.
  1: destruct (S3DownloadAction.Object v) as [object|]; [|discriminate Hwf]; cbn.
  2: destruct (S3DeleteAction.Object v) as [object|]; [|discriminate Hwf]; cbn.
  1,2: apply bool_decide_eq_true_1 in Hwf.
  1,2: destruct (decide _) as [|_]; [done|].
  all: rewrite Hconfig; cbn.
  all: fail_frame; cbn; appended_simpl; eauto.
Qed.

Lemma unbuilt_client_fails_before_any_call_witness :
  let w :=
    mkWorld Sample.clock (fun _ _ _ _ _ _ => None) (fun _ => Ok 42%Z)
      (fun _ _ _ => Some "no such profile") (fun _ _ => Ok "hello") (fun _ => None)
      (fun _ body => Ok 5%Z) (fun _ _ => None) (fun _ _ => Ok Sample.page) in
  let a := Typed.AList (Sample.listing (Some Sample.bucket) "data/") in
  exists a',
    fst (Typed.dispatch Sample.lib w a Sample.start) = JSON StatusInternalServerError a'
    /\ Envelope.status a' = FailedActionStatus
    /\ Envelope.error a'
       = Some (errorProperty
                 ("Failed to create S3 client: failed to load AWS config: "
                  +:+ "no such profile"))
    /\ appended Sample.start (snd (Typed.dispatch Sample.lib w a Sample.start)) = [].
Proof.
  apply (unbuilt_client_fails_before_any_call Sample.lib _
           (Typed.AList (Sample.listing (Some Sample.bucket) "data/")) Sample.start
           (mkCredentials "https://fsn1.your-objectstorage.com" "fsn1" "access" "secret"
              "my-bucket") "no such profile");
    reflexivity.
Defined.

(** ** The order of the checks of the [SemanticAction] handlers *)

(** X14.  The [SemanticAction] handlers, in [cmd/semantic_api.go] and
    behind the registry alike, check the bucket first, then the object
    (but for a listing, which reads none), then the credentials: the
    first check that fails decides the message handed to
    [ReturnActionError], and the state is left as it was.  So a request
    with neither object nor usable credentials is reported as missing its
    object, where the typed handlers report the credentials. *)
Theorem semantic_checks_in_order :
  (forall lib w h action s err,
      Semantic.GetS3BucketFromAction lib action = Err err ->
      Semantic.runHandler lib w h action s
      = (Semantic.ReturnActionError lib action "Failed to extract S3 bucket" (Some err), s))
  /\ (forall lib w h action s bucket err,
        h <> Semantic.ListHandler ->
        Semantic.GetS3BucketFromAction lib action = Ok bucket ->
        Semantic.GetS3ObjectFromAction lib action = Err err ->
        Semantic.runHandler lib w h action s
        = (Semantic.ReturnActionError lib action "Failed to extract S3 object" (Some err), s))
  /\ (forall lib w h action s bucket err,
        Semantic.GetS3BucketFromAction lib action = Ok bucket ->
        (h = Semantic.ListHandler
         \/ exists object, Semantic.GetS3ObjectFromAction lib action = Ok object) ->
        Semantic.ExtractS3Credentials lib (Some bucket) = Err err ->
        Semantic.runHandler lib w h action s
        = (Semantic.ReturnActionError lib action "Failed to extract S3 credentials"
             (Some err), s))
  /\ (forall lib w h action s err,
        Registry.GetS3BucketFromAction lib action = Err err ->
        Registry.runImpl lib w h action s
        = (Registry.ReturnActionError lib action "Failed to extract S3 bucket" (Some err), s))
  /\ (forall lib w h action s bucket err,
        h <> Semantic.ListHandler ->
        Registry.GetS3BucketFromAction lib action = Ok bucket ->
        Registry.GetS3ObjectFromAction lib action = Err err ->
        Registry.runImpl lib w h action s
        = (Registry.ReturnActionError lib action "Failed to extract S3 object" (Some err), s))
  /\ (forall lib w h action s bucket err,
        Registry.GetS3BucketFromAction lib action = Ok bucket ->
        (h = Semantic.ListHandler
         \/ exists object, Registry.GetS3ObjectFromAction lib action = Ok object) ->
        Registry.ExtractS3Credentials lib (Some bucket) = Err err ->
        Registry.runImpl lib w h action s
        = (Registry.ReturnActionError lib action "Failed to extract S3 credentials"
             (Some err), s)).
Proof.
  repeat split.
  - intros lib w h action s err Hbucket.
    destruct h; run_semantic; rewrite Hbucket; reflexivity.
  - intros lib w h action s bucket err Hh Hbucket Hobj.
    destruct h; try contradiction; run_semantic; rewrite Hbucket, Hobj; reflexivity.
  - intros lib w h action s bucket err Hbucket Hobj Hcred.
    destruct h; run_semantic; rewrite Hbucket;
      try (destruct Hobj as [[=]|[object Hobj]]; rewrite Hobj); rewrite Hcred; reflexivity.
  - intros lib w h action s err Hbucket.
    destruct h; run_registry; rewrite Hbucket; reflexivity.
  - intros lib w h action s bucket err Hh Hbucket Hobj.
    destruct h; try contradiction; run_registry; rewrite Hbucket, Hobj; reflexivity.
  - intros lib w h action s bucket err Hbucket Hobj Hcred.
    destruct h; run_registry; rewrite Hbucket;
      try (destruct Hobj as [[=]|[object Hobj]]; rewrite Hobj); rewrite Hcred; reflexivity.
Qed.

Lemma semantic_checks_in_order_witness :
  let lib := Sample.semanticLib (Ok Sample.bucketNoKey) in
  let action := Sample.semanticAction "DownloadAction" [] in
  Semantic.runHandler lib Sample.world Semantic.DownloadHandler action Sample.start
  = (Semantic.ReturnActionError lib action "Failed to extract S3 object"
       (Some "object is required"), Sample.start).
Proof.
  apply (proj1 (proj2 semantic_checks_in_order)
           (Sample.semanticLib (Ok Sample.bucketNoKey)) Sample.world Semantic.DownloadHandler
           (Sample.semanticAction "DownloadAction" []) Sample.start Sample.bucketNoKey
           "object is required"); [discriminate | reflexivity | reflexivity].
Defined.

(** ** The REST adapter *)

Lemma serve_envelope {A : Type} (json_Marshal : Rest.JSONValue -> result string)
    (handle : result string -> M (Response A)) req envelope :
  RestEnvelope.ofRequest req = Some envelope ->
  Rest.serve json_Marshal handle req = Rest.callSemanticHandler json_Marshal handle envelope.
Proof.
  destruct req as [[r|e]|key bucket|key bucket| |[r|e]]; cbn;
    unfold Rest.getObjectREST, Rest.deleteObjectREST, Rest.listBucketsREST;
    repeat case_decide; intros [= <-]; reflexivity.
Qed.

Lemma envelope_type req envelope :
  RestEnvelope.ofRequest req = Some envelope ->
  exists actionType,
    RestEnvelope.jsonString ["@type"] envelope = Some actionType
    /\ Semantic.route actionType = Some (RestEnvelope.handler req).
Proof.
  destruct req as [[r|e]|key bucket|key bucket| |[r|e]]; cbn;
    unfold Rest.uploadObjectEnvelope, Rest.getObjectEnvelope, Rest.deleteObjectEnvelope,
      Rest.withBucket;
    repeat case_decide; intros [= <-]; eexists; split; reflexivity.
Qed.

(** X15.  A REST request that passes its validation is, once marshalled
    and parsed, exactly one run of the handler its envelope's [@type]
    selects: the upload handler for POST /objects and for POST /buckets,
    the delete handler for DELETE /objects/:key, and the list handler for
    GET /objects/:key and for GET /buckets.  No REST route reaches the
    download handler. *)
Theorem rest_requests_never_download lib w json_Marshal req envelope body action s :
  RestEnvelope.ofRequest req = Some envelope ->
  json_Marshal envelope = Ok body ->
  Semantic.ParseSemanticAction lib body = Ok action ->
  RestEnvelope.jsonString ["@type"] envelope
  = Some (Semantic.SemanticAction.Type_ action) ->
  Semantic.route (Semantic.SemanticAction.Type_ action) = Some (RestEnvelope.handler req)
  /\ RestEnvelope.handler req <> Semantic.DownloadHandler
  /\ Rest.serve json_Marshal (Semantic.handleSemanticAction lib w) req s
     = Semantic.runHandler lib w (RestEnvelope.handler req) action s.
Proof.
  intros Henv Hmarshal Hparse Htype.
  destruct (envelope_type _ _ Henv) as (actionType & Htype' & Hroute).
  rewrite Htype in Htype'. injection Htype' as <-.
  split; [exact Hroute|]. split; [by destruct req|].
  rewrite (serve_envelope _ _ _ _ Henv). unfold Rest.callSemanticHandler.
  rewrite Hmarshal. unfold Semantic.handleSemanticAction. rewrite Hparse, Hroute.
  reflexivity.
Qed.

Lemma rest_requests_never_download_witness :
  let lib := Sample.semanticLib (Ok Sample.bucket) in
  let action := Semantic.SemanticAction.mk "CreateAction" "" ∅ in
  let req := Rest.PostBuckets (Ok (Rest.CreateBucketRequest.mk "reports")) in
  Semantic.route "CreateAction" = Some Semantic.UploadHandler
  /\ Semantic.UploadHandler <> Semantic.DownloadHandler
  /\ Rest.serve Sample.marshal (Semantic.handleSemanticAction lib Sample.world) req
       Sample.start
     = Semantic.executeUploadAction lib Sample.world action Sample.start.
Proof.
  apply (rest_requests_never_download (Sample.semanticLib (Ok Sample.bucket)) Sample.world
           Sample.marshal (Rest.PostBuckets (Ok (Rest.CreateBucketRequest.mk "reports")))
           (Rest.createBucketEnvelope (Rest.CreateBucketRequest.mk "reports"))
           "CreateAction" (Semantic.SemanticAction.mk "CreateAction" "" ∅) Sample.start);
    reflexivity.
Defined.

(** X16.  What the REST adapter puts into an envelope can be read back
    from it: the key under object.identifier, the content under
    object.text, the bucket name of a creation under object.name, and the
    bucket parameter under instrument.value exactly when it is non-empty.
    No envelope carries a target, and none carries a local content path on
    its object. *)
Theorem rest_envelope_carries_the_request :
  (forall r,
      let envelope := Rest.uploadObjectEnvelope r in
      RestEnvelope.jsonString ["@type"] envelope = Some "CreateAction"
      /\ RestEnvelope.jsonString ["object"; "identifier"] envelope
         = Some (Rest.UploadObjectRequest.Key r)
      /\ RestEnvelope.jsonString ["object"; "text"] envelope
         = Some (Rest.UploadObjectRequest.Content r)
      /\ RestEnvelope.jsonString ["instrument"; "value"] envelope
         = nonEmpty (Rest.UploadObjectRequest.Bucket r))
  /\ (forall key bucket,
        let envelope := Rest.getObjectEnvelope key bucket in
        RestEnvelope.jsonString ["@type"] envelope = Some "SearchAction"
        /\ RestEnvelope.jsonString ["object"; "identifier"] envelope = Some key
        /\ RestEnvelope.jsonString ["instrument"; "value"] envelope = nonEmpty bucket)
  /\ (forall key bucket,
        let envelope := Rest.deleteObjectEnvelope key bucket in
        RestEnvelope.jsonString ["@type"] envelope = Some "DeleteAction"
        /\ RestEnvelope.jsonString ["object"; "identifier"] envelope = Some key
        /\ RestEnvelope.jsonString ["instrument"; "value"] envelope = nonEmpty bucket)
  /\ (forall r,
        let envelope := Rest.createBucketEnvelope r in
        RestEnvelope.jsonString ["@type"] envelope = Some "CreateAction"
        /\ RestEnvelope.jsonString ["object"; "name"] envelope
           = Some (Rest.CreateBucketRequest.Name r)
        /\ RestEnvelope.jsonString ["object"; "identifier"] envelope = Some "bucket")
  /\ (forall req envelope,
        RestEnvelope.ofRequest req = Some envelope ->
        Rest.jsonField "target" envelope = None
        /\ RestEnvelope.jsonPath ["object"; "contentUrl"] envelope = None).
Proof.
  unfold Rest.uploadObjectEnvelope, Rest.getObjectEnvelope, Rest.deleteObjectEnvelope,
    Rest.withBucket, nonEmpty.
  split; [|split; [|split; [|split]]].
  - intros r. cbv zeta. case_decide; repeat split; reflexivity.
  - intros key bucket. cbv zeta. case_decide; repeat split; reflexivity.
  - intros key bucket. cbv zeta. case_decide; repeat split; reflexivity.
  - intros r. repeat split; reflexivity.
  - intros req envelope.
    destruct req as [[r|e]|key bucket|key bucket| |[r|e]]; cbn;
      unfold Rest.uploadObjectEnvelope, Rest.getObjectEnvelope, Rest.deleteObjectEnvelope,
        Rest.withBucket;
      repeat case_decide; intros [= <-]; split; reflexivity.
Qed.

Lemma rest_envelope_carries_the_request_witness :
  let envelope := Rest.getObjectEnvelope "results/output.xml" "my-bucket" in
  Rest.jsonField "target" envelope = None
  /\ RestEnvelope.jsonPath ["object"; "contentUrl"] envelope = None.
Proof.
  apply (proj2 (proj2 (proj2 (proj2 rest_envelope_carries_the_request)))
           (Rest.GetObjects "results/output.xml" "my-bucket")).
  reflexivity.
Defined.

(** ** What the [SemanticAction] handlers write *)



(** ** The registered handlers and the handlers of [cmd/semantic_api.go] *)

Lemma registry_agrees libS libR w h aS aR s :
  Agreement.sameRequest libS libR aS aR ->
  snd (Semantic.runHandler libS w h aS s)
  = snd (Registry.runHandler libR w h (Registry.ISemanticAction aR) s)
  /\ Agreement.sameOutcome libS libR aS aR
       (fst (Semantic.runHandler libS w h aS s))
       (fst (Registry.runHandler libR w h (Registry.ISemanticAction aR) s)).
Proof.
  intros (Hbucket & Hobj & Hcred & Htarget & Hquery). unfold Agreement.sameOutcome.
  destruct h; run_semantic; run_registry.
  all: unfold Semantic.queryPrefix, Registry.queryPrefix.
  all: rewrite ?Hbucket, ?Hobj, ?Htarget, ?Hquery.
  all: repeat first [rewrite Hcred | branch; cbn].
  all: split; [reflexivity|].
  all: first [by left; eauto | by right; eauto].
Qed.

(** X18.  The registered handlers behave to the outside as the handlers of
    [cmd/semantic_api.go] do.  When the two libraries read the same bucket,
    object, credentials, target key and query off their actions, the two
    runs end in the same state (same calls in the same order, same clock
    readings) and in the same outcome: the library's error response for
    the same message and cause, or a success.  The same holds for a whole
    request when the registry hands the parsed action to the handler the
    switch would select.  A registered handler that is handed anything
    but a [SemanticAction] answers 400 "Invalid action type" and makes no
    call. *)
Theorem registry_makes_the_same_calls :
  (forall libS libR w h aS aR s,
      Agreement.sameRequest libS libR aS aR ->
      snd (Semantic.runHandler libS w h aS s)
      = snd (Registry.runHandler libR w h (Registry.ISemanticAction aR) s)
      /\ Agreement.sameOutcome libS libR aS aR
           (fst (Semantic.runHandler libS w h aS s))
           (fst (Registry.runHandler libR w h (Registry.ISemanticAction aR) s)))
  /\ (forall libS libR w h body aS aR s,
        Semantic.ParseSemanticAction libS body = Ok aS ->
        Registry.ParseSemanticAction libR body = Ok aR ->
        Semantic.route (Semantic.SemanticAction.Type_ aS) = Some h ->
        Registry.Handle libR aR s
        = Registry.runHandler libR w h (Registry.ISemanticAction aR) s ->
        Agreement.sameRequest libS libR aS aR ->
        snd (Semantic.handleSemanticAction libS w (Ok body) s)
        = snd (Registry.handleSemanticAction libR (Ok body) s)
        /\ Agreement.sameOutcome libS libR aS aR
             (fst (Semantic.handleSemanticAction libS w (Ok body) s))
             (fst (Registry.handleSemanticAction libR (Ok body) s)))
  /\ (forall libR w h goType s,
        Registry.runHandler libR w h (Registry.IOther goType) s
        = (HTTPError StatusBadRequest "Invalid action type", s)).
Proof.
  split; [|split].
  - intros. by apply registry_agrees.
  - intros libS libR w h body aS aR s HparseS HparseR Hroute Hhandle Hsame.
    unfold Semantic.handleSemanticAction, Registry.handleSemanticAction.
    rewrite HparseS, HparseR, Hroute, Hhandle. by apply registry_agrees.
  - intros libR w h goType s. destruct h; reflexivity.
Qed.

Lemma registry_makes_the_same_calls_witness :
  let props :=
    [("object", Semantic.AS3Object (Sample.object "results/output.xml" "" ""))] in
  snd (Semantic.runHandler (Sample.semanticLib (Ok Sample.bucket)) Sample.world
         Semantic.DownloadHandler (Sample.semanticAction "DownloadAction" props)
         Sample.start)
  = snd (Registry.runHandler (RegistrySample.lib (Ok Sample.bucket)) Sample.world
           Semantic.DownloadHandler
           (Registry.ISemanticAction (RegistrySample.action "DownloadAction" props))
           Sample.start).
Proof.
  apply (proj1 registry_makes_the_same_calls (Sample.semanticLib (Ok Sample.bucket))
           (RegistrySample.lib (Ok Sample.bucket)) Sample.world Semantic.DownloadHandler
           (Sample.semanticAction "DownloadAction"
              [("object", Semantic.AS3Object (Sample.object "results/output.xml" "" ""))])
           (RegistrySample.action "DownloadAction"
              [("object", Semantic.AS3Object (Sample.object "results/output.xml" "" ""))])
           Sample.start).
  repeat split; reflexivity.
Defined.

(** ** The typed handlers and the handlers of [cmd/semantic_api.go] *)

(** X19.  The typed handlers and the handlers of [cmd/semantic_api.go]
    make the same calls, in the same order, on a request that carries a
    target and (but for a listing) an object, when the semantic library
    reads that request off its action; they differ in the order of their
    checks and in the clock readings only, neither of which is a call. *)
Theorem typed_and_semantic_make_the_same_calls libT libS w aT aS h sT sS :
  Call.handler aT = Some h ->
  TypedAgreement.sameRequest libT libS aT aS ->
  appended sT (snd (Typed.dispatch libT w aT sT))
  = appended sS (snd (Semantic.runHandler libS w h aS sS)).
Proof.
  intros Hh (bucket & Htarget & Hbucket & Hcred & Hrest).
  destruct aT as [v|v|v|v|?]; try contradiction; injection Hh as <-.
  all: cbn [Envelope.target] in Htarget.
  1: destruct Hrest as [(object & Hobj & HobjS) HtargetUrl].
  2,3: destruct Hrest as (object & Hobj & HobjS).
  all: run_typed; run_semantic.
  all: rewrite Htarget, Hbucket, ?Hobj, ?HobjS, ?HtargetUrl, ?Hrest, Hcred.
  all: repeat (first [fail_frame | branch]; cbn); appended_simpl; reflexivity.
Qed.

Lemma typed_and_semantic_make_the_same_calls_witness :
  let props :=
    [("object", Semantic.AS3Object (Sample.object "results/output.xml" "" ""))] in
  appended Sample.start
    (snd (Typed.dispatch Sample.lib Sample.world
            (Typed.ADownload (Sample.download (Some Sample.bucket) "results/output.xml" "" ""))
            Sample.start))
  = appended Sample.start
      (snd (Semantic.runHandler (Sample.semanticLib (Ok Sample.bucket)) Sample.world
              Semantic.DownloadHandler (Sample.semanticAction "DownloadAction" props)
              Sample.start)).
Proof.
  apply (typed_and_semantic_make_the_same_calls Sample.lib
           (Sample.semanticLib (Ok Sample.bucket)) Sample.world
           (Typed.ADownload (Sample.download (Some Sample.bucket) "results/output.xml" "" ""))
           (Sample.semanticAction "DownloadAction"
              [("object", Semantic.AS3Object (Sample.object "results/output.xml" "" ""))])
           Semantic.DownloadHandler Sample.start Sample.start eq_refl).
  exists Sample.bucket. repeat split. eexists. split; reflexivity.
Defined.

(** ** The result the registered handlers record *)

(** X20.  The registered handlers record their result on the action as a
    [SemanticResult].  A download that goes through records a
    DigitalDocument whose map holds the local path as content URL, the
    key's base name, the copied size and the encoding format, and no
    upload date.  A listing that goes through records a Dataset with one
    entry per object of the page, in the page's order, each with the
    object's s3:// URL, base name, size and modification date, and no
    identifier. *)
Theorem registry_result_is_a_semantic_result :
  (forall lib w action s bucket object cred client body size,
      Registry.GetS3BucketFromAction lib action = Ok bucket ->
      Registry.GetS3ObjectFromAction lib action = Ok object ->
      Registry.ExtractS3Credentials lib (Some bucket) = Ok cred ->
      Spec.objectKey object <> "" ->
      createS3Client w (cred_url cred) (cred_region cred) (cred_accessKey cred)
        (cred_secretKey cred) = Ok client ->
      s3_GetObject w client
        (GetObjectInput.mk (cred_bucketName cred) (Spec.objectKey object)) = Ok body ->
      os_Create w (Spec.downloadPath object) = None ->
      io_Copy w (Spec.downloadPath object) body = Ok size ->
      exists action' fields,
        fst (Registry.executeDownloadActionImpl lib w action s)
        = JSON StatusOK (Registry.SetSuccessOnAction lib action')
        /\ Registry.SemanticAction.Result action'
           = Some (Registry.SemanticResult.mk "DigitalDocument"
                     (S3Object.EncodingFormat object) (Registry.VMap fields))
        /\ fields !! "contentUrl" = Some (Registry.SString (Spec.downloadPath object))
        /\ fields !! "name"
           = Some (Registry.SString (filepath.Base (Spec.objectKey object)))
        /\ fields !! "contentSize" = Some (Registry.SInt size)
        /\ fields !! "encodingFormat"
           = Some (Registry.SString (S3Object.EncodingFormat object))
        /\ fields !! "uploadDate" = None)
  /\ (forall lib w action s bucket cred client page,
        Registry.GetS3BucketFromAction lib action = Ok bucket ->
        Registry.ExtractS3Credentials lib (Some bucket) = Ok cred ->
        createS3Client w (cred_url cred) (cred_region cred) (cred_accessKey cred)
          (cred_secretKey cred) = Ok client ->
        s3_ListObjectsV2 w client
          (ListObjectsV2Input.mk (cred_bucketName cred) (Registry.queryPrefix action) None)
        = Ok page ->
        exists action' items,
          fst (Registry.executeListActionImpl lib w action s)
          = JSON StatusOK (Registry.SetSuccessOnAction lib action')
          /\ Registry.SemanticAction.Result action'
             = Some (Registry.SemanticResult.mk "Dataset" "application/json"
                       (Registry.VList items))
          /\ length items = length (ListObjectsV2Output.Contents page)
          /\ forall i obj,
               ListObjectsV2Output.Contents page !! i = Some obj ->
               exists fields,
                 items !! i = Some fields
                 /\ fields !! "contentUrl"
                    = Some (Registry.SString (s3Url (cred_bucketName cred) (Object.Key obj)))
                 /\ fields !! "name"
                    = Some (Registry.SString (filepath.Base (Object.Key obj)))
                 /\ fields !! "contentSize" = Some (Registry.SInt (Object.Size obj))
                 /\ fields !! "uploadDate"
                    = Some (Registry.SString (Object.LastModified obj))
                 /\ fields !! "identifier" = None).
Proof.
  split.
  - intros lib w action s bucket object cred client body size
      Hbucket Hobj Hcred Hkey Hclient Hget Hcreate Hcopy.
    run_registry. rewrite Hbucket, Hobj, Hcred. cbn.
    rewrite !orDefault_objectKey, orDefault_downloadPath.
    destruct (decide (Spec.objectKey object = "")) as [|_]; [done|].
    rewrite Hclient. cbn. rewrite Hget. cbn. rewrite Hcreate. cbn. rewrite Hcopy. cbn.
    eexists _, _. split; [reflexivity|]. split; [reflexivity|].
    repeat split; reflexivity.
  - intros lib w action s bucket cred client page Hbucket Hcred Hclient Hlist.
    run_registry. rewrite Hbucket, Hcred. cbn. rewrite Hclient. cbn. rewrite Hlist. cbn.
    eexists _, _. split; [reflexivity|]. split; [reflexivity|].
    split; [apply length_map|].
    intros i obj Hi. eexists. split; [rewrite list_lookup_fmap, Hi; reflexivity|].
    repeat split; reflexivity.
Qed.

Lemma registry_result_is_a_semantic_result_witness :
  let action := RegistrySample.action "SearchAction" [("query", Semantic.AString "data/")] in
  exists action' items,
    fst (Registry.executeListActionImpl (RegistrySample.lib (Ok Sample.bucket)) Sample.world
           action Sample.start)
    = JSON StatusOK
        (Registry.SetSuccessOnAction (RegistrySample.lib (Ok Sample.bucket)) action')
    /\ Registry.SemanticAction.Result action'
       = Some (Registry.SemanticResult.mk "Dataset" "application/json"
                 (Registry.VList items))
    /\ length items = 2.
Proof.
  cbv zeta.
  destruct (proj2 registry_result_is_a_semantic_result
              (RegistrySample.lib (Ok Sample.bucket)) Sample.world
              (RegistrySample.action "SearchAction" [("query", Semantic.AString "data/")])
              Sample.start Sample.bucket
              (mkCredentials "https://fsn1.your-objectstorage.com" "fsn1" "access" "secret"
                 "my-bucket")
              (mkS3Client "https://fsn1.your-objectstorage.com" "fsn1" "access" "secret" true)
              Sample.page eq_refl eq_refl eq_refl eq_refl)
    as (action' & items & Hrun & Hresult & Hlength & _).
  exists action', items. repeat split; assumption.
Defined.

(** ** The configuration loader of the integration tests *)

Section TestEnvFacts.
Import TestEnv.
Variable bytes_TrimSpace : list ascii -> list ascii.

Lemma vars_eq (v1 v2 : Vars) :
  (forall name, name ∈ fourNames -> get name v1 = get name v2) -> v1 = v2.
Proof.
  intros H. destruct v1 as [a1 b1 c1 d1], v2 as [a2 b2 c2 d2].
  pose proof (H "URL" ltac:(unfold fourNames; set_solver)) as Ha.
  pose proof (H "ACCESS_KEY" ltac:(unfold fourNames; set_solver)) as Hb.
  pose proof (H "SECRET_KEY" ltac:(unfold fourNames; set_solver)) as Hc.
  pose proof (H "BUCKET" ltac:(unfold fourNames; set_solver)) as Hd.
  vm_compute in Ha, Hb, Hc, Hd. congruence.
Qed.

Lemma get_assign name key value vars :
  name ∈ fourNames ->
  get name (assign key value vars) = if decide (key = name) then value else get name vars.
Proof.
  unfold fourNames. intros Hname.
  repeat (apply elem_of_cons in Hname as [->|Hname]); [..|by apply elem_of_nil in Hname].
  all: unfold assign; repeat case_decide; subst; try discriminate; try reflexivity;
    try congruence.
Qed.

(** A line either leaves the variables alone or assigns one of them. *)
Lemma loadLine_assignment vars line :
  loadLine bytes_TrimSpace vars line
  = match assignment bytes_TrimSpace line with
    | Some (key, value) => assign key value vars
    | None => vars
    end.
Proof.
  unfold loadLine, assignment. destruct line as [|c rest]; [reflexivity|].
  case_bool_decide; [reflexivity|].
  destruct (splitN2 _ _) as [[before after]|]; [|reflexivity].
  cbv zeta. case_bool_decide as Hkey; [reflexivity|].
  unfold assign. repeat case_decide; try reflexivity.
  all: exfalso; apply Hkey;
    match goal with H : _ = _ |- _ => rewrite H end; unfold fourNames; set_solver.
Qed.

Lemma get_loadLine name vars line :
  name ∈ fourNames ->
  get name (loadLine bytes_TrimSpace vars line)
  = match assignment bytes_TrimSpace line with
    | Some (key, value) => if decide (key = name) then value else get name vars
    | None => get name vars
    end.
Proof.
  intros Hname. rewrite loadLine_assignment.
  destruct (assignment _ _) as [[key value]|]; [|reflexivity].
  by apply get_assign.
Qed.

Lemma get_loadLines name lines vars :
  name ∈ fourNames ->
  get name (loadLines bytes_TrimSpace lines vars)
  = default (get name vars) (lastAssigned bytes_TrimSpace name lines).
Proof.
  intros Hname. unfold loadLines, lastAssigned.
  induction lines as [|line lines IH] using rev_ind; [reflexivity|].
  rewrite fold_left_app. cbn [fold_left]. rewrite (get_loadLine _ _ _ Hname), IH.
  rewrite omap_app.
  destruct (assignment _ line) as [[key value]|] eqn:Hline.
  - destruct (decide (key = name)) as [Hkey|Hkey].
    + replace (omap _ [line]) with [value] by (cbn; rewrite Hline, decide_True by done; done).
      rewrite last_snoc. reflexivity.
    + replace (omap _ [line]) with (@nil string)
        by (cbn; rewrite Hline, decide_False by done; done).
      rewrite app_nil_r. reflexivity.
  - replace (omap _ [line]) with (@nil string) by (cbn; rewrite Hline; done).
    rewrite app_nil_r. reflexivity.
Qed.

Lemma splitN2_first key value :
  Forall (fun c => c <> "="%char) key ->
  splitN2 "="%char (key ++ "="%char :: value) = Some (key, value).
Proof.
  induction 1 as [|c key Hc _ IH]; cbn.
  - reflexivity.
  - rewrite bool_decide_eq_false_2 by assumption. rewrite IH. reflexivity.
Qed.

Lemma splitN2_none line :
  Forall (fun c => c <> "="%char) line -> splitN2 "="%char line = None.
Proof.
  induction 1 as [|c line Hc _ IH]; cbn; [reflexivity|].
  rewrite bool_decide_eq_false_2 by assumption. rewrite IH. reflexivity.
Qed.

Lemma splitN2_Some line before after :
  splitN2 "="%char line = Some (before, after) ->
  line = before ++ "="%char :: after /\ Forall (fun c => c <> "="%char) before.
Proof.
  revert before. induction line as [|c line IH]; intros before; cbn; [discriminate|].
  case_bool_decide as Hc.
  - intros [= <- <-]. subst c. split; [reflexivity | constructor].
  - destruct (splitN2 _ line) as [[before' after']|]; [|discriminate].
    intros [= <- <-]. destruct (IH before' eq_refl) as [-> Hbefore].
    split; [reflexivity | by constructor].
Qed.

(** [assignment] finds the assignment a line makes. *)
Lemma assignment_assigns name value line :
  name ∈ fourNames ->
  assignment bytes_TrimSpace line = Some (name, value)
  <-> assigns bytes_TrimSpace name value line.
Proof.
  intros Hname. unfold assignment, assigns. split.
  - destruct line as [|c rest]; [discriminate|].
    case_bool_decide as Hhash; [discriminate|].
    destruct (splitN2 _ _) as [[before after]|] eqn:Hsplit; [|discriminate].
    cbv zeta. case_bool_decide; [|discriminate]. intros [= <- <-].
    apply splitN2_Some in Hsplit as [Hline Hbefore].
    split; [cbn; congruence|]. exists before, after. by rewrite Hline.
  - intros (Hhash & key & rest & -> & Hkey & <- & <-).
    destruct (key ++ "="%char :: rest) as [|c line] eqn:Hline;
      [by destruct key|].
    rewrite bool_decide_eq_false_2 by (intros ->; by apply Hhash).
    rewrite <- Hline, (splitN2_first _ _ Hkey). cbv zeta.
    by rewrite bool_decide_eq_true_2.
Qed.

Lemma assignment_known line key value :
  assignment bytes_TrimSpace line = Some (key, value) -> key ∈ fourNames.
Proof.
  unfold assignment. destruct line as [|c rest]; [discriminate|].
  case_bool_decide; [discriminate|].
  destruct (splitN2 _ _) as [[before after]|]; [|discriminate].
  cbv zeta. case_bool_decide; [|discriminate]. by intros [= <- <-].
Qed.

(** What a line contributes to [lastAssigned]. *)
Lemma lastAssigned_line name line :
  name ∈ fourNames ->
  match assignment bytes_TrimSpace line with
  | Some (key, value) => if decide (key = name) then Some value else None
  | None => None
  end = None
  <-> forall value, ~ assigns bytes_TrimSpace name value line.
Proof.
  intros Hname. split.
  - intros Hnone value Hassigns. apply (assignment_assigns _ _ _ Hname) in Hassigns.
    rewrite Hassigns, decide_True in Hnone by done. discriminate.
  - intros Hnot. destruct (assignment _ line) as [[key value]|] eqn:Hline; [|reflexivity].
    case_decide as Hkey; [|reflexivity]. subst key. exfalso.
    by apply (Hnot value), assignment_assigns.
Qed.

Lemma lastAssigned_none name lines :
  name ∈ fourNames ->
  Forall (fun line => forall value, ~ assigns bytes_TrimSpace name value line) lines ->
  omap (fun line =>
          match assignment bytes_TrimSpace line with
          | Some (key, value) => if decide (key = name) then Some value else None
          | None => None
          end) lines = [].
Proof.
  intros Hname. induction 1 as [|line lines Hline _ IH]; [reflexivity|].
  apply (lastAssigned_line _ _ Hname) in Hline.
  change (line :: lines) with ([line] ++ lines). rewrite omap_app, IH, app_nil_r.
  cbn [omap list_omap]. rewrite Hline. reflexivity.
Qed.

Lemma lastAssigned_last name value before line rest :
  name ∈ fourNames ->
  assigns bytes_TrimSpace name value line ->
  Forall (fun line => forall value, ~ assigns bytes_TrimSpace name value line) rest ->
  lastAssigned bytes_TrimSpace name (before ++ line :: rest) = Some value.
Proof.
  intros Hname Hline Hrest. unfold lastAssigned.
  rewrite omap_app. change (line :: rest) with ([line] ++ rest).
  rewrite omap_app, (lastAssigned_none _ _ Hname Hrest), app_nil_r.
  apply (assignment_assigns _ _ _ Hname) in Hline.
  cbn [omap list_omap]. rewrite Hline, decide_True by done. apply last_snoc.
Qed.

(** [split] recovers the lines of a file. *)
Lemma split_line line :
  Forall (fun c => c <> newline) line -> split newline line = [line].
Proof.
  induction 1 as [|c line Hc _ IH]; [reflexivity|].
  cbn. rewrite bool_decide_eq_false_2 by assumption. rewrite IH. reflexivity.
Qed.

Lemma split_app line data :
  Forall (fun c => c <> newline) line ->
  split newline (line ++ newline :: data) = line :: split newline data.
Proof.
  induction 1 as [|c line Hc _ IH]; cbn.
  - reflexivity.
  - rewrite bool_decide_eq_false_2 by assumption. rewrite IH. reflexivity.
Qed.

Lemma split_joinLines lines :
  Forall (Forall (fun c => c <> newline)) lines ->
  lines <> [] ->
  split newline (joinLines lines) = lines.
Proof.
  induction 1 as [|line rest Hline Hrest IH]; [done|]. intros _.
  destruct rest as [|line' rest].
  - cbn. by apply split_line.
  - change (joinLines (line :: line' :: rest))
      with (line ++ newline :: joinLines (line' :: rest)).
    rewrite (split_app _ _ Hline), IH by done. reflexivity.
Qed.

(** Loading the content of a file is loading its lines. *)
Lemma loadLines_joinLines lines vars :
  Forall (Forall (fun c => c <> newline)) lines ->
  loadLines bytes_TrimSpace (split newline (joinLines lines)) vars
  = loadLines bytes_TrimSpace lines vars.
Proof.
  intros Hlines. destruct lines as [|line rest]; [reflexivity|].
  rewrite split_joinLines by done. reflexivity.
Qed.

Lemma loadLines_idempotent lines vars :
  loadLines bytes_TrimSpace lines (loadLines bytes_TrimSpace lines vars)
  = loadLines bytes_TrimSpace lines vars.
Proof.
  apply vars_eq. intros name Hname.
  rewrite !(get_loadLines name lines _ Hname).
  destruct (lastAssigned bytes_TrimSpace name lines); reflexivity.
Qed.

Lemma incomplete_false vars :
  incomplete vars = false
  <-> testURL vars <> "" /\ testAccessKey vars <> ""
      /\ testSecretKey vars <> "" /\ testBucket vars <> "".
Proof.
  unfold incomplete. rewrite !orb_false_iff, !bool_decide_eq_false. tauto.
Qed.

End TestEnvFacts.

(** X21.  The configuration loader of the integration tests reads
    [../test.env] line by line.  Each of its four variables ends up with
    the trimmed value of the last line of the file that assigns it, and
    with the value it had before when no line of the file does; so loading
    the same file a second time changes nothing.  The test goes on exactly
    when the file was read and none of [testURL], [testAccessKey],
    [testSecretKey] and [testBucket] is empty afterwards; a file that
    cannot be read skips the test with "... test.env not found: ..." and
    leaves the variables as they were, and a variable left empty skips it
    with "... incomplete test.env configuration". *)
Theorem test_env_last_assignment_wins :
  (forall bytes_TrimSpace os_ReadFile vars lines name,
      name ∈ TestEnv.fourNames ->
      Forall (Forall (fun c => c <> TestEnv.newline)) lines ->
      os_ReadFile "../test.env"
      = Ok (String.string_of_list_ascii (TestEnv.joinLines lines)) ->
      (forall before line rest value,
          lines = before ++ line :: rest ->
          TestEnv.assigns bytes_TrimSpace name value line ->
          Forall (fun l => forall v, ~ TestEnv.assigns bytes_TrimSpace name v l) rest ->
          TestEnv.get name (snd (TestEnv.loadTestEnv bytes_TrimSpace os_ReadFile vars))
          = value)
      /\ (Forall (fun l => forall v, ~ TestEnv.assigns bytes_TrimSpace name v l) lines ->
          TestEnv.get name (snd (TestEnv.loadTestEnv bytes_TrimSpace os_ReadFile vars))
          = TestEnv.get name vars))
  /\ (forall bytes_TrimSpace os_ReadFile vars,
        snd (TestEnv.loadTestEnv bytes_TrimSpace os_ReadFile
               (snd (TestEnv.loadTestEnv bytes_TrimSpace os_ReadFile vars)))
        = snd (TestEnv.loadTestEnv bytes_TrimSpace os_ReadFile vars))
  /\ (forall bytes_TrimSpace os_ReadFile vars,
        (fst (TestEnv.loadTestEnv bytes_TrimSpace os_ReadFile vars) = TestEnv.Loaded
         <-> (exists data, os_ReadFile "../test.env" = Ok data)
             /\ TestEnv.testURL (snd (TestEnv.loadTestEnv bytes_TrimSpace os_ReadFile vars))
                <> ""
             /\ TestEnv.testAccessKey
                  (snd (TestEnv.loadTestEnv bytes_TrimSpace os_ReadFile vars)) <> ""
             /\ TestEnv.testSecretKey
                  (snd (TestEnv.loadTestEnv bytes_TrimSpace os_ReadFile vars)) <> ""
             /\ TestEnv.testBucket
                  (snd (TestEnv.loadTestEnv bytes_TrimSpace os_ReadFile vars)) <> "")
        /\ (forall err,
              os_ReadFile "../test.env" = Err err ->
              TestEnv.loadTestEnv bytes_TrimSpace os_ReadFile vars
              = (TestEnv.Skipped
                   ("Skipping integration test: test.env not found: " +:+ err), vars))
        /\ (forall data,
              os_ReadFile "../test.env" = Ok data ->
              fst (TestEnv.loadTestEnv bytes_TrimSpace os_ReadFile vars) = TestEnv.Loaded
              \/ fst (TestEnv.loadTestEnv bytes_TrimSpace os_ReadFile vars)
                 = TestEnv.Skipped
                     "Skipping integration test: incomplete test.env configuration")).
Proof.
  assert (Hsnd : forall trim readFile vars,
             snd (TestEnv.loadTestEnv trim readFile vars)
             = match readFile "../test.env" with
               | Ok data =>
                   TestEnv.loadLines trim
                     (TestEnv.split TestEnv.newline (String.list_ascii_of_string data)) vars
               | Err _ => vars
               end).
  { intros trim readFile vars. unfold TestEnv.loadTestEnv.
    change (filepath.Join [".."; "test.env"]) with "../test.env".
    destruct (readFile "../test.env") as [data|err]; [|reflexivity].
    cbv zeta. by destruct (TestEnv.incomplete _). }
  split; [|split].
  - intros trim readFile vars lines name Hname Hlines Hread.
    rewrite Hsnd, Hread, String.list_ascii_of_string_of_list_ascii.
    rewrite (loadLines_joinLines trim lines vars Hlines).
    rewrite (get_loadLines trim name lines vars Hname). split.
    + intros before line rest value -> Hline Hrest.
      by rewrite (lastAssigned_last trim name value before line rest Hname Hline Hrest).
    + intros Hnone. unfold TestEnv.lastAssigned.
      by rewrite (lastAssigned_none trim name lines Hname Hnone).
  - intros trim readFile vars. rewrite !Hsnd.
    destruct (readFile "../test.env") as [data|err]; [|reflexivity].
    apply loadLines_idempotent.
  - intros trim readFile vars. rewrite <- !incomplete_false, Hsnd.
    unfold TestEnv.loadTestEnv.
    change (filepath.Join [".."; "test.env"]) with "../test.env".
    destruct (readFile "../test.env") as [data|err]; cbv zeta.
    + destruct (TestEnv.incomplete (TestEnv.loadLines trim _ vars)) eqn:Hinc; cbn.
      * split; [|split; [intros ? [=] | intros _ _; by right]].
        split; [intros [=] | intros [_ [=]]].
      * split; [|split; [intros ? [=] | intros _ _; by left]].
        split; [intros _; eauto | reflexivity].
    + split; [|split; [intros ? [= <-]; reflexivity | intros ? [=]]].
      split; [intros [=] | intros [[data [=]] _]].
Qed.

Lemma test_env_last_assignment_wins_witness :
  TestEnv.loadTestEnv TestEnv.trimSpace TestEnv.readFile TestEnv.unset
  = (TestEnv.Loaded,
     TestEnv.mkVars "https://fsn1.example.com/?a=b" "access" "secret" "second")
  /\ TestEnv.get "BUCKET"
       (snd (TestEnv.loadTestEnv TestEnv.trimSpace TestEnv.readFile TestEnv.unset))
     = "second".
Proof.
  split; [vm_compute; reflexivity|].
  assert (Hname : "BUCKET" ∈ TestEnv.fourNames)
    by (apply (bool_decide_unpack _); vm_compute; exact I).
  assert (Hlines : Forall (Forall (fun c => c <> TestEnv.newline)) TestEnv.lines)
    by (apply (bool_decide_unpack _); vm_compute; exact I).
  apply (proj1 (proj1 test_env_last_assignment_wins TestEnv.trimSpace TestEnv.readFile
                  TestEnv.unset TestEnv.lines "BUCKET" Hname Hlines eq_refl)
           (take 7 TestEnv.lines) (String.list_ascii_of_string "BUCKET=second") [[]]
           "second" eq_refl).
  - split; [discriminate|].
    exists (String.list_ascii_of_string "BUCKET"), (String.list_ascii_of_string "second").
    split; [reflexivity|]. split; [|split; reflexivity].
    apply (bool_decide_unpack _). vm_compute. exact I.
  - constructor; [|constructor].
    intros v (_ & key & rest & Hline & _). by destruct key.
Defined.

(** X22.  The loader skips a line that is empty, that starts with [#], or
    that holds no [=].  Any other line is split at its first [=] only, so
    a value may itself hold [=] signs; key and value are trimmed, and a
    key that is none of URL, ACCESS_KEY, SECRET_KEY and BUCKET assigns
    nothing. *)
Theorem test_env_ignores_what_is_no_assignment :
  (forall bytes_TrimSpace vars line,
      line = []
      \/ head line = Some "#"%char
      \/ Forall (fun c => c <> "="%char) line ->
      TestEnv.loadLine bytes_TrimSpace vars line = vars)
  /\ (forall bytes_TrimSpace vars key value,
        head key <> Some "#"%char ->
        Forall (fun c => c <> "="%char) key ->
        TestEnv.loadLine bytes_TrimSpace vars (key ++ "="%char :: value)
        = TestEnv.assign (String.string_of_list_ascii (bytes_TrimSpace key))
            (String.string_of_list_ascii (bytes_TrimSpace value)) vars)
  /\ (forall key value vars,
        key ∉ TestEnv.fourNames -> TestEnv.assign key value vars = vars).
Proof.
  split; [|split].
  - intros trim vars line [->|[Hhash|Hnone]]; [reflexivity|..].
    + destruct line as [|c rest]; [reflexivity|]. injection Hhash as ->. reflexivity.
    + unfold TestEnv.loadLine. destruct line as [|c rest]; [reflexivity|].
      rewrite (splitN2_none _ Hnone). by case_bool_decide.
  - intros trim vars key value Hhash Hkey.
    unfold TestEnv.loadLine. destruct key as [|c key]; [reflexivity|].
    cbn [app]. rewrite bool_decide_eq_false_2 by (intros ->; by apply Hhash).
    change (c :: key ++ "="%char :: value) with ((c :: key) ++ "="%char :: value).
    rewrite (splitN2_first _ _ Hkey). reflexivity.
  - intros key value vars Hkey. unfold TestEnv.assign.
    repeat case_decide; try reflexivity; subst; exfalso; apply Hkey;
      unfold TestEnv.fourNames; set_solver.
Qed.

Lemma test_env_ignores_what_is_no_assignment_witness :
  TestEnv.loadLine TestEnv.trimSpace TestEnv.unset
    (String.list_ascii_of_string "URL = https://fsn1.example.com/?a=b")
  = TestEnv.mkVars "https://fsn1.example.com/?a=b" "" "" "".
Proof.
  apply (proj1 (proj2 test_env_ignores_what_is_no_assignment) TestEnv.trimSpace
           TestEnv.unset (String.list_ascii_of_string "URL ")
           (String.list_ascii_of_string " https://fsn1.example.com/?a=b")).
  - discriminate.
  - repeat constructor; discriminate.
Defined.

(** ** Where a download without a local path may write *)

(** The default download path of every key. *)
Lemma default_path_cases key :
  (filepath.Base key = ".." /\ filepath.Join ["/tmp"; filepath.Base key] = "/")
  \/ ((filepath.Base key = "/" \/ filepath.Base key = ".")
      /\ filepath.Join ["/tmp"; filepath.Base key] = "/tmp")
  \/ (filepath.Join ["/tmp"; filepath.Base key] = "/tmp/" +:+ filepath.Base key
      /\ filepath.Base key <> ""
      /\ filepath.Base key <> "." /\ filepath.Base key <> ".."
      /\ filepath.noSeparator (String.list_ascii_of_string (filepath.Base key))).
Proof.
  destruct (decide (filepath.Base key = "..")) as [Hdotdot|Hdotdot].
  { left. rewrite Hdotdot. split; reflexivity. }
  destruct (decide (filepath.Base key = "/")) as [Hroot|Hroot].
  { right. left. rewrite Hroot. split; [by left | reflexivity]. }
  destruct (decide (filepath.Base key = ".")) as [Hdot|Hdot].
  { right. left. rewrite Hdot. split; [by right | reflexivity]. }
  right. right. split; [by apply Join_tmp_Base|].
  split; [apply Base_nonempty|]. split; [assumption|]. split; [assumption|].
  by destruct (Base_noSeparator key).
Qed.

(** X23.  A download whose object names no local path writes to
    [filepath.Join("/tmp", filepath.Base(key))], and that path is never
    anywhere but at or under /tmp, or the root: it is / when the key's
    base name is [..], /tmp when it is / or [.], and otherwise /tmp/
    followed by the base name, which holds no separator.  So the only
    paths such a run of the typed or of the [SemanticAction] handler may
    create are /, /tmp and a file directly in /tmp. *)
Theorem default_download_stays_under_tmp :
  (forall key,
      (filepath.Base key = ".." /\ filepath.Join ["/tmp"; filepath.Base key] = "/")
      \/ ((filepath.Base key = "/" \/ filepath.Base key = ".")
          /\ filepath.Join ["/tmp"; filepath.Base key] = "/tmp")
      \/ (filepath.Join ["/tmp"; filepath.Base key] = "/tmp/" +:+ filepath.Base key
          /\ filepath.Base key <> ""
          /\ filepath.Base key <> "." /\ filepath.Base key <> ".."
          /\ filepath.noSeparator (String.list_ascii_of_string (filepath.Base key))))
  /\ (forall lib w action s object path,
        S3DownloadAction.Object action = Some object ->
        S3Object.ContentUrl object = "" ->
        path ∈ createdPaths (appended s (snd (Typed.executeDownloadAction lib w action s))) ->
        path = "/" \/ path = "/tmp"
        \/ exists name,
             path = "/tmp/" +:+ name
             /\ name <> "" /\ name <> "." /\ name <> ".."
             /\ filepath.noSeparator (String.list_ascii_of_string name))
  /\ (forall lib w action s bucket object path,
        Semantic.GetS3BucketFromAction lib action = Ok bucket ->
        Semantic.GetS3ObjectFromAction lib action = Ok object ->
        S3Object.ContentUrl object = "" ->
        path ∈ createdPaths
                 (appended s (snd (Semantic.executeDownloadAction lib w action s))) ->
        path = "/" \/ path = "/tmp"
        \/ exists name,
             path = "/tmp/" +:+ name
             /\ name <> "" /\ name <> "." /\ name <> ".."
             /\ filepath.noSeparator (String.list_ascii_of_string name)).
Proof.
  assert (Hcases : forall object path,
             S3Object.ContentUrl object = "" ->
             path = Spec.downloadPath object ->
             path = "/" \/ path = "/tmp"
             \/ exists name,
                  path = "/tmp/" +:+ name
                  /\ name <> "" /\ name <> "." /\ name <> ".."
                  /\ filepath.noSeparator (String.list_ascii_of_string name)).
  { intros object path Hurl ->. rewrite (downloadPath_default _ Hurl).
    destruct (default_path_cases (Spec.objectKey object))
      as [[_ ->]|[[_ ->]|(-> & Hne & Hdot & Hdotdot & Hsep)]]; eauto 10. }
  split; [exact default_path_cases|]. split.
  - intros lib w action s object path Hobj Hurl Hin.
    rewrite (typed_download_calls _ _ _ _ _ Hobj) in Hin.
    apply createdPaths_downloadCalls in Hin. by apply (Hcases object).
  - intros lib w action s bucket object path Hbucket Hobj Hurl Hin.
    rewrite (semantic_download_calls _ _ _ _ _ _ Hbucket Hobj) in Hin.
    apply createdPaths_downloadCalls in Hin. by apply (Hcases object).
Qed.

Lemma default_download_stays_under_tmp_witness :
  let action := Sample.download (Some Sample.bucket) "reports/2024/.." "" "" in
  createdPaths
    (appended Sample.start
       (snd (Typed.executeDownloadAction Sample.lib Sample.world action Sample.start)))
  = ["/"]
  /\ ("/" = "/" \/ "/" = "/tmp"
      \/ exists name,
           "/" = "/tmp/" +:+ name
           /\ name <> "" /\ name <> "." /\ name <> ".."
           /\ filepath.noSeparator (String.list_ascii_of_string name)).
Proof.
  split; [vm_compute; reflexivity|].
  apply (proj1 (proj2 default_download_stays_under_tmp) Sample.lib Sample.world
           (Sample.download (Some Sample.bucket) "reports/2024/.." "" "") Sample.start
           (Sample.object "reports/2024/.." "" "") "/" eq_refl eq_refl).
  apply (bool_decide_unpack _). vm_compute. exact I.
Defined.
